(** * Tenant storage actor, auth pipeline and billing reconciliation

  A shallow embedding of the API worker of the template:
  - [durable-objects/organization-storage] : the per-tenant storage actor,
  - [middleware/auth]                      : [clerkAuth] and [internalAuth],
  - [utils/stripe-plan], [constants/plans] : plan resolution and plan limits,
  - [routes/billing/billing]               : customer provisioning and the
                                             usage summary,
  - [index]                                : the middleware mounted on [/api/*].

  External systems (SQLite behind [SqlStorage], the [jose] primitives, the
  Stripe and Clerk HTTP APIs, the clock) are explicit parameters or states
  of the model; the code of the repository is transcribed function by
  function on top of them. *)

From Stdlib Require Import ZArith String Ascii List Bool Lia.
From stdpp Require Import gmap strings.
Import ListNotations.

Set Warnings "-register-all".
Local Open Scope string_scope.
Local Open Scope list_scope.
Local Open Scope Z_scope.

(* ================================================================== *)
(** * JavaScript values, truthiness and completions *)
(* ================================================================== *)

Module Js.

(** The values that reach [query]/[exec] as [unknown] parameters.
    Numbers are the integral ones (epoch seconds, counters). *)
Inductive Value : Type :=
| VUndefined
| VNull
| VBool (b : bool)
| VNum (z : Z)
| VStr (s : string)
| VArr (elems : list Value).

(** Truthiness of a string: only [''] is falsy. *)
Definition truthy_string (s : string) : bool :=
  negb (String.eqb s "").

(** Truthiness of [string | null | undefined]. *)
Definition truthy (o : option string) : bool :=
  match o with
  | Some s => truthy_string s
  | None => false
  end.

(** [a || b] on [string | null | undefined] operands. *)
Definition or_else (a b : option string) : option string :=
  if truthy a then a else b.

(** [a || d] with a string default. *)
Definition or_default (a : option string) (d : string) : string :=
  match a with
  | Some s => if truthy_string s then s else d
  | None => d
  end.

(** What a [throw] carries. *)
Inductive Error : Type :=
| TypeError (message : string)
| SqlError (message : string)
| StripeError (message : string)
| JOSEError (code : string)
| FetchError (message : string)
| NotAnError (thrown : string).

(** [error instanceof Error ? error.message : 'Unknown error'] *)
Definition details_of (e : Error) : string :=
  match e with
  | TypeError m | SqlError m | StripeError m | FetchError m => m
  | JOSEError c => c
  | NotAnError _ => "Unknown error"
  end.

(** Normal or abrupt completion of a call. *)
Inductive Completion (A : Type) : Type :=
| Return (a : A)
| Throw (e : Error).
Arguments Return {A} a.
Arguments Throw {A} e.

(** A computation over a mutable state [S]; a [throw] keeps the writes
    made before it. *)
Definition Eff (S A : Type) : Type := S -> Completion A * S.

Definition ret {S A} (a : A) : Eff S A := fun s => (Return a, s).

Definition throw {S A} (e : Error) : Eff S A := fun s => (Throw e, s).

Definition bind {S A B} (m : Eff S A) (k : A -> Eff S B) : Eff S B :=
  fun s =>
    match m s with
    | (Return a, s') => k a s'
    | (Throw e, s') => (Throw e, s')
    end.

Definition gets {S A} (f : S -> A) : Eff S A := fun s => (Return (f s), s).

Definition modify {S} (f : S -> S) : Eff S unit := fun s => (Return tt, f s).

(** [try { body } catch (error) { handler(error) }] *)
Definition try_catch {S A} (body : Eff S A) (handler : Error -> Eff S A)
  : Eff S A :=
  fun s =>
    match body s with
    | (Return a, s') => (Return a, s')
    | (Throw e, s') => handler e s'
    end.

End Js.

Import Js.

Declare Scope eff_scope.
Delimit Scope eff_scope with eff.
Notation "'let*' x ':=' m 'in' k" := (bind m (fun x => k))
  (at level 10, x name, m at level 100, k at level 200,
   format "'[v' 'let*'  x  ':='  m  'in' '/' k ']'") : eff_scope.
Local Open Scope eff_scope.

(* ================================================================== *)
(** * constants/plans : plan tiers and their limits *)
(* ================================================================== *)

Module Plans.

(** [keyof typeof PLAN_LIMITS] *)
Inductive PlanType : Type := FREE | STANDARD | ENTERPRISE.

(** A numeric limit: a finite number or [Infinity]. *)
Inductive Limit : Type :=
| Finite (n : Z)
| Infinity.

Record Limits : Type := mkLimits {
  maxItems : Limit;
  maxStorage : Limit;
  features : list string
}.

Definition PLAN_LIMITS (p : PlanType) : Limits :=
  match p with
  | FREE => mkLimits (Finite 10) (Finite 100) ["basic"]
  | STANDARD => mkLimits (Finite 100) (Finite 1000) ["basic"; "advanced"]
  | ENTERPRISE => mkLimits Infinity Infinity ["basic"; "advanced"; "enterprise"]
  end.

(** [n < limit] for a finite left operand. *)
Definition lt_limit (n : Z) (l : Limit) : bool :=
  match l with
  | Finite m => n <? m
  | Infinity => true
  end.

End Plans.

Import Plans.

(* ================================================================== *)
(** * The Stripe client *)
(* ================================================================== *)

Module StripeApi.

(** One subscription of a list response.  [items_data] is
    [subscription.items.data]; [None] stands for a response in which
    [items] or [items.data] is missing, so that reading it throws. *)
Record Subscription : Type := mkSubscription {
  sub_id : string;
  sub_status : string;
  current_period_end : Z;
  cancel_at_period_end : bool;
  items_data : option (list (option string))   (* [items.data[i]?.price?.id] *)
}.

(** [subscriptions.data]; [None] when the response has no [data] array. *)
Record SubscriptionList : Type := mkSubscriptionList {
  data : option (list Subscription)
}.

Record CustomerCreateParams : Type := mkCustomerCreateParams {
  name : string;
  email : option string;
  metadata_organization_id : string;
  metadata_user_id : string
}.

(** The calls the worker sends to the provider, in order. *)
Inductive Call : Type :=
| SubscriptionsList (customer : string) (status : string) (limit : Z)
| CustomersCreate (params : CustomerCreateParams).

(** The provider: what it answers to a call, given the calls it has
    already received.  A [Throw] is a network error or an API error. *)
Record Stripe : Type := mkStripe {
  subscriptions_list_response :
    list Call -> string -> Completion SubscriptionList;
  customers_create_response :
    list Call -> CustomerCreateParams -> Completion string   (* [customer.id] *)
}.

(** [stripe.subscriptions.list({customer, status: 'active', limit: 1})] *)
Definition subscriptions_list (stripe : Stripe) (customer : string)
  : Eff (list Call) SubscriptionList :=
  fun log =>
    (subscriptions_list_response stripe log customer,
     log ++ [SubscriptionsList customer "active" 1]).

(** [stripe.customers.create(params)] *)
Definition customers_create (stripe : Stripe) (params : CustomerCreateParams)
  : Eff (list Call) string :=
  fun log =>
    (customers_create_response stripe log params,
     log ++ [CustomersCreate params]).

(** Number of customer creations in a call log. *)
Definition creations (log : list Call) : nat :=
  List.length (List.filter (fun c => match c with CustomersCreate _ => true | _ => false end) log).

End StripeApi.

Import StripeApi.

(* ================================================================== *)
(** * utils/stripe-plan *)
(* ================================================================== *)

Module StripePlan.

(** [subscriptions.data.length], throwing when [data] is missing. *)
Definition data_of (l : SubscriptionList) : Eff (list Call) (list Subscription) :=
  match data l with
  | Some d => ret d
  | None => throw (TypeError "Cannot read properties of undefined (reading 'length')")
  end.

(** [subscription.items.data[0]?.price?.id] *)
Definition first_price_id (s : Subscription) : Eff (list Call) (option string) :=
  match items_data s with
  | Some [] => ret None
  | Some (p :: _) => ret p
  | None => throw (TypeError "Cannot read properties of undefined (reading 'data')")
  end.

Definition getSubscriptionPlanType (stripe : Stripe) (customerId : string)
  : Eff (list Call) PlanType :=
  try_catch
    (let* subscriptions := subscriptions_list stripe customerId in
     let* d := data_of subscriptions in
     match d with
     | [] => ret FREE
     | subscription :: _ =>
         let* priceId := first_price_id subscription in
         ret STANDARD
     end)
    (fun error => ret FREE).

End StripePlan.

Import StripePlan.

(* ================================================================== *)
(** * The embedded relational store behind [SqlStorage] *)
(* ================================================================== *)

Module Sqlite.

(** A cell of a result row. *)
Inductive SqlValue : Type :=
| SqlNull
| SqlInteger (z : Z)
| SqlText (s : string).

(** A result row, as the object the cursor yields: column name to cell. *)
Definition SqlRow : Type := list (string * SqlValue).

(** A row of [organization_settings]; the [TEXT] columns are nullable,
    the timestamps are [INTEGER NOT NULL]. *)
Record Settings : Type := mkSettings {
  id : Z;
  stripe_customer_id : option string;
  creator_user_id : option string;
  creator_email : option string;
  created_at : Z;
  updated_at : Z
}.

(** The database of one actor: the table [organization_settings], absent
    until it is created. *)
Record Db : Type := mkDb {
  organization_settings : option (list Settings)
}.

Definition empty_db : Db := mkDb None.

(** The statements the repository issues, verbatim. *)
Definition CREATE_TABLE_SQL : string := "
      CREATE TABLE IF NOT EXISTS organization_settings (
        id INTEGER PRIMARY KEY AUTOINCREMENT,
        stripe_customer_id TEXT,
        creator_user_id TEXT,
        creator_email TEXT,
        created_at INTEGER NOT NULL DEFAULT (unixepoch()),
        updated_at INTEGER NOT NULL DEFAULT (unixepoch())
      )
    ".

Definition INSERT_DEFAULT_SQL : string := "
      INSERT OR IGNORE INTO organization_settings (id) VALUES (1)
    ".

Definition SELECT_STRIPE_CUSTOMER_SQL : string :=
  "SELECT stripe_customer_id FROM organization_settings WHERE id = 1".

Definition UPDATE_STRIPE_CUSTOMER_SQL : string :=
  "UPDATE organization_settings SET stripe_customer_id = ? WHERE id = 1".

Definition SELECT_CREATOR_SQL : string :=
  "SELECT creator_user_id FROM organization_settings WHERE id = 1".

Definition UPDATE_CREATOR_SQL : string :=
  "UPDATE organization_settings SET creator_user_id = ?, creator_email = ?, updated_at = ? WHERE id = 1".

(** A statement text together with its bindings, once recognised. *)
Inductive Statement : Type :=
| CreateTableIfNotExists
| InsertOrIgnoreDefault
| SelectStripeCustomer
| UpdateStripeCustomer (customer : option string)
| SelectCreator
| UpdateCreator (user email : option string) (updated : Z)
| Foreign.

(** A binding for a nullable [TEXT] column: a string or [null]. *)
Definition bind_text (v : Value) : option (option string) :=
  match v with
  | VStr s => Some (Some s)
  | VNull => Some None
  | _ => None
  end.

(** A binding for an [INTEGER NOT NULL] column. *)
Definition bind_integer (v : Value) : option Z :=
  match v with
  | VNum z => Some z
  | _ => None
  end.

(** Recognition of the repository's statements with well-typed bindings;
    every other text or binding list is [Foreign]. *)
Definition classify (sql : string) (bindings : list Value) : Statement :=
  if String.eqb sql CREATE_TABLE_SQL then
    match bindings with [] => CreateTableIfNotExists | _ => Foreign end
  else if String.eqb sql INSERT_DEFAULT_SQL then
    match bindings with [] => InsertOrIgnoreDefault | _ => Foreign end
  else if String.eqb sql SELECT_STRIPE_CUSTOMER_SQL then
    match bindings with [] => SelectStripeCustomer | _ => Foreign end
  else if String.eqb sql UPDATE_STRIPE_CUSTOMER_SQL then
    match bindings with
    | [c] => match bind_text c with
             | Some c' => UpdateStripeCustomer c'
             | None => Foreign
             end
    | _ => Foreign
    end
  else if String.eqb sql SELECT_CREATOR_SQL then
    match bindings with [] => SelectCreator | _ => Foreign end
  else if String.eqb sql UPDATE_CREATOR_SQL then
    match bindings with
    | [u; e; t] =>
        match bind_text u, bind_text e, bind_integer t with
        | Some u', Some e', Some t' => UpdateCreator u' e' t'
        | _, _, _ => Foreign
        end
    | _ => Foreign
    end
  else Foreign.

Definition text_cell (o : option string) : SqlValue :=
  match o with
  | Some s => SqlText s
  | None => SqlNull
  end.

(** [WHERE id = 1] *)
Definition is_singleton (r : Settings) : bool := id r =? 1.

Definition set_stripe_customer (c : option string) (r : Settings) : Settings :=
  mkSettings (id r) c (creator_user_id r) (creator_email r)
             (created_at r) (updated_at r).

Definition set_creator (u e : option string) (t : Z) (r : Settings) : Settings :=
  mkSettings (id r) (stripe_customer_id r) u e (created_at r) t.

(** [UPDATE ... WHERE id = 1] *)
Definition update_singleton (f : Settings -> Settings) (rows : list Settings)
  : list Settings :=
  List.map (fun r => if is_singleton r then f r else r) rows.

(** [SELECT col ... WHERE id = 1] *)
Definition select_singleton (col : string) (f : Settings -> option string)
  (rows : list Settings) : list SqlRow :=
  List.map (fun r => [(col, text_cell (f r))]) (List.filter is_singleton rows).

Definition no_such_table : Error :=
  SqlError "no such table: organization_settings: SQLITE_ERROR".

Section Engine.

(** [unixepoch()] at the time of the call. *)
Variable unixepoch : Z.

(** The engine on every statement the model does not recognise (malformed
    text, caller-supplied SQL, ill-typed bindings). *)
Variable foreign : string -> list Value -> Db -> Completion (list SqlRow * Db).

(** The seed row: [INSERT ... (id) VALUES (1)] with the column defaults. *)
Definition default_settings : Settings :=
  mkSettings 1 None None None unixepoch unixepoch.

(** [SqlStorage.exec(sql, ...bindings)]: the rows produced and the new
    database, or the error raised (which leaves the database as it was). *)
Definition sqlite_exec (sql : string) (bindings : list Value) (db : Db)
  : Completion (list SqlRow * Db) :=
  match classify sql bindings, organization_settings db with
  | Foreign, _ => foreign sql bindings db
  | CreateTableIfNotExists, None => Return ([], mkDb (Some []))
  | CreateTableIfNotExists, Some _ => Return ([], db)
  | _, None => Throw no_such_table
  | InsertOrIgnoreDefault, Some rows =>
      if List.existsb is_singleton rows then Return ([], db)
      else Return ([], mkDb (Some (rows ++ [default_settings])))
  | SelectStripeCustomer, Some rows =>
      Return (select_singleton "stripe_customer_id" stripe_customer_id rows, db)
  | UpdateStripeCustomer c, Some rows =>
      Return ([], mkDb (Some (update_singleton (set_stripe_customer c) rows)))
  | SelectCreator, Some rows =>
      Return (select_singleton "creator_user_id" creator_user_id rows, db)
  | UpdateCreator u e t, Some rows =>
      Return ([], mkDb (Some (update_singleton (set_creator u e t) rows)))
  end.

End Engine.

(** [row.col] on a result row; [None] is [undefined]. *)
Fixpoint property (col : string) (row : SqlRow) : option SqlValue :=
  match row with
  | [] => None
  | (c, v) :: rest => if String.eqb c col then Some v else property col rest
  end.

(** The unchecked cast of a cell to [string | null]: the text of a text
    cell.  The selections above only ever produce text or [NULL] cells. *)
Definition as_string_or_null (cell : option SqlValue) : option string :=
  match cell with
  | Some (SqlText s) => Some s
  | _ => None
  end.

End Sqlite.

Import Sqlite.

(* ================================================================== *)
(** * The [jose] primitives used by the worker *)
(* ================================================================== *)

Module Jose.

(** The claims set of a token, with the claims the worker reads or sets. *)
Record JWTPayload : Type := mkJWTPayload {
  payload_orgId : option string;
  payload_userId : option string;
  iat : option Z;
  nbf : option Z;
  exp : option Z
}.

(** The claims of a token of the identity provider ([ClerkJWTPayload]). *)
Record ClerkJWTPayload : Type := mkClerkJWTPayload {
  sub : option string;
  org_id : option string;
  org_role : option string;
  org_slug : option string
}.

(** Compact serialisation with a symmetric key: signing, and verification
    of the signature returning the decoded claims.  Remote verification
    against a key set fetched from a URL, with the issuer to expect. *)
Record Jws : Type := mkJws {
  compactSign : JWTPayload -> string -> string -> string;        (* payload, alg, key *)
  compactVerify : string -> string -> Completion JWTPayload;     (* token, key *)
  remoteVerify : string -> string -> string -> Completion ClerkJWTPayload
                                                   (* token, key set URL, issuer *)
}.

Definition is_digit (c : ascii) : bool :=
  (Nat.leb 48 (nat_of_ascii c) && Nat.leb (nat_of_ascii c) 57)%bool.

(** Leading decimal digits of a string and what follows them. *)
Fixpoint digits (s : string) (acc : Z) (seen : bool) : option Z * string :=
  match s with
  | String c rest =>
      if is_digit c
      then digits rest (10 * acc + (Z.of_nat (nat_of_ascii c) - 48)) true
      else (if seen then Some acc else None, s)
  | EmptyString => (if seen then Some acc else None, s)
  end.

Definition unit_seconds (u : string) : option Z :=
  if existsb (String.eqb u) ["s"; "sec"; "secs"; "second"; "seconds"] then Some 1
  else if existsb (String.eqb u) ["m"; "min"; "mins"; "minute"; "minutes"] then Some 60
  else if existsb (String.eqb u) ["h"; "hr"; "hrs"; "hour"; "hours"] then Some 3600
  else if existsb (String.eqb u) ["d"; "day"; "days"] then Some 86400
  else if existsb (String.eqb u) ["w"; "week"; "weeks"] then Some 604800
  else if existsb (String.eqb u) ["y"; "yr"; "yrs"; "year"; "years"] then Some 31557600
  else None.

(** [secs(span)]: a time span such as ['1h'] in seconds (whole numbers,
    lower-case units, an optional space before the unit). *)
Definition secs (span : string) : Completion Z :=
  match digits span 0 false with
  | (Some n, rest) =>
      let u := match rest with
               | String " "%char r => r
               | _ => rest
               end in
      match unit_seconds u with
      | Some k => Return (n * k)
      | None => Throw (TypeError "Invalid time period format")
      end
  | (None, _) => Throw (TypeError "Invalid time period format")
  end.

Section Clock.

(** [Date.now()], in milliseconds. *)
Variable now : Z.

(** [epoch(new Date())] *)
Definition epoch : Z := now / 1000.

(** [.setIssuedAt()] *)
Definition setIssuedAt (p : JWTPayload) : JWTPayload :=
  mkJWTPayload (payload_orgId p) (payload_userId p) (Some epoch) (nbf p) (exp p).

(** [.setExpirationTime(span)] *)
Definition setExpirationTime (span : string) (p : JWTPayload)
  : Completion JWTPayload :=
  match secs span with
  | Return d => Return (mkJWTPayload (payload_orgId p) (payload_userId p) (iat p) (nbf p) (Some (epoch + d)))
  | Throw e => Throw e
  end.

(** The claims validation of [jwtVerify] with default options. *)
Definition validateClaims (p : JWTPayload) : Completion JWTPayload :=
  match nbf p with
  | Some n => if epoch <? n then Throw (JOSEError "ERR_JWT_CLAIM_VALIDATION_FAILED")
              else match exp p with
                   | Some e => if e <=? epoch then Throw (JOSEError "ERR_JWT_EXPIRED")
                               else Return p
                   | None => Return p
                   end
  | None => match exp p with
            | Some e => if e <=? epoch then Throw (JOSEError "ERR_JWT_EXPIRED")
                        else Return p
            | None => Return p
            end
  end.

(** [jwtVerify(token, key)] with a symmetric key. *)
Definition jwtVerify (jws : Jws) (token key : string) : Completion JWTPayload :=
  match compactVerify jws token key with
  | Return p => validateClaims p
  | Throw e => Throw e
  end.

End Clock.

End Jose.

Import Jose.

(* ================================================================== *)
(** * Environment bindings ([types/env]) *)
(* ================================================================== *)

Record Env : Type := mkEnv {
  CLERK_SECRET_KEY : option string;
  STRIPE_SECRET_KEY : option string;
  INTERNAL_SECRET : option string;
  APP_URL : option string;
  CLERK_ISSUER_URL : option string
}.

(* ================================================================== *)
(** * durable-objects/organization-storage *)
(* ================================================================== *)

Module OrganizationStorage.

Definition DEFAULT_INTERNAL_SECRET : string := "development-secret-key".

(** The state of one actor: its database and the in-memory flag. *)
Record Actor : Type := mkActor {
  sql : Db;
  initialized : bool
}.

(** An actor that has never been addressed. *)
Definition fresh : Actor := mkActor empty_db false.

(** [StorageStats]; the two derived numbers are kept in hundredths. *)
Record StorageStats : Type := mkStorageStats {
  storageBytesRaw : Z;
  storageMB_hundredths : Z;
  storagePercent_hundredths : Z
}.

(** [Math.round(n / d)] for a positive [d]. *)
Definition round_div (n d : Z) : Z := (2 * n + d) / (2 * d).

(** [params.length === 1 && Array.isArray(params[0]) ? params[0] : params],
    the parameter flattening shared by [query] and [exec]. *)
Definition flatParams (params : list Value) : list Value :=
  match params with
  | [VArr inner] => inner
  | _ => params
  end.

Section Operations.

(** [Date.now()], in milliseconds, during the operation. *)
Variable now : Z.

(** The engine on statements other than the repository's own. *)
Variable foreign : string -> list Value -> Db -> Completion (list SqlRow * Db).

(** [SqlStorage.databaseSize] *)
Variable databaseSize : Db -> Z.

(** [this.sql.exec(text, ...bindings)] *)
Definition sql_exec (text : string) (bindings : list Value)
  : Eff Actor (list SqlRow) :=
  fun a =>
    match sqlite_exec (now / 1000) foreign text bindings (sql a) with
    | Return (rows, db') => (Return rows, mkActor db' (initialized a))
    | Throw e => (Throw e, a)
    end.

Definition ensureInitialized : Eff Actor unit :=
  let* done := gets initialized in
  if done then ret tt
  else
    let* _ := sql_exec CREATE_TABLE_SQL [] in
    let* _ := sql_exec INSERT_DEFAULT_SQL [] in
    modify (fun a => mkActor (sql a) true).

Definition query (text : string) (params : list Value) : Eff Actor (list SqlRow) :=
  let* _ := ensureInitialized in
  let* results := sql_exec text (flatParams params) in
  ret results.

(** [results[0] ?? null] *)
Definition queryOne (text : string) (params : list Value)
  : Eff Actor (option SqlRow) :=
  let* results := query text params in
  ret (List.head results).

Definition exec (text : string) (params : list Value) : Eff Actor unit :=
  let* _ := ensureInitialized in
  let* _ := sql_exec text (flatParams params) in
  ret tt.

Definition getStorageStats : Eff Actor StorageStats :=
  let* _ := ensureInitialized in
  let* storageBytesRaw := gets (fun a => databaseSize (sql a)) in
  ret (mkStorageStats storageBytesRaw
         (round_div (storageBytesRaw * 100) (1024 * 1024))
         (round_div (storageBytesRaw * 10000) (10 * 1024 * 1024 * 1024))).

(** [email || null] *)
Definition email_or_null (email : option string) : Value :=
  match or_else email None with
  | Some e => VStr e
  | None => VNull
  end.

(** [current?.creator_user_id] *)
Definition current_creator (current : option SqlRow) : option string :=
  match current with
  | Some row => as_string_or_null (property "creator_user_id" row)
  | None => None
  end.

Definition setCreatorIfNotSet (userId : string) (email : option string)
  : Eff Actor unit :=
  let* _ := ensureInitialized in
  let* current := queryOne SELECT_CREATOR_SQL [] in
  if negb (truthy (current_creator current)) then
    exec UPDATE_CREATOR_SQL [VStr userId; email_or_null email; VNum (now / 1000)]
  else ret tt.

(** [generateInternalToken(orgId, userId)] *)
Definition generateInternalToken (jws : Jws) (env : Env) (orgId userId : string)
  : Completion string :=
  let secretKey := or_default (INTERNAL_SECRET env) DEFAULT_INTERNAL_SECRET in
  let claims := mkJWTPayload (Some orgId) (Some userId) None None None in
  match setExpirationTime now "1h" (setIssuedAt now claims) with
  | Return p => Return (compactSign jws p "HS256" secretKey)
  | Throw e => Throw e
  end.

End Operations.

End OrganizationStorage.

Import OrganizationStorage.

(* ================================================================== *)
(** * middleware/auth *)
(* ================================================================== *)

Module Auth.

(** The part of a request the middleware reads. *)
Record Request : Type := mkRequest {
  path : string;
  Authorization : option string;
  X_Internal_Token : option string
}.

(** The request-scoped variables set with [c.set]; [None] is [null] or
    [undefined]. *)
Record Variables : Type := mkVariables {
  userId : option string;
  orgId : option string;
  orgRole : option string
}.

(** The variables of a request no middleware has written to. *)
Definition unset : Variables := mkVariables None None None.

(** [c.json({ error, details? }, status)] *)
Record ErrorResponse : Type := mkErrorResponse {
  error : string;
  details : option string;
  status : Z
}.

(** What a middleware does with a request: it answers, or it sets the
    variables and calls [next()]. *)
Inductive Outcome : Type :=
| Responds (r : ErrorResponse)
| Next (vars : Variables).

(** [authHeader.slice(7)] *)
Definition slice7 (s : string) : string :=
  String.substring 7 (String.length s - 7) s.

Section Middleware.

Variable jws : Jws.

(** [new URL(text)] *)
Variable new_URL : string -> Completion string.

(** [Date.now()] *)
Variable now : Z.

Variable env : Env.

(** The [try] block of [clerkAuth]. *)
Definition clerkVerify (token : string) : Completion Outcome :=
  let issuerUrl := CLERK_ISSUER_URL env in
  if negb (truthy issuerUrl) then
    Return (Responds (mkErrorResponse "Server configuration error" None 500))
  else
    let issuer := or_default issuerUrl "" in
    match new_URL (String.append issuer "/.well-known/jwks.json") with
    | Throw e => Throw e
    | Return JWKS =>
        match remoteVerify jws token JWKS issuer with
        | Throw e => Throw e
        | Return clerkPayload =>
            Return (Next (mkVariables (sub clerkPayload)
                            (or_else (org_id clerkPayload) None)
                            (or_else (org_role clerkPayload) None)))
        end
    end.

Definition clerkAuth (req : Request) : Outcome :=
  match Authorization req with
  | Some authHeader =>
      if String.prefix "Bearer " authHeader then
        let token := slice7 authHeader in
        match clerkVerify token with
        | Return o => o
        | Throw error =>
            Responds (mkErrorResponse "Unauthorized: Invalid token" None 401)
        end
      else
        Responds (mkErrorResponse
                    "Unauthorized: Missing or invalid Authorization header" None 401)
  | None =>
      Responds (mkErrorResponse
                  "Unauthorized: Missing or invalid Authorization header" None 401)
  end.

Definition internalAuth (req : Request) : Outcome :=
  if negb (truthy (X_Internal_Token req)) then
    Responds (mkErrorResponse "Unauthorized: Missing internal token" None 401)
  else
    let internalToken := or_default (X_Internal_Token req) "" in
    let secretKey := or_default (INTERNAL_SECRET env) "development-secret-key" in
    match jwtVerify now jws internalToken secretKey with
    | Return payload =>
        Next (mkVariables (payload_userId payload) (payload_orgId payload) None)
    | Throw error =>
        Responds (mkErrorResponse "Unauthorized: Invalid internal token" None 401)
    end.

End Middleware.

End Auth.

Import Auth.

(* ================================================================== *)
(** * index : the middleware in front of the routes *)
(* ================================================================== *)

Module App.

(** The two authentication middlewares of [middleware/auth]. *)
Inductive Stage : Type :=
| ExternalTokenStage     (* [clerkAuth] *)
| InternalTokenStage.    (* [internalAuth] *)

(** The pattern ['/api/*']. *)
Definition matches_api (p : string) : bool :=
  (String.eqb p "/api" || String.prefix "/api/" p)%bool.

(** The authentication middleware registered for a path:
    [app.use('/api/*', clerkAuth)] and nothing else. *)
Definition middleware_for (p : string) : list Stage :=
  if matches_api p then [ExternalTokenStage] else [].

Section Dispatch.

Variable jws : Jws.
Variable new_URL : string -> Completion string.
Variable now : Z.
Variable env : Env.

Definition run_stage (s : Stage) (req : Request) : Outcome :=
  match s with
  | ExternalTokenStage => clerkAuth jws new_URL env req
  | InternalTokenStage => internalAuth jws now env req
  end.

(** The middleware chain: the stages that ran, in order, and the outcome;
    a stage that answers ends the chain. *)
Fixpoint dispatch (stages : list Stage) (req : Request) (vars : Variables)
  : list Stage * Outcome :=
  match stages with
  | [] => ([], Next vars)
  | s :: rest =>
      match run_stage s req with
      | Responds r => ([s], Responds r)
      | Next vars' =>
          let (ran, o) := dispatch rest req vars' in (s :: ran, o)
      end
  end.

(** The authentication middleware in front of a route handler, for a
    request [cors] has passed on (see [Index.serve]). *)
Definition authenticate (req : Request) : list Stage * Outcome :=
  dispatch (middleware_for (path req)) req unset.

End Dispatch.

End App.

Import App.

(* ================================================================== *)
(** * routes/billing/billing *)
(* ================================================================== *)

Module Billing.

(** The identity provider's REST answers. *)
Record HttpResponse (A : Type) : Type := mkHttpResponse {
  ok : bool;
  json : Completion A
}.
Arguments mkHttpResponse {A} ok json.
Arguments ok {A} h.
Arguments json {A} h.

Record ClerkOrganization : Type := mkClerkOrganization {
  organization_name : option string
}.

(** The body of a user response, read at the type the code declares for
    it: [email_addresses] is an array.  A 200 body without that property,
    on which [user.email_addresses[0]] would throw, is outside this type. *)
Record ClerkUser : Type := mkClerkUser {
  email_addresses : list string;       (* the [email_address] of each entry *)
  first_name : option string;
  last_name : option string
}.

(** [fetch] against the identity provider, by id and bearer secret. *)
Record Clerk : Type := mkClerk {
  fetch_organization : string -> string -> Completion (HttpResponse ClerkOrganization);
  fetch_user : string -> string -> Completion (HttpResponse ClerkUser)
}.

(** Everything the billing routes act on: the actors of the namespace
    [ORGANIZATION_STORAGE], by name, and the calls sent to Stripe. *)
Record World : Type := mkWorld {
  namespace : gmap string Actor;
  stripe_calls : list Call
}.

(** [ORGANIZATION_STORAGE.get(idFromName(name))]: the actor of that name,
    created on first use. *)
Definition actor_of (w : World) (name : string) : Actor :=
  default fresh (namespace w !! name).

(** A call of a method of the stub. *)
Definition rpc {A} (stub : string) (m : Eff Actor A) : Eff World A :=
  fun w =>
    let (r, a') := m (actor_of w stub) in
    (r, mkWorld (<[stub := a']> (namespace w)) (stripe_calls w)).

(** A call of the Stripe client. *)
Definition on_stripe {A} (m : Eff (list Call) A) : Eff World A :=
  fun w =>
    let (r, log') := m (stripe_calls w) in
    (r, mkWorld (namespace w) log').

Definition getClerkOrganization (clerk : Clerk) (orgId clerkSecretKey : string)
  : option ClerkOrganization :=
  match fetch_organization clerk orgId clerkSecretKey with
  | Return response =>
      if ok response then
        match json response with
        | Return o => Some o
        | Throw error => None
        end
      else None
  | Throw error => None
  end.

Definition getClerkUser (clerk : Clerk) (userId clerkSecretKey : string)
  : option ClerkUser :=
  match fetch_user clerk userId clerkSecretKey with
  | Return response =>
      if ok response then
        match json response with
        | Return u => Some u
        | Throw error => None
        end
      else None
  | Throw error => None
  end.

(** [[first, last].filter(Boolean).join(' ')] *)
Definition fullName (user : ClerkUser) : string :=
  String.concat " "
    (List.flat_map (fun o => if truthy o then [or_default o ""] else [])
                   [first_name user; last_name user]).

(** [existingOrg.length > 0 && existingOrg[0].stripe_customer_id]: the
    truthy customer id of the first row, if there is one. *)
Definition existing_customer (existingOrg : list SqlRow) : option string :=
  match existingOrg with
  | [] => None
  | row :: _ =>
      let c := as_string_or_null (property "stripe_customer_id" row) in
      if truthy c then c else None
  end.

(** The name and e-mail address given to a new customer. *)
Definition customer_identity (clerk : Clerk) (orgId userId : string)
  (clerkSecretKey : option string) : string * option string :=
  if truthy clerkSecretKey then
    let key := or_default clerkSecretKey "" in
    if String.eqb orgId userId then
      match getClerkUser clerk userId key with
      | Some user =>
          let customerEmail := List.head (email_addresses user) in
          (or_default (or_else (Some (fullName user)) customerEmail) orgId,
           customerEmail)
      | None => (orgId, None)
      end
    else
      match getClerkOrganization clerk orgId key with
      | Some org =>
          if truthy (organization_name org)
          then (or_default (organization_name org) orgId, None)
          else (orgId, None)
      | None => (orgId, None)
      end
  else (orgId, None).

Record Usage : Type := mkUsage {
  items : Z;
  storage : Z
}.

Record UsageSummary : Type := mkUsageSummary {
  planType : PlanType;
  limits : Limits;
  usage : Usage;
  canAddMore : bool
}.

(** A JSON answer of a route: the body, or an error envelope. *)
Inductive Response (A : Type) : Type :=
| Json (body : A)
| Failure (r : ErrorResponse).
Arguments Json {A} body.
Arguments Failure {A} r.

Section Routes.

Variable now : Z.
Variable foreign : string -> list Value -> Db -> Completion (list SqlRow * Db).
Variable stripe : Stripe.
Variable clerk : Clerk.

Definition getOrCreateStripeCustomer (stub : string) (orgId userId : string)
  (clerkSecretKey : option string) : Eff World string :=
  let* existingOrg := rpc stub (query now foreign SELECT_STRIPE_CUSTOMER_SQL []) in
  match existing_customer existingOrg with
  | Some customerId => ret customerId
  | None =>
      let (customerName, customerEmail) :=
        customer_identity clerk orgId userId clerkSecretKey in
      let* customerId :=
        on_stripe (customers_create stripe
                     (mkCustomerCreateParams customerName customerEmail orgId userId)) in
      let* _ := rpc stub (query now foreign UPDATE_STRIPE_CUSTOMER_SQL
                            [VArr [VStr customerId]]) in
      ret customerId
  end.

(** [GET /usage] *)
Definition usage_handler (env : Env) (vars : Variables)
  : Eff World (Response UsageSummary) :=
  let orgId := or_else (orgId vars) (userId vars) in
  if negb (truthy orgId) then
    ret (Failure (mkErrorResponse "Authentication required" None 401))
  else if negb (truthy (STRIPE_SECRET_KEY env)) then
    ret (Failure (mkErrorResponse "Stripe not configured" None 500))
  else
    try_catch
      (let stub := or_default orgId "" in
       let* existingOrg :=
         rpc stub (query now foreign SELECT_STRIPE_CUSTOMER_SQL []) in
       let* planType :=
         match existing_customer existingOrg with
         | Some customerId => on_stripe (getSubscriptionPlanType stripe customerId)
         | None => ret FREE
         end in
       let limits := PLAN_LIMITS planType in
       let currentUsage := mkUsage 0 0 in
       ret (Json (mkUsageSummary planType limits currentUsage
                    (lt_limit (items currentUsage) (maxItems limits)))))
      (fun error =>
         ret (Failure (mkErrorResponse "Failed to fetch usage"
                         (Some (details_of error)) 500))).

End Routes.

End Billing.

Import Billing.

(* ================================================================== *)
(** * Notions used to state the properties *)
(* ================================================================== *)

Module Notions.

(** The rows of the table, none while the table is absent. *)
Definition records (a : Actor) : list Settings :=
  match organization_settings (sql a) with
  | Some rows => rows
  | None => []
  end.

(** The row [WHERE id = 1] addresses. *)
Definition tenant_record (a : Actor) : option Settings :=
  List.find is_singleton (records a).

(** The store holds the singleton row and no other. *)
Definition one_record (a : Actor) : Prop :=
  exists r, organization_settings (sql a) = Some [r] /\ id r = 1.

(** The creator columns of the tenant record. *)
Definition creator_of (a : Actor) : option (option string * option string) :=
  match tenant_record a with
  | Some r => Some (creator_user_id r, creator_email r)
  | None => None
  end.

(** The database once [CREATE TABLE IF NOT EXISTS] and [INSERT OR IGNORE]
    have run at epoch second [t]. *)
Definition seeded (t : Z) (db : Db) : Db :=
  match organization_settings db with
  | None => mkDb (Some [default_settings t])
  | Some rows =>
      if List.existsb is_singleton rows then db
      else mkDb (Some (rows ++ [default_settings t]))
  end.

(** The actor once [ensureInitialized] has run at time [now]. *)
Definition initialised (now : Z) (a : Actor) : Actor :=
  if initialized a then a else mkActor (seeded (now / 1000) (sql a)) true.

(** The invariant of an actor whose rows are only touched by the statements
    of the repository: once the flag is set, the singleton row is there. *)
Definition actor_ready (a : Actor) : Prop :=
  initialized a = true -> exists r, tenant_record a = Some r.

(** The operations of the actor, as a caller names them. *)
Inductive Operation : Type :=
| Query (text : string) (params : list Value)
| QueryOne (text : string) (params : list Value)
| Exec (text : string) (params : list Value)
| GetStorageStats
| SetCreatorIfNotSet (user : string) (email : option string).

(** Forgetting the value an operation returns. *)
Definition void {S A} (m : Eff S A) : Eff S unit :=
  fun s =>
    match m s with
    | (Return _, s') => (Return tt, s')
    | (Throw e, s') => (Throw e, s')
    end.

Definition invoke (now : Z)
  (foreign : string -> list Value -> Db -> Completion (list SqlRow * Db))
  (databaseSize : Db -> Z) (op : Operation) : Eff Actor unit :=
  match op with
  | Query text params => void (query now foreign text params)
  | QueryOne text params => void (queryOne now foreign text params)
  | Exec text params => exec now foreign text params
  | GetStorageStats => void (getStorageStats now foreign databaseSize)
  | SetCreatorIfNotSet user email => setCreatorIfNotSet now foreign user email
  end.

Definition is_foreign (s : Statement) : bool :=
  match s with Foreign => true | _ => false end.

(** The operation carries one of the repository's own statements, or no
    statement at all. *)
Definition own_statement (op : Operation) : bool :=
  match op with
  | Query text params | QueryOne text params | Exec text params =>
      negb (is_foreign (classify text (flatParams params)))
  | GetStorageStats | SetCreatorIfNotSet _ _ => true
  end.

(** A parameter list that consists of one array. *)
Definition lone_array (params : list Value) : bool :=
  match params with
  | [VArr _] => true
  | _ => false
  end.

(** An engine that rejects every statement it is handed. *)
Definition rejecting (message : string)
  : string -> list Value -> Db -> Completion (list SqlRow * Db) :=
  fun _ _ _ => Throw (SqlError message).

(** The number of [?] placeholders of a statement text. *)
Fixpoint placeholders (text : string) : nat :=
  match text with
  | EmptyString => 0%nat
  | String c rest =>
      ((if Ascii.eqb c "?" then 1 else 0) + placeholders rest)%nat
  end.

(** An engine that decides what SQLite decides before it looks at any
    value: a statement handed a number of bindings other than its number of
    placeholders is refused.  A statement with the right number of bindings
    goes on to [engine]. *)
Definition counting_bindings
  (engine : string -> list Value -> Db -> Completion (list SqlRow * Db))
  : string -> list Value -> Db -> Completion (list SqlRow * Db) :=
  fun text bindings db =>
    if Nat.eqb (List.length bindings) (placeholders text)
    then engine text bindings db
    else Throw (SqlError "Wrong number of parameter bindings for SQL query.").

(** The secret both ends of an internal call share. *)
Definition shared_secret (env : Env) : string :=
  or_default (INTERNAL_SECRET env) DEFAULT_INTERNAL_SECRET.

(** The claims [generateInternalToken] signs at time [now]. *)
Definition minted_claims (now : Z) (orgId userId : string) : JWTPayload :=
  mkJWTPayload (Some orgId) (Some userId)
               (Some (now / 1000)) None (Some (now / 1000 + 3600)).

(** The variables [clerkAuth] sets from verified claims. *)
Definition identity_of (p : ClerkJWTPayload) : Variables :=
  mkVariables (sub p) (or_else (org_id p) None) (or_else (org_role p) None).

Definition unauthorized (message : string) : Outcome :=
  Responds (mkErrorResponse message None 401).

(** The creator id [setCreatorIfNotSet] reads back from the rows. *)
Definition recorded_creator (rows : list Settings) : option string :=
  match List.find is_singleton rows with
  | Some r => creator_user_id r
  | None => None
  end.

(** The rows once [setCreatorIfNotSet] has written at epoch second [t]. *)
Definition with_creator (user : string) (email : option string) (t : Z)
  (rows : list Settings) : list Settings :=
  update_singleton (set_creator (Some user) (or_else email None) t) rows.

(** The world once the actor [stub] has been replaced by [a]. *)
Definition with_actor (stub : string) (a : Actor) (w : World) : World :=
  mkWorld (<[stub := a]> (namespace w)) (stripe_calls w).

(** The rows once the customer id has been written. *)
Definition with_customer (customer : string) (rows : list Settings)
  : list Settings :=
  update_singleton (set_stripe_customer (Some customer)) rows.

(** The parameters of the customer [getOrCreateStripeCustomer] creates. *)
Definition new_customer (clerk : Clerk) (orgId userId : string)
  (clerkSecretKey : option string) : CustomerCreateParams :=
  mkCustomerCreateParams
    (fst (customer_identity clerk orgId userId clerkSecretKey))
    (snd (customer_identity clerk orgId userId clerkSecretKey))
    orgId userId.

End Notions.

Import Notions.

(* ================================================================== *)
(** * Concrete scenarios *)
(* ================================================================== *)

Module Scenarios.

(** A provider that is unreachable. *)
Definition stripe_down : Stripe :=
  mkStripe (fun _ _ => Throw (StripeError "connection refused"))
           (fun _ _ => Throw (StripeError "connection refused")).

(** A provider that knows no subscription and issues the id [cus_abc]. *)
Definition stripe_cus_abc : Stripe :=
  mkStripe (fun _ _ => Return (mkSubscriptionList (Some [])))
           (fun _ _ => Return "cus_abc").

(** An identity provider that is unreachable. *)
Definition clerk_down : Clerk :=
  mkClerk (fun _ _ => Throw (FetchError "connection refused"))
          (fun _ _ => Throw (FetchError "connection refused")).

Definition env_dev : Env :=
  mkEnv (Some "sk_clerk") (Some "sk_stripe") None None
        (Some "https://clerk.example.com").

(** The claims of an internal token minted at 1700000000 s. *)
Definition claims_org_1 : JWTPayload :=
  minted_claims 1700000000000 "org_1" "user_1".

(** Toy primitives: one internal token ["internal.jwt"] that verifies
    under the development secret, one bearer token ["clerk.jwt"] that
    verifies against the issuer; everything else is refused. *)
Definition jws_toy : Jws :=
  mkJws (fun _ _ _ => "internal.jwt")
        (fun token key =>
           if (String.eqb token "internal.jwt"
               && String.eqb key "development-secret-key")%bool
           then Return claims_org_1
           else Throw (JOSEError "ERR_JWS_SIGNATURE_VERIFICATION_FAILED"))
        (fun token _ _ =>
           if String.eqb token "clerk.jwt"
           then Return (mkClerkJWTPayload (Some "user_1") (Some "org_1")
                                          (Some "org:admin") None)
           else Throw (JOSEError "ERR_JWS_SIGNATURE_VERIFICATION_FAILED")).

Definition url_ok : string -> Completion string := fun text => Return text.

(** A world in which no actor has been addressed and no call sent. *)
Definition untouched : World := mkWorld ∅ [].

End Scenarios.

Import Scenarios.

(* ================================================================== *)
(** * durable-objects/organization-storage : the HTTP handler *)
(* ================================================================== *)

Module StorageHttp.

(** Truthiness of an arbitrary value. *)
Definition truthy_value (v : Value) : bool :=
  match v with
  | VUndefined | VNull => false
  | VBool b => b
  | VNum z => negb (z =? 0)
  | VStr s => truthy_string s
  | VArr _ => true
  end.

(** The actor together with what the host gives it: the key ['orgId'] of
    [ctx.storage] ([None] while the key is absent) and [ctx.id]. *)
Record Host : Type := mkHost {
  host_actor : Actor;
  stored_orgId : option Value;
  id_name : option string;      (* [ctx.id.name] *)
  id_toString : string          (* [ctx.id.toString()] *)
}.

(** The part of a request [fetch] reads.  [body_orgId] is
    [(await request.json()).orgId]: a [Throw] when the body does not parse
    or is [null], [VUndefined] when the body has no such property. *)
Record DoRequest : Type := mkDoRequest {
  pathname : string;
  method : string;
  body_orgId : Completion Value
}.

Inductive DoBody : Type :=
| StatusOk                          (* [{ status: 'ok' }] *)
| Stats (stats : StorageStats)
| InvalidRequest                    (* [{ error: 'Invalid request' }] *)
| NotFound.                         (* ['Not Found'] *)

Record DoResponse : Type := mkDoResponse {
  do_status : Z;
  do_body : DoBody
}.

(** A method of the actor, run inside its host. *)
Definition on_actor {A} (m : Eff Actor A) : Eff Host A :=
  fun h =>
    let (r, a') := m (host_actor h) in
    (r, mkHost a' (stored_orgId h) (id_name h) (id_toString h)).

(** [this.ctx.storage.put('orgId', v)] *)
Definition put_orgId (v : Value) : Eff Host unit :=
  modify (fun h => mkHost (host_actor h) (Some v) (id_name h) (id_toString h)).

(** [getOrgId()] *)
Definition getOrgId : Eff Host Value :=
  let* storedOrgId := gets stored_orgId in
  match storedOrgId with
  | Some v =>
      if truthy_value v then ret v
      else gets (fun h => VStr (or_default (id_name h) (id_toString h)))
  | None => gets (fun h => VStr (or_default (id_name h) (id_toString h)))
  end.

Section Handler.

Variable now : Z.
Variable foreign : string -> list Value -> Db -> Completion (list SqlRow * Db).
Variable databaseSize : Db -> Z.

(** The [try] block of the ['/store-org-id'] branch: the response it
    returns, if it returns one. *)
Definition store_org_id (req : DoRequest) : Eff Host (option DoResponse) :=
  try_catch
    (match body_orgId req with
     | Return v =>
         if truthy_value v then
           let* _ := put_orgId v in
           ret (Some (mkDoResponse 200 StatusOk))
         else ret None
     | Throw e => throw e
     end)
    (fun error => ret None).

Definition fetch (req : DoRequest) : Eff Host DoResponse :=
  if String.eqb (pathname req) "/health" then
    let* _ := on_actor (ensureInitialized now foreign) in
    ret (mkDoResponse 200 StatusOk)
  else if String.eqb (pathname req) "/storage-stats" then
    let* stats := on_actor (getStorageStats now foreign databaseSize) in
    ret (mkDoResponse 200 (Stats stats))
  else if (String.eqb (pathname req) "/store-org-id"
           && String.eqb (method req) "POST")%bool then
    let* returned := store_org_id req in
    match returned with
    | Some response => ret response
    | None => ret (mkDoResponse 400 InvalidRequest)
    end
  else ret (mkDoResponse 404 NotFound).

End Handler.

End StorageHttp.

Import StorageHttp.

(* ================================================================== *)
(** * index : the CORS origin callback *)
(* ================================================================== *)

Module Cors.

(** [s.includes(needle)] *)
Fixpoint includes (needle s : string) : bool :=
  if String.prefix needle s then true
  else match s with
       | String _ rest => includes needle rest
       | EmptyString => false
       end.

(** [s.endsWith(suffix)] *)
Definition endsWith (suffix s : string) : bool :=
  (Nat.leb (String.length suffix) (String.length s)
   && String.eqb (String.substring (String.length s - String.length suffix)
                                   (String.length suffix) s)
                 suffix)%bool.

(** The [origin] callback handed to [cors]. *)
Definition cors_origin (origin : string) : string :=
  if includes "localhost" origin then origin
  else if endsWith ".workers.dev" origin then origin
  else if endsWith ".pages.dev" origin then origin
  else origin.

End Cors.

Import Cors.

(* ================================================================== *)
(** * index : [cors] in front of the authentication middleware *)
(* ================================================================== *)

Module Index.

(** A request as the application receives it: the method, the [Origin]
    header, and the part the authentication middleware reads. *)
Record Incoming : Type := mkIncoming {
  http_method : string;
  Origin : option string;
  auth_part : Request
}.

(** What the middleware makes of a request. *)
Inductive Reply : Type :=
| Preflight (status : Z) (allowOrigin : option string)
    (* answered by [cors]: [new Response(null, { status: 204, ... })] *)
| Through (o : Outcome).
    (* passed on by [cors]; the outcome of the authentication middleware *)

(** The [Access-Control-Allow-Origin] header hono's [cors] sets: the value
    of the [origin] callback on [c.req.header('origin') || ''], when that
    value is truthy. *)
Definition allow_origin (origin : option string) : option string :=
  or_else (Some (cors_origin (or_default origin ""))) None.

Section Serve.

Variable jws : Jws.
Variable new_URL : string -> Completion string.
Variable now : Z.
Variable env : Env.

(** [app.use('/*', cors({...}))] comes first on every path.  hono's [cors]
    answers a request whose method is [OPTIONS] itself, with status 204,
    and does not call [next()]; any other request it passes on, to
    [app.use('/api/*', clerkAuth)] where the path matches.  The headers it
    adds to the answers of the handlers behind it are left out. *)
Definition serve (r : Incoming) : list Stage * Reply :=
  if String.eqb (http_method r) "OPTIONS"
  then ([], Preflight 204 (allow_origin (Origin r)))
  else
    let (ran, o) := authenticate jws new_URL now env (auth_part r) in
    (ran, Through o).

End Serve.

End Index.

Import Index.

(* ================================================================== *)
(** * routes/billing/billing : the other routes *)
(* ================================================================== *)

Module BillingRoutes.

(** The session endpoints of the provider: the [client_secret] of a new
    customer session and the [url] of a new billing-portal session, given
    the calls already logged. *)
Record StripeSessions : Type := mkStripeSessions {
  customer_session_response : list Call -> string -> Completion (option string);
  portal_session_response :
    list Call -> string -> string -> Completion (option string)  (* customer, return_url *)
}.

(** The subscription part of the [/subscription] answer. *)
Record SubscriptionInfo : Type := mkSubscriptionInfo {
  info_id : string;
  info_status : string;
  currentPeriodEnd : Z;
  cancelAtPeriodEnd : bool
}.

(** The [/subscription] answer; [answer_customerId] is absent from the
    answer of a tenant without customer. *)
Record SubscriptionAnswer : Type := mkSubscriptionAnswer {
  answer_planType : PlanType;
  hasCustomer : bool;
  answer_customerId : option string;
  answer_subscription : option SubscriptionInfo
}.

Record CustomerSessionAnswer : Type := mkCustomerSessionAnswer {
  clientSecret : option string;
  session_customerId : string
}.

Record PortalAnswer : Type := mkPortalAnswer {
  url : option string
}.

(** [subscriptions.data[0] || null] *)
Definition first_subscription (l : SubscriptionList)
  : Eff (list Call) (option Subscription) :=
  match data l with
  | Some d => ret (List.head d)
  | None => throw (TypeError "Cannot read properties of undefined (reading '0')")
  end.

Definition info_of (s : Subscription) : SubscriptionInfo :=
  mkSubscriptionInfo (sub_id s) (sub_status s)
                     (current_period_end s) (cancel_at_period_end s).

(** [orgId !== userId] for the [orgId] a handler has settled on. *)
Definition differs (orgId userId : option string) : bool :=
  match orgId, userId with
  | Some o, Some u => negb (String.eqb o u)
  | None, None => false
  | _, _ => true
  end.

(** [orgRole !== 'org:admin'] *)
Definition not_admin (orgRole : option string) : bool :=
  match orgRole with
  | Some r => negb (String.eqb r "org:admin")
  | None => true
  end.

Definition planType_is_FREE (p : PlanType) : bool :=
  match p with FREE => true | _ => false end.

Section Routes.

Variable now : Z.
Variable foreign : string -> list Value -> Db -> Completion (list SqlRow * Db).
Variable stripe : Stripe.
Variable sessions : StripeSessions.
Variable clerk : Clerk.

(** [GET /subscription].  The second list call differs from the first by
    its [expand] option only; the log records it as a list call. *)
Definition subscription_handler (env : Env) (vars : Variables)
  : Eff World (Response SubscriptionAnswer) :=
  let orgId := or_else (orgId vars) (userId vars) in
  if negb (truthy orgId) then
    ret (Failure (mkErrorResponse "Authentication required" None 401))
  else if negb (truthy (STRIPE_SECRET_KEY env)) then
    ret (Failure (mkErrorResponse "Stripe not configured" None 500))
  else
    try_catch
      (let stub := or_default orgId "" in
       let* existingOrg :=
         rpc stub (query now foreign SELECT_STRIPE_CUSTOMER_SQL []) in
       match existing_customer existingOrg with
       | None => ret (Json (mkSubscriptionAnswer FREE false None None))
       | Some customerId =>
           let* planType := on_stripe (getSubscriptionPlanType stripe customerId) in
           let* subscription :=
             if planType_is_FREE planType then ret None
             else
               on_stripe (let* subscriptions := subscriptions_list stripe customerId in
                          first_subscription subscriptions) in
           ret (Json (mkSubscriptionAnswer planType true (Some customerId)
                        (option_map info_of subscription)))
       end)
      (fun error =>
         ret (Failure (mkErrorResponse "Failed to fetch subscription"
                         (Some (details_of error)) 500))).

(** [POST /customer-session]; [userId] is the variable as [Variables]
    declares it, a string. *)
Definition customer_session_handler (env : Env) (userId : string)
  (orgId : option string) : Eff World (Response CustomerSessionAnswer) :=
  let orgId := or_default orgId userId in
  if negb (truthy_string orgId) then
    ret (Failure (mkErrorResponse "Authentication required" None 401))
  else if negb (truthy (STRIPE_SECRET_KEY env)) then
    ret (Failure (mkErrorResponse "Stripe not configured" None 500))
  else
    try_catch
      (let* customerId :=
         getOrCreateStripeCustomer now foreign stripe clerk orgId orgId userId
                                   (CLERK_SECRET_KEY env) in
       let* client_secret :=
         (fun w => (customer_session_response sessions (stripe_calls w) customerId, w)) in
       ret (Json (mkCustomerSessionAnswer client_secret customerId)))
      (fun error =>
         ret (Failure (mkErrorResponse "Failed to create customer session"
                         (Some (details_of error)) 500))).

(** [POST /portal] *)
Definition portal_handler (env : Env) (vars : Variables)
  : Eff World (Response PortalAnswer) :=
  let orgId := or_else (orgId vars) (userId vars) in
  if negb (truthy orgId) then
    ret (Failure (mkErrorResponse "Authentication required" None 401))
  else if (differs orgId (userId vars) && not_admin (orgRole vars))%bool then
    ret (Failure (mkErrorResponse "Forbidden: Admin permission required" None 403))
  else if negb (truthy (STRIPE_SECRET_KEY env)) then
    ret (Failure (mkErrorResponse "Stripe not configured" None 500))
  else
    let appUrl := or_default (APP_URL env) "http://localhost:5173" in
    try_catch
      (let stub := or_default orgId "" in
       let* existingOrg :=
         rpc stub (query now foreign SELECT_STRIPE_CUSTOMER_SQL []) in
       match existing_customer existingOrg with
       | None =>
           ret (Failure (mkErrorResponse
                           "No billing account found. Please subscribe first."
                           None 404))
       | Some customerId =>
           let* portal_url :=
             (fun w => (portal_session_response sessions (stripe_calls w) customerId
                          (String.append appUrl "/dashboard/settings/billing"), w)) in
           ret (Json (mkPortalAnswer portal_url))
       end)
      (fun error =>
         ret (Failure (mkErrorResponse "Failed to create portal session"
                         (Some (details_of error)) 500))).

End Routes.

End BillingRoutes.

Import BillingRoutes.

(* ================================================================== *)
(** * features/billing/components/BillingPage : what the page decides *)
(* ================================================================== *)

Module BillingPage.

(** What the page reads from the session: the active organization, if
    any, and [membership?.role]. *)
Record Session : Type := mkSession {
  organization : option string;
  membership_role : option string
}.

(** [!organization || membership?.role === 'org:admin'] *)
Definition isAdmin (s : Session) : bool :=
  match organization s with
  | None => true
  | Some _ =>
      match membership_role s with
      | Some r => String.eqb r "org:admin"
      | None => false
      end
  end.

(** The "Manage Subscription" button:
    [isAdmin && subscription?.hasCustomer]. *)
Definition shows_manage_button (s : Session)
  (subscription : option SubscriptionAnswer) : bool :=
  (isAdmin s && match subscription with
                | Some answer => hasCustomer answer
                | None => false
                end)%bool.

End BillingPage.

Import BillingPage.

(* ================================================================== *)
(** * Further notions and scenarios *)
(* ================================================================== *)

Module MoreNotions.

(** The variables [clerkAuth] sets for a user whose session is [s]. *)
Definition vars_of_session (user : string) (s : Session) : Variables :=
  mkVariables (Some user) (organization s) (membership_role s).

(** The stub a billing route addresses for given variables. *)
Definition tenant_of (vars : Variables) : string :=
  or_default (or_else (orgId vars) (userId vars)) "".

(** The customer id on the tenant record, if it is a usable one. *)
Definition customer_of (a : Actor) : option string :=
  match tenant_record a with
  | Some r => if truthy (stripe_customer_id r) then stripe_customer_id r else None
  | None => None
  end.

(** A request is let through to the body of a billing route. *)
Definition admitted (env : Env) (vars : Variables) : bool :=
  (truthy (or_else (orgId vars) (userId vars))
   && truthy (STRIPE_SECRET_KEY env))%bool.

(** A session endpoint that is unreachable. *)
Definition sessions_down : StripeSessions :=
  mkStripeSessions (fun _ _ => Throw (StripeError "connection refused"))
                   (fun _ _ _ => Throw (StripeError "connection refused")).

(** A session endpoint that answers. *)
Definition sessions_up : StripeSessions :=
  mkStripeSessions (fun _ _ => Return (Some "cuss_secret_1"))
                   (fun _ _ _ => Return (Some "https://billing.stripe.com/p/session/1")).

(** A provider with one active subscription for every customer, issuing
    the id [cus_abc]. *)
Definition stripe_subscribed : Stripe :=
  mkStripe (fun _ _ =>
              Return (mkSubscriptionList
                        (Some [mkSubscription "sub_1" "active" 1702592000 false
                                              (Some [Some "price_1"])])))
           (fun _ _ => Return "cus_abc").

(** A world in which the tenant [org_1] has the customer [cus_abc]. *)
Definition world_with_customer : World :=
  mkWorld {[ "org_1" :=
               mkActor (mkDb (Some [mkSettings 1 (Some "cus_abc") None None
                                               1700000000 1700000000])) true ]}
          [].

(** A host around a fresh actor named [org_1]. *)
Definition host_org_1 : Host :=
  mkHost fresh None (Some "org_1") "0f3a".

(** Between two worlds no customer creation has been sent to the provider
    and every tenant record that was there is there unchanged. *)
Definition undisturbed (w w' : World) : Prop :=
  creations (stripe_calls w') = creations (stripe_calls w) /\
  forall stub r,
    tenant_record (actor_of w stub) = Some r ->
    tenant_record (actor_of w' stub) = Some r.

(** A computation that leaves every world undisturbed. *)
Definition read_only {A} (m : Eff World A) : Prop :=
  forall w, undisturbed w (snd (m w)).

(** A route refuses a request, with one of the given statuses, and leaves
    the world as it was. *)
Definition refuses {A} (statuses : list Z) (m : Eff World (Response A))
  (w : World) : Prop :=
  exists r, m w = (Return (Failure r), w) /\ In (status r) statuses.

(** A world in which the tenant [org_1] has its seed row and no customer. *)
Definition world_org_1_ready : World :=
  mkWorld {[ "org_1" := mkActor (mkDb (Some [default_settings 1700000000])) true ]} [].

End MoreNotions.

Import MoreNotions.

(* ================================================================== *)
(** * Plan resolution never fails *)
(* ================================================================== *)

Section PlanResolution.

Variable stripe : Stripe.
Variable customerId : string.
Variable log : list Call.

Lemma getSubscriptionPlanType_total :
  exists p, fst (getSubscriptionPlanType stripe customerId log) = Return p.
Proof.
  unfold getSubscriptionPlanType, try_catch, bind, subscriptions_list, data_of,
    first_price_id, ret, throw.
  destruct (subscriptions_list_response stripe log customerId) as [l | e]; cbn.
  - destruct (data l) as [[| s rest] |]; cbn; eauto.
    destruct (items_data s) as [[| p ps] |]; cbn; eauto.
  - eauto.
Qed.

Lemma getSubscriptionPlanType_on_error e :
  subscriptions_list_response stripe log customerId = Throw e ->
  fst (getSubscriptionPlanType stripe customerId log) = Return FREE.
Proof.
  intros H.
  unfold getSubscriptionPlanType, try_catch, bind, subscriptions_list.
  rewrite H. reflexivity.
Qed.

Lemma getSubscriptionPlanType_no_subscription l :
  subscriptions_list_response stripe log customerId = Return l ->
  data l = Some [] ->
  fst (getSubscriptionPlanType stripe customerId log) = Return FREE.
Proof.
  intros H Hd.
  unfold getSubscriptionPlanType, try_catch, bind, subscriptions_list, data_of.
  rewrite H, Hd. reflexivity.
Qed.

(** The only effect is the one list call. *)
Lemma getSubscriptionPlanType_log :
  snd (getSubscriptionPlanType stripe customerId log)
  = log ++ [SubscriptionsList customerId "active" 1].
Proof.
  unfold getSubscriptionPlanType, try_catch, bind, subscriptions_list, data_of,
    first_price_id, ret, throw.
  destruct (subscriptions_list_response stripe log customerId) as [l | e]; cbn.
  - destruct (data l) as [[| s rest] |]; cbn; auto.
    destruct (items_data s) as [[| p ps] |]; cbn; auto.
  - reflexivity.
Qed.

End PlanResolution.

(** C1. For every customer id and every behaviour of the billing provider,
    [getSubscriptionPlanType] completes normally with a plan tier: it
    answers FREE whenever the subscription-list call raises an error, FREE
    whenever the list of active subscriptions is empty, and it never
    propagates an error of the provider. *)
Theorem plan_resolution_fail_safe (stripe : Stripe) (customerId : string)
  (log : list Call) :
  (forall e,
      subscriptions_list_response stripe log customerId = Throw e ->
      fst (getSubscriptionPlanType stripe customerId log) = Return FREE) /\
  (forall l,
      subscriptions_list_response stripe log customerId = Return l ->
      data l = Some [] ->
      fst (getSubscriptionPlanType stripe customerId log) = Return FREE) /\
  (exists p, fst (getSubscriptionPlanType stripe customerId log) = Return p).
Proof.
  split; [| split].
  - intros e. apply getSubscriptionPlanType_on_error.
  - intros l. apply getSubscriptionPlanType_no_subscription.
  - apply getSubscriptionPlanType_total.
Qed.

(** Witness: the provider is down; the provider answers with an empty
    list. *)
Lemma plan_resolution_fail_safe_witness :
  (subscriptions_list_response stripe_down [] "cus_abc"
   = Throw (StripeError "connection refused") /\
   fst (getSubscriptionPlanType stripe_down "cus_abc" []) = Return FREE) /\
  (subscriptions_list_response stripe_cus_abc [] "cus_abc"
   = Return (mkSubscriptionList (Some [])) /\
   fst (getSubscriptionPlanType stripe_cus_abc "cus_abc" []) = Return FREE).
Proof.
  split; (split; [reflexivity |]).
  - exact (proj1 (plan_resolution_fail_safe stripe_down "cus_abc" [])
             _ eq_refl).
  - exact (proj1 (proj2 (plan_resolution_fail_safe stripe_cus_abc "cus_abc" []))
             _ eq_refl eq_refl).
Defined.

(* ================================================================== *)
(** * The storage actor: the engine on the repository's statements *)
(* ================================================================== *)

Lemma actor_eta (a : Actor) : mkActor (sql a) (initialized a) = a.
Proof. destruct a; reflexivity. Qed.

Lemma bind_ret_r {S A} (m : Eff S A) (s : S) : bind m ret s = m s.
Proof. unfold bind, ret. destruct (m s) as [[x | e] s']; reflexivity. Qed.

Lemma classify_create : classify CREATE_TABLE_SQL [] = CreateTableIfNotExists.
Proof. reflexivity. Qed.

Lemma classify_insert : classify INSERT_DEFAULT_SQL [] = InsertOrIgnoreDefault.
Proof. reflexivity. Qed.

Lemma classify_select_customer :
  classify SELECT_STRIPE_CUSTOMER_SQL [] = SelectStripeCustomer.
Proof. reflexivity. Qed.

Lemma classify_update_customer (c : string) :
  classify UPDATE_STRIPE_CUSTOMER_SQL [VStr c] = UpdateStripeCustomer (Some c).
Proof. reflexivity. Qed.

Lemma classify_select_creator : classify SELECT_CREATOR_SQL [] = SelectCreator.
Proof. reflexivity. Qed.

Lemma email_or_null_bind (e : option string) :
  bind_text (email_or_null e) = Some (or_else e None).
Proof.
  unfold email_or_null, or_else.
  destruct e as [s |]; cbn; [destruct (truthy_string s) |]; reflexivity.
Qed.

Lemma classify_update_creator (u : string) (e : option string) (t : Z) :
  classify UPDATE_CREATOR_SQL [VStr u; email_or_null e; VNum t]
  = UpdateCreator (Some u) (or_else e None) t.
Proof.
  unfold classify.
  change (String.eqb UPDATE_CREATOR_SQL CREATE_TABLE_SQL) with false.
  change (String.eqb UPDATE_CREATOR_SQL INSERT_DEFAULT_SQL) with false.
  change (String.eqb UPDATE_CREATOR_SQL SELECT_STRIPE_CUSTOMER_SQL) with false.
  change (String.eqb UPDATE_CREATOR_SQL UPDATE_STRIPE_CUSTOMER_SQL) with false.
  change (String.eqb UPDATE_CREATOR_SQL SELECT_CREATOR_SQL) with false.
  change (String.eqb UPDATE_CREATOR_SQL UPDATE_CREATOR_SQL) with true.
  cbv iota. rewrite email_or_null_bind. reflexivity.
Qed.

(** Selections and updates on the rows. *)

Lemma head_select_singleton (col : string) (f : Settings -> option string)
  (rows : list Settings) :
  List.head (select_singleton col f rows)
  = option_map (fun r => [(col, text_cell (f r))]) (List.find is_singleton rows).
Proof.
  unfold select_singleton.
  induction rows as [| r rows IH]; cbn; [reflexivity |].
  destruct (is_singleton r); cbn; [reflexivity | exact IH].
Qed.

Lemma as_string_text_cell (o : option string) :
  as_string_or_null (Some (text_cell o)) = o.
Proof. destruct o; reflexivity. Qed.

Lemma current_creator_select (rows : list Settings) :
  current_creator
    (List.head (select_singleton "creator_user_id" creator_user_id rows))
  = match List.find is_singleton rows with
    | Some r => creator_user_id r
    | None => None
    end.
Proof.
  rewrite head_select_singleton.
  destruct (List.find is_singleton rows) as [r |]; cbn; [| reflexivity].
  destruct (creator_user_id r); reflexivity.
Qed.

Lemma find_existsb_singleton (rows : list Settings) :
  List.existsb is_singleton rows
  = match List.find is_singleton rows with Some _ => true | None => false end.
Proof.
  induction rows as [| r rows IH]; cbn; [reflexivity |].
  destruct (is_singleton r); cbn; [reflexivity | exact IH].
Qed.

Lemma update_singleton_absent (f : Settings -> Settings) (rows : list Settings) :
  List.find is_singleton rows = None -> update_singleton f rows = rows.
Proof.
  unfold update_singleton.
  induction rows as [| r rows IH]; cbn; [reflexivity |].
  destruct (is_singleton r) eqn:E; [discriminate |].
  intros H. rewrite IH by exact H. reflexivity.
Qed.

Lemma find_update_singleton (f : Settings -> Settings) (rows : list Settings) :
  (forall r, id (f r) = id r) ->
  List.find is_singleton (update_singleton f rows)
  = option_map f (List.find is_singleton rows).
Proof.
  intros Hid. unfold update_singleton.
  induction rows as [| r rows IH]; cbn; [reflexivity |].
  destruct (is_singleton r) eqn:E; cbn.
  - unfold is_singleton in *. rewrite Hid, E. reflexivity.
  - rewrite E. exact IH.
Qed.

Section StorageRuns.

Variable now : Z.
Variable foreign : string -> list Value -> Db -> Completion (list SqlRow * Db).

Lemma initialised_flag (a : Actor) : initialized (initialised now a) = true.
Proof. unfold initialised. destruct (initialized a) eqn:E; [exact E | reflexivity]. Qed.

Lemma initialised_set (a : Actor) :
  initialized a = true -> initialised now a = a.
Proof. unfold initialised. intros ->. reflexivity. Qed.

Lemma sql_exec_create (a : Actor) :
  sql_exec now foreign CREATE_TABLE_SQL [] a
  = (Return [],
     match organization_settings (sql a) with
     | Some _ => a
     | None => mkActor (mkDb (Some [])) (initialized a)
     end).
Proof.
  unfold sql_exec, sqlite_exec. rewrite classify_create.
  destruct a as [[[rows |]] flag]; reflexivity.
Qed.

Lemma sql_exec_insert (a : Actor) (rows : list Settings) :
  organization_settings (sql a) = Some rows ->
  sql_exec now foreign INSERT_DEFAULT_SQL [] a
  = (Return [], mkActor (seeded (now / 1000) (sql a)) (initialized a)).
Proof.
  intros H. unfold sql_exec, sqlite_exec, seeded.
  rewrite classify_insert, H.
  destruct (List.existsb is_singleton rows); reflexivity.
Qed.

Lemma ensureInitialized_run (a : Actor) :
  ensureInitialized now foreign a = (Return tt, initialised now a).
Proof.
  unfold ensureInitialized, initialised, bind, gets.
  destruct (initialized a) eqn:Hflag; [reflexivity |].
  rewrite sql_exec_create.
  destruct a as [[[rows |]] flag]; cbn [sql organization_settings initialized].
  - rewrite (sql_exec_insert _ rows) by reflexivity. reflexivity.
  - rewrite (sql_exec_insert _ []) by reflexivity. reflexivity.
Qed.

Lemma query_run (text : string) (params : list Value) (a : Actor) :
  query now foreign text params a
  = sql_exec now foreign text (flatParams params) (initialised now a).
Proof.
  unfold query, bind at 1. rewrite ensureInitialized_run. apply bind_ret_r.
Qed.

Lemma queryOne_run (text : string) (params : list Value) (a : Actor) :
  queryOne now foreign text params a
  = match sql_exec now foreign text (flatParams params) (initialised now a) with
    | (Return rows, a') => (Return (List.head rows), a')
    | (Throw e, a') => (Throw e, a')
    end.
Proof.
  unfold queryOne, bind at 1. rewrite query_run. reflexivity.
Qed.

Lemma exec_run (text : string) (params : list Value) (a : Actor) :
  exec now foreign text params a
  = void (sql_exec now foreign text (flatParams params)) (initialised now a).
Proof.
  unfold exec, bind at 1. rewrite ensureInitialized_run.
  unfold bind, void, ret.
  destruct (sql_exec now foreign text (flatParams params) (initialised now a))
    as [[rows | e] a']; reflexivity.
Qed.


End StorageRuns.

Section CreatorRuns.

Variable now : Z.
Variable foreign : string -> list Value -> Db -> Completion (list SqlRow * Db).

Lemma sql_exec_select_creator (a : Actor) :
  sql_exec now foreign SELECT_CREATOR_SQL [] a
  = match organization_settings (sql a) with
    | Some rows =>
        (Return (select_singleton "creator_user_id" creator_user_id rows), a)
    | None => (Throw no_such_table, a)
    end.
Proof.
  unfold sql_exec, sqlite_exec. rewrite classify_select_creator.
  destruct (organization_settings (sql a)); [rewrite actor_eta |]; reflexivity.
Qed.

Lemma sql_exec_update_creator (u : string) (e : option string) (t : Z)
  (a : Actor) (rows : list Settings) :
  organization_settings (sql a) = Some rows ->
  sql_exec now foreign UPDATE_CREATOR_SQL [VStr u; email_or_null e; VNum t] a
  = (Return [], mkActor (mkDb (Some (with_creator u e t rows))) (initialized a)).
Proof.
  intros H. unfold sql_exec, sqlite_exec.
  rewrite classify_update_creator, H. reflexivity.
Qed.

(** What [setCreatorIfNotSet] does, in one equation. *)
Lemma setCreatorIfNotSet_run (u : string) (e : option string) (a : Actor) :
  setCreatorIfNotSet now foreign u e a
  = match organization_settings (sql (initialised now a)) with
    | None => (Throw no_such_table, initialised now a)
    | Some rows =>
        if truthy (recorded_creator rows) then (Return tt, initialised now a)
        else (Return tt,
              mkActor (mkDb (Some (with_creator u e (now / 1000) rows))) true)
    end.
Proof.
  unfold setCreatorIfNotSet, bind at 1. rewrite ensureInitialized_run.
  unfold bind at 1. rewrite queryOne_run.
  pose proof (initialised_flag now a) as Hflag.
  rewrite (initialised_set now _ Hflag).
  change (flatParams []) with (@nil Value).
  rewrite sql_exec_select_creator.
  destruct (organization_settings (sql (initialised now a))) as [rows |] eqn:Hrows;
    [| reflexivity].
  rewrite current_creator_select. fold (recorded_creator rows).
  destruct (truthy (recorded_creator rows)); cbn [negb]; [reflexivity |].
  rewrite exec_run, (initialised_set now _ Hflag).
  unfold void.
  change (flatParams [VStr u; email_or_null e; VNum (now / 1000)])
    with [VStr u; email_or_null e; VNum (now / 1000)].
  rewrite (sql_exec_update_creator u e (now / 1000) _ rows Hrows), Hflag.
  reflexivity.
Qed.

Lemma recorded_creator_written (u : string) (e : option string) (t : Z)
  (rows : list Settings) :
  recorded_creator (with_creator u e t rows)
  = match List.find is_singleton rows with
    | Some _ => Some u
    | None => None
    end.
Proof.
  unfold recorded_creator, with_creator.
  rewrite find_update_singleton by reflexivity.
  destruct (List.find is_singleton rows); reflexivity.
Qed.

End CreatorRuns.

(* ================================================================== *)
(** * Lazy initialisation *)
(* ================================================================== *)

Section LazyInit.

Variable now : Z.
Variable foreign : string -> list Value -> Db -> Completion (list SqlRow * Db).
Variable databaseSize : Db -> Z.


Lemma one_record_initialised_fresh : one_record (initialised now fresh).
Proof. exists (default_settings (now / 1000)). split; reflexivity. Qed.







End LazyInit.



(* ================================================================== *)
(** * Creator attribution *)
(* ================================================================== *)

Lemma truthy_nonempty (s : string) : s <> "" -> truthy (Some s) = true.
Proof.
  intros H. cbn. unfold truthy_string.
  apply negb_true_iff, String.eqb_neq, H.
Qed.

Section Creator.

Variable foreign : string -> list Value -> Db -> Completion (list SqlRow * Db).

(** With its record in place, initialisation leaves the database alone. *)
Lemma initialised_with_record (now : Z) (a : Actor) (r : Settings) :
  tenant_record a = Some r ->
  initialised now a = mkActor (sql a) true.
Proof.
  unfold tenant_record, records, initialised, seeded. intros H.
  destruct a as [[[rows |]] flag]; cbn [sql initialized organization_settings] in *;
    [| discriminate H].
  destruct flag; [reflexivity |].
  rewrite find_existsb_singleton, H. reflexivity.
Qed.

Lemma tenant_record_rows (a : Actor) (r : Settings) :
  tenant_record a = Some r ->
  exists rows,
    organization_settings (sql a) = Some rows /\
    List.find is_singleton rows = Some r.
Proof.
  unfold tenant_record, records.
  destruct (organization_settings (sql a)) as [rows |]; [| discriminate].
  intros H. exists rows. split; [reflexivity | exact H].
Qed.

(** The no-op path: a truthy creator id on the record. *)
Lemma setCreatorIfNotSet_recorded (now : Z) (u : string) (e : option string)
  (a : Actor) (r : Settings) :
  tenant_record a = Some r ->
  truthy (creator_user_id r) = true ->
  setCreatorIfNotSet now foreign u e a = (Return tt, mkActor (sql a) true).
Proof.
  intros Hr Ht.
  rewrite setCreatorIfNotSet_run, (initialised_with_record now a r Hr).
  destruct (tenant_record_rows a r Hr) as (rows & Hrows & Hfind).
  cbn [sql]. rewrite Hrows. unfold recorded_creator. rewrite Hfind, Ht.
  reflexivity.
Qed.

(** The writing path: a record whose creator id is [NULL] or empty. *)
Lemma setCreatorIfNotSet_writes (now : Z) (u : string) (e : option string)
  (a : Actor) (r : Settings) :
  tenant_record a = Some r ->
  truthy (creator_user_id r) = false ->
  exists a',
    setCreatorIfNotSet now foreign u e a = (Return tt, a') /\
    tenant_record a' = Some (set_creator (Some u) (or_else e None) (now / 1000) r).
Proof.
  intros Hr Ht.
  rewrite setCreatorIfNotSet_run, (initialised_with_record now a r Hr).
  destruct (tenant_record_rows a r Hr) as (rows & Hrows & Hfind).
  cbn [sql]. rewrite Hrows. unfold recorded_creator. rewrite Hfind, Ht.
  eexists. split; [reflexivity |].
  unfold tenant_record, records, with_creator. cbn [sql organization_settings].
  rewrite find_update_singleton by reflexivity. rewrite Hfind. reflexivity.
Qed.

(** A second call after a successful first call with a non-empty user id
    changes nothing. *)
Lemma setCreatorIfNotSet_twice (now1 now2 : Z) (u1 u2 : string)
  (e1 e2 : option string) (a : Actor) :
  u1 <> "" ->
  fst (setCreatorIfNotSet now1 foreign u1 e1 a) = Return tt ->
  setCreatorIfNotSet now2 foreign u2 e2
    (snd (setCreatorIfNotSet now1 foreign u1 e1 a))
  = (Return tt, snd (setCreatorIfNotSet now1 foreign u1 e1 a)).
Proof.
  intros Hu. rewrite (setCreatorIfNotSet_run now1).
  pose proof (initialised_flag now1 a) as Hflag.
  destruct (organization_settings (sql (initialised now1 a))) as [rows |] eqn:Hrows;
    [| discriminate].
  destruct (truthy (recorded_creator rows)) eqn:Ht; cbn [fst snd]; intros _.
  - rewrite setCreatorIfNotSet_run, (initialised_set now2 _ Hflag), Hrows, Ht.
    reflexivity.
  - rewrite setCreatorIfNotSet_run. unfold initialised at 1 2. cbn [initialized sql].
    cbn [organization_settings]. rewrite recorded_creator_written.
    destruct (List.find is_singleton rows) as [r |] eqn:Hfind.
    + rewrite (truthy_nonempty u1 Hu). reflexivity.
    + cbn [truthy]. unfold with_creator.
      rewrite (update_singleton_absent
                 (set_creator (Some u1) (or_else e1 None) (now1 / 1000)) rows Hfind).
      rewrite (update_singleton_absent _ rows Hfind). reflexivity.
Qed.

End Creator.

(** C6, as the code has it.  When the first call of [setCreatorIfNotSet]
    carries a non-empty user id and completes, a second call with any other
    arguments leaves the whole store, the creator columns included, as the
    first call left it; and on a record without a creator the first call
    records its own user id and e-mail address. *)
Theorem first_writer_wins
  (foreign : string -> list Value -> Db -> Completion (list SqlRow * Db))
  (now1 now2 : Z) (u1 u2 : string) (e1 e2 : option string) (a : Actor) :
  u1 <> "" ->
  fst (setCreatorIfNotSet now1 foreign u1 e1 a) = Return tt ->
  setCreatorIfNotSet now2 foreign u2 e2
    (snd (setCreatorIfNotSet now1 foreign u1 e1 a))
  = (Return tt, snd (setCreatorIfNotSet now1 foreign u1 e1 a)) /\
  (forall r,
      tenant_record a = Some r ->
      truthy (creator_user_id r) = false ->
      creator_of (snd (setCreatorIfNotSet now1 foreign u1 e1 a))
      = Some (Some u1, or_else e1 None)).
Proof.
  intros Hu Hfirst. split.
  - apply setCreatorIfNotSet_twice; assumption.
  - intros r Hr Ht.
    destruct (setCreatorIfNotSet_writes foreign now1 u1 e1 a r Hr Ht)
      as (a' & Hrun & Hrec).
    rewrite Hrun. unfold creator_of. cbn [snd]. rewrite Hrec. reflexivity.
Qed.

(** Witness: two different callers on a store that holds the seed row. *)
Lemma first_writer_wins_witness :
  let a := mkActor (mkDb (Some [default_settings 1700000000])) true in
  let first := setCreatorIfNotSet 1700000000000 (rejecting "not reached")
                 "user_1" (Some "one@example.com") a in
  "user_1" <> "" /\
  fst first = Return tt /\
  setCreatorIfNotSet 1700000060000 (rejecting "not reached")
    "user_2" (Some "two@example.com") (snd first) = (Return tt, snd first) /\
  creator_of (snd first) = Some (Some "user_1", Some "one@example.com").
Proof.
  cbv zeta.
  assert (Hu : "user_1" <> "") by discriminate.
  split; [exact Hu |]. split; [reflexivity |].
  pose proof (first_writer_wins (rejecting "not reached")
                1700000000000 1700000060000 "user_1" "user_2"
                (Some "one@example.com") (Some "two@example.com")
                (mkActor (mkDb (Some [default_settings 1700000000])) true)
                Hu eq_refl) as [Htwice Hrec].
  split; [exact Htwice |].
  exact (Hrec (default_settings 1700000000) eq_refl eq_refl).
Defined.

(** C6 as stated fails: a first call with the empty user id writes its
    arguments, and the second call overwrites them. *)
Lemma first_writer_wins_counterexample :
  let first := setCreatorIfNotSet 1700000000000 (rejecting "not reached")
                 "" (Some "one@example.com") fresh in
  let second := setCreatorIfNotSet 1700000060000 (rejecting "not reached")
                  "user_2" (Some "two@example.com") (snd first) in
  fst first = Return tt /\
  fst second = Return tt /\
  creator_of (snd first) = Some (Some "", Some "one@example.com") /\
  creator_of (snd second) = Some (Some "user_2", Some "two@example.com") /\
  creator_of (snd second) <> creator_of (snd first).
Proof.
  cbv zeta. repeat split; try reflexivity.
  vm_compute. discriminate.
Qed.

(** C7, as the code has it.  The test for a recorded creator is the
    truthiness of [creator_user_id]: when the tenant record carries a
    non-empty creator id, [setCreatorIfNotSet] completes without touching
    the database, so every column of the record, [updated_at] included, is
    as before; whenever the call does change [updated_at] of the record, it
    is because the record carried no creator id, or an empty one, and the
    call wrote the creator columns together with the new timestamp; and on
    such a record the call does write them. *)
Theorem creator_write_frame
  (foreign : string -> list Value -> Db -> Completion (list SqlRow * Db))
  (now : Z) (u : string) (e : option string) (a : Actor) (r : Settings) :
  tenant_record a = Some r ->
  (truthy (creator_user_id r) = true ->
   setCreatorIfNotSet now foreign u e a = (Return tt, mkActor (sql a) true)) /\
  (forall r',
      tenant_record (snd (setCreatorIfNotSet now foreign u e a)) = Some r' ->
      updated_at r' <> updated_at r ->
      truthy (creator_user_id r) = false /\
      r' = set_creator (Some u) (or_else e None) (now / 1000) r) /\
  (truthy (creator_user_id r) = false ->
   fst (setCreatorIfNotSet now foreign u e a) = Return tt /\
   tenant_record (snd (setCreatorIfNotSet now foreign u e a))
   = Some (set_creator (Some u) (or_else e None) (now / 1000) r)).
Proof.
  intros Hr. split; [| split].
  - intros Ht. apply (setCreatorIfNotSet_recorded foreign now u e a r Hr Ht).
  - intros r' Hr' Hneq.
    destruct (truthy (creator_user_id r)) eqn:Ht.
    + rewrite (setCreatorIfNotSet_recorded foreign now u e a r Hr Ht) in Hr'.
      cbn [snd] in Hr'. unfold tenant_record, records in Hr', Hr.
      cbn [sql] in Hr'. rewrite Hr in Hr'. congruence.
    + destruct (setCreatorIfNotSet_writes foreign now u e a r Hr Ht)
        as (a' & Hrun & Hrec).
      rewrite Hrun in Hr'. cbn [snd] in Hr'. rewrite Hrec in Hr'.
      split; [reflexivity | congruence].
  - intros Ht.
    destruct (setCreatorIfNotSet_writes foreign now u e a r Hr Ht)
      as (a' & Hrun & Hrec).
    rewrite Hrun. cbn [fst snd]. split; [reflexivity | exact Hrec].
Qed.

(** Witness: a record that already names its creator, and one that does
    not. *)
Lemma creator_write_frame_witness :
  let kept := mkSettings 1 None (Some "user_1") (Some "one@example.com")
                         1700000000 1700000000 in
  let a := mkActor (mkDb (Some [kept])) true in
  let b := mkActor (mkDb (Some [default_settings 1700000000])) true in
  (tenant_record a = Some kept /\
   setCreatorIfNotSet 1700000060000 (rejecting "not reached")
     "user_2" (Some "two@example.com") a = (Return tt, a)) /\
  (tenant_record b = Some (default_settings 1700000000) /\
   truthy (creator_user_id (default_settings 1700000000)) = false /\
   tenant_record (snd (setCreatorIfNotSet 1700000060000 (rejecting "not reached")
                         "user_2" (Some "two@example.com") b))
   = Some (set_creator (Some "user_2") (Some "two@example.com")
                       1700000060 (default_settings 1700000000))).
Proof.
  cbv zeta. split.
  - split; [reflexivity |].
    exact (proj1 (creator_write_frame (rejecting "not reached") 1700000060000
                    "user_2" (Some "two@example.com")
                    (mkActor (mkDb (Some [mkSettings 1 None (Some "user_1")
                                            (Some "one@example.com")
                                            1700000000 1700000000])) true)
                    _ eq_refl) eq_refl).
  - split; [reflexivity |].
    split.
    + refine (proj1 (proj1 (proj2 (creator_write_frame (rejecting "not reached")
                              1700000060000 "user_2" (Some "two@example.com")
                              (mkActor (mkDb (Some [default_settings 1700000000])) true)
                              _ eq_refl))
                       (set_creator (Some "user_2") (Some "two@example.com")
                                    1700000060 (default_settings 1700000000))
                       eq_refl _)).
      cbn. discriminate.
    + exact (proj2 (proj2 (proj2 (creator_write_frame (rejecting "not reached")
                              1700000060000 "user_2" (Some "two@example.com")
                              (mkActor (mkDb (Some [default_settings 1700000000])) true)
                              _ eq_refl)) eq_refl)).
Defined.

(** C7 as stated fails: after a call that recorded a creator with the empty
    user id (and an e-mail address), the next call is not a no-op; it
    replaces both creator columns and advances [updated_at]. *)
Lemma creator_write_frame_counterexample :
  let first := setCreatorIfNotSet 1700000000000 (rejecting "not reached")
                 "" (Some "one@example.com") fresh in
  let second := setCreatorIfNotSet 1700000060000 (rejecting "not reached")
                  "user_2" (Some "two@example.com") (snd first) in
  tenant_record (snd first)
  = Some (mkSettings 1 None (Some "") (Some "one@example.com")
                     1700000000 1700000000) /\
  fst second = Return tt /\
  tenant_record (snd second)
  = Some (mkSettings 1 None (Some "user_2") (Some "two@example.com")
                     1700000000 1700000060) /\
  snd second <> snd first.
Proof.
  cbv zeta. do 3 (split; [reflexivity |]).
  vm_compute. discriminate.
Qed.

(* ================================================================== *)
(** * Parameter flattening *)
(* ================================================================== *)

Lemma flatParams_lone (ps : list Value) : flatParams [VArr ps] = ps.
Proof. reflexivity. Qed.

Lemma flatParams_spread (ps : list Value) :
  lone_array ps = false -> flatParams ps = ps.
Proof.
  intros H.
  destruct ps as [| v [| w rest]]; [reflexivity | | destruct v; reflexivity].
  destruct v; try reflexivity. discriminate H.
Qed.

(** C10, as the code has it.  [query] and [exec] called with the single
    array argument [ps] bind the elements of [ps], one by one; this is what
    the call with the elements of [ps] as individual arguments does too,
    unless [ps] itself consists of one array, which that call flattens once
    more. *)
Theorem lone_array_flattened (now : Z)
  (foreign : string -> list Value -> Db -> Completion (list SqlRow * Db))
  (text : string) (ps : list Value) (a : Actor) :
  (query now foreign text [VArr ps] a
   = sql_exec now foreign text ps (initialised now a) /\
   exec now foreign text [VArr ps] a
   = void (sql_exec now foreign text ps) (initialised now a)) /\
  (lone_array ps = false ->
   query now foreign text [VArr ps] a = query now foreign text ps a /\
   exec now foreign text [VArr ps] a = exec now foreign text ps a).
Proof.
  split.
  - rewrite query_run, exec_run, flatParams_lone. split; reflexivity.
  - intros H. rewrite !query_run, !exec_run, flatParams_lone.
    rewrite (flatParams_spread ps H). split; reflexivity.
Qed.

(** Witness: the customer id written through a one-element array, as
    [getOrCreateStripeCustomer] does, and written as a plain argument. *)
Lemma lone_array_flattened_witness :
  lone_array [VStr "cus_abc"] = false /\
  query 1700000000000 (rejecting "not reached") UPDATE_STRIPE_CUSTOMER_SQL
        [VArr [VStr "cus_abc"]] fresh
  = query 1700000000000 (rejecting "not reached") UPDATE_STRIPE_CUSTOMER_SQL
          [VStr "cus_abc"] fresh.
Proof.
  split; [reflexivity |].
  exact (proj1 (proj2 (lone_array_flattened 1700000000000
                         (rejecting "not reached") UPDATE_STRIPE_CUSTOMER_SQL
                         [VStr "cus_abc"] fresh) eq_refl)).
Defined.

(** C10 as stated fails for a parameter list that consists of one array.
    Take the statement that records the creator, with its three
    placeholders, and [ps = [[user, null, seconds]]].  Called with the
    single array argument [ps], the statement is handed one binding, the
    inner array, and the engine refuses it for the number of bindings;
    called with the elements of [ps] spread out, the inner array is
    flattened again, the statement is handed its three bindings and the
    creator is written. *)
Lemma lone_array_flattened_counterexample :
  let ps := [VArr [VStr "user_1"; VNull; VNum 1700000000]] in
  let engine := counting_bindings (rejecting "not reached") in
  placeholders UPDATE_CREATOR_SQL = 3%nat /\
  flatParams [VArr ps] = [VArr [VStr "user_1"; VNull; VNum 1700000000]] /\
  flatParams ps = [VStr "user_1"; VNull; VNum 1700000000] /\
  query 1700000000000 engine UPDATE_CREATOR_SQL [VArr ps] fresh
  = (Throw (SqlError "Wrong number of parameter bindings for SQL query."),
     initialised 1700000000000 fresh) /\
  query 1700000000000 engine UPDATE_CREATOR_SQL ps fresh
  = (Return [],
     mkActor (mkDb (Some [mkSettings 1 None (Some "user_1") None
                                     1700000000 1700000000])) true) /\
  exec 1700000000000 engine UPDATE_CREATOR_SQL [VArr ps] fresh
  <> exec 1700000000000 engine UPDATE_CREATOR_SQL ps fresh.
Proof.
  cbv zeta. do 5 (split; [reflexivity |]).
  intros H. apply (f_equal fst) in H. vm_compute in H. discriminate H.
Qed.

(* ================================================================== *)
(** * The authentication middleware *)
(* ================================================================== *)

Section ExternalStage.

Variable jws : Jws.
Variable new_URL : string -> Completion string.
Variable env : Env.

Lemma clerkAuth_no_header (req : Request) :
  Authorization req = None ->
  clerkAuth jws new_URL env req
  = unauthorized "Unauthorized: Missing or invalid Authorization header".
Proof. unfold clerkAuth. intros ->. reflexivity. Qed.

Lemma clerkAuth_not_bearer (req : Request) (h : string) :
  Authorization req = Some h ->
  String.prefix "Bearer " h = false ->
  clerkAuth jws new_URL env req
  = unauthorized "Unauthorized: Missing or invalid Authorization header".
Proof. unfold clerkAuth. intros -> ->. reflexivity. Qed.

Lemma clerkAuth_bearer (req : Request) (h : string) :
  Authorization req = Some h ->
  String.prefix "Bearer " h = true ->
  clerkAuth jws new_URL env req
  = match clerkVerify jws new_URL env (slice7 h) with
    | Return o => o
    | Throw _ => unauthorized "Unauthorized: Invalid token"
    end.
Proof. unfold clerkAuth. intros -> ->. reflexivity. Qed.

Lemma or_default_truthy (o : option string) (s d : string) :
  o = Some s -> s <> "" -> or_default o d = s /\ truthy o = true.
Proof.
  intros -> H. pose proof (truthy_nonempty s H) as Ht. cbn in Ht |- *.
  rewrite Ht. split; reflexivity.
Qed.

Lemma truthy_inv (o : option string) :
  truthy o = true -> exists s, o = Some s /\ s <> "" /\ or_default o "" = s.
Proof.
  destruct o as [s |]; [| discriminate]. cbn. intros H. exists s.
  rewrite H. repeat split.
  unfold truthy_string in H. apply negb_true_iff, String.eqb_neq in H. exact H.
Qed.

(** Only a verified token reaches [next()]. *)
Lemma clerkAuth_next (req : Request) (vars : Variables) :
  clerkAuth jws new_URL env req = Next vars ->
  exists h issuer JWKS payload,
    Authorization req = Some h /\
    String.prefix "Bearer " h = true /\
    CLERK_ISSUER_URL env = Some issuer /\
    new_URL (String.append issuer "/.well-known/jwks.json") = Return JWKS /\
    remoteVerify jws (slice7 h) JWKS issuer = Return payload /\
    vars = identity_of payload.
Proof.
  unfold clerkAuth.
  destruct (Authorization req) as [h |]; [| discriminate].
  destruct (String.prefix "Bearer " h) eqn:Hp; [| discriminate].
  unfold clerkVerify.
  destruct (truthy (CLERK_ISSUER_URL env)) eqn:Ht; cbn [negb]; [| discriminate].
  destruct (truthy_inv _ Ht) as (issuer & Hi & _ & Hd). rewrite Hd.
  destruct (new_URL _) as [JWKS | e] eqn:Hu; [| discriminate].
  destruct (remoteVerify jws (slice7 h) JWKS issuer) as [payload | e] eqn:Hv;
    [| discriminate].
  intros H. injection H as <-.
  exists h, issuer, JWKS, payload. repeat split; assumption.
Qed.

End ExternalStage.

(** C4.  [clerkAuth] answers 401 when the Authorization header is missing
    or does not start with the bearer scheme; when the header is a bearer
    one and anything in the verification throws (building the key-set URL
    or verifying the token), it answers 401 with the fixed message
    "Unauthorized: Invalid token" and no details; and it calls [next()],
    with the variables taken from the verified claims, only when the
    verification has returned those claims. *)
Theorem external_stage_fail_closed (jws : Jws)
  (new_URL : string -> Completion string) (env : Env) (req : Request) :
  (Authorization req = None ->
   clerkAuth jws new_URL env req
   = Responds (mkErrorResponse
                 "Unauthorized: Missing or invalid Authorization header" None 401)) /\
  (forall h,
      Authorization req = Some h ->
      String.prefix "Bearer " h = false ->
      clerkAuth jws new_URL env req
      = Responds (mkErrorResponse
                    "Unauthorized: Missing or invalid Authorization header" None 401)) /\
  (forall h e,
      Authorization req = Some h ->
      String.prefix "Bearer " h = true ->
      clerkVerify jws new_URL env (slice7 h) = Throw e ->
      clerkAuth jws new_URL env req
      = Responds (mkErrorResponse "Unauthorized: Invalid token" None 401)) /\
  (forall h issuer JWKS e,
      Authorization req = Some h ->
      String.prefix "Bearer " h = true ->
      CLERK_ISSUER_URL env = Some issuer ->
      issuer <> "" ->
      new_URL (String.append issuer "/.well-known/jwks.json") = Return JWKS ->
      remoteVerify jws (slice7 h) JWKS issuer = Throw e ->
      clerkAuth jws new_URL env req
      = Responds (mkErrorResponse "Unauthorized: Invalid token" None 401)) /\
  (forall vars,
      clerkAuth jws new_URL env req = Next vars ->
      exists h issuer JWKS payload,
        Authorization req = Some h /\
        String.prefix "Bearer " h = true /\
        CLERK_ISSUER_URL env = Some issuer /\
        new_URL (String.append issuer "/.well-known/jwks.json") = Return JWKS /\
        remoteVerify jws (slice7 h) JWKS issuer = Return payload /\
        vars = identity_of payload).
Proof.
  split; [apply clerkAuth_no_header |].
  split; [apply clerkAuth_not_bearer |].
  split; [| split].
  - intros h e Hh Hp Hv. rewrite (clerkAuth_bearer _ _ _ _ h Hh Hp), Hv.
    reflexivity.
  - intros h issuer JWKS e Hh Hp Hi Hne Hu Hv.
    rewrite (clerkAuth_bearer _ _ _ _ h Hh Hp). unfold clerkVerify.
    destruct (or_default_truthy _ issuer "" Hi Hne) as [Hd Ht].
    rewrite Ht, Hd, Hu, Hv. reflexivity.
  - apply clerkAuth_next.
Qed.

(** Witness: no header; a basic-scheme header; a bearer token the issuer
    did not sign; the bearer token it did sign. *)
Lemma external_stage_fail_closed_witness :
  clerkAuth jws_toy url_ok env_dev (mkRequest "/api/billing/usage" None None)
  = unauthorized "Unauthorized: Missing or invalid Authorization header" /\
  clerkAuth jws_toy url_ok env_dev
    (mkRequest "/api/billing/usage" (Some "Basic dXNlcjpwYXNz") None)
  = unauthorized "Unauthorized: Missing or invalid Authorization header" /\
  clerkAuth jws_toy url_ok env_dev
    (mkRequest "/api/billing/usage" (Some "Bearer forged.jwt") None)
  = unauthorized "Unauthorized: Invalid token" /\
  clerkAuth jws_toy url_ok env_dev
    (mkRequest "/api/billing/usage" (Some "Bearer clerk.jwt") None)
  = Next (mkVariables (Some "user_1") (Some "org_1") (Some "org:admin")).
Proof.
  split; [| split; [| split]].
  - exact (proj1 (external_stage_fail_closed jws_toy url_ok env_dev
                    (mkRequest "/api/billing/usage" None None)) eq_refl).
  - exact (proj1 (proj2 (external_stage_fail_closed jws_toy url_ok env_dev
                           (mkRequest "/api/billing/usage"
                              (Some "Basic dXNlcjpwYXNz") None)))
             "Basic dXNlcjpwYXNz" eq_refl eq_refl).
  - exact (proj1 (proj2 (proj2 (external_stage_fail_closed jws_toy url_ok env_dev
                                  (mkRequest "/api/billing/usage"
                                     (Some "Bearer forged.jwt") None))))
             "Bearer forged.jwt"
             (JOSEError "ERR_JWS_SIGNATURE_VERIFICATION_FAILED")
             eq_refl eq_refl eq_refl).
  - reflexivity.
Defined.

Section InternalStage.

Variable jws : Jws.
Variable env : Env.

Lemma secs_1h : secs "1h" = Return 3600.
Proof. reflexivity. Qed.

Lemma generateInternalToken_run (now : Z) (orgId userId : string) :
  generateInternalToken now jws env orgId userId
  = Return (compactSign jws (minted_claims now orgId userId) "HS256"
                        (shared_secret env)).
Proof. reflexivity. Qed.

(** An expired claims set never passes the claims validation. *)
Lemma validateClaims_expired (now : Z) (p : JWTPayload) (e : Z) :
  exp p = Some e ->
  e <= now / 1000 ->
  exists err, validateClaims now p = Throw err.
Proof.
  intros He Hle. unfold validateClaims, epoch. rewrite He.
  assert (Hb : (e <=? now / 1000) = true) by (apply Z.leb_le; exact Hle).
  rewrite Hb.
  destruct (nbf p) as [n |]; [destruct (now / 1000 <? n) |]; eauto.
Qed.

Lemma internalAuth_expired (now : Z) (req : Request) (token : string)
  (p : JWTPayload) (e : Z) :
  X_Internal_Token req = Some token ->
  token <> "" ->
  compactVerify jws token (shared_secret env) = Return p ->
  exp p = Some e ->
  e <= now / 1000 ->
  internalAuth jws now env req
  = unauthorized "Unauthorized: Invalid internal token".
Proof.
  intros Hh Hne Hv He Hle. unfold internalAuth.
  destruct (or_default_truthy _ token "" Hh Hne) as [Hd Ht].
  rewrite Ht, Hd. cbn [negb]. unfold jwtVerify.
  change (or_default (INTERNAL_SECRET env) "development-secret-key")
    with (shared_secret env).
  rewrite Hv.
  destruct (validateClaims_expired now p e He Hle) as [err ->]. reflexivity.
Qed.

End InternalStage.

(** C5.  The token [generateInternalToken] mints at time [now] is the
    HS256 signature, under the shared secret, of claims whose issue time is
    the epoch second of [now] and whose expiration is 3600 seconds later;
    and [internalAuth] answers 401 to any token whose signature verifies
    under the shared secret but whose expiration is not after the current
    epoch second. *)
Theorem internal_token_lifetime (jws : Jws) (env : Env) (now later : Z)
  (orgId userId : string) :
  (generateInternalToken now jws env orgId userId
   = Return (compactSign jws (minted_claims now orgId userId) "HS256"
                         (shared_secret env)) /\
   iat (minted_claims now orgId userId) = Some (now / 1000) /\
   exp (minted_claims now orgId userId) = Some (now / 1000 + 60 * 60)) /\
  (forall req token p e,
      X_Internal_Token req = Some token ->
      token <> "" ->
      compactVerify jws token (shared_secret env) = Return p ->
      exp p = Some e ->
      e <= later / 1000 ->
      internalAuth jws later env req
      = Responds (mkErrorResponse "Unauthorized: Invalid internal token" None 401)).
Proof.
  split.
  - split; [apply generateInternalToken_run |]. split; reflexivity.
  - intros req token p e. apply internalAuth_expired.
Qed.

(** Witness: the token minted at 1700000000 s is accepted half an hour
    later and refused one hour later. *)
Lemma internal_token_lifetime_witness :
  let req := mkRequest "/internal" None (Some "internal.jwt") in
  generateInternalToken 1700000000000 jws_toy env_dev "org_1" "user_1"
  = Return "internal.jwt" /\
  internalAuth jws_toy 1700001800000 env_dev req
  = Next (mkVariables (Some "user_1") (Some "org_1") None) /\
  internalAuth jws_toy 1700003600000 env_dev req
  = unauthorized "Unauthorized: Invalid internal token".
Proof.
  cbv zeta. split; [reflexivity |]. split; [reflexivity |].
  assert (Hne : "internal.jwt" <> "") by discriminate.
  refine (proj2 (internal_token_lifetime jws_toy env_dev 1700000000000
                   1700003600000 "org_1" "user_1")
            (mkRequest "/internal" None (Some "internal.jwt"))
            "internal.jwt" claims_org_1 1700003600
            eq_refl Hne eq_refl eq_refl _).
  vm_compute. discriminate.
Defined.

(* ================================================================== *)
(** * The middleware in front of the API routes *)
(* ================================================================== *)

Section ApiRoutes.

Variable jws : Jws.
Variable new_URL : string -> Completion string.
Variable now : Z.
Variable env : Env.

Lemma authenticate_api (req : Request) :
  matches_api (path req) = true ->
  authenticate jws new_URL now env req
  = ([ExternalTokenStage], clerkAuth jws new_URL env req).
Proof.
  unfold authenticate, middleware_for. intros ->.
  cbn [dispatch run_stage].
  destruct (clerkAuth jws new_URL env req); reflexivity.
Qed.

End ApiRoutes.

Lemma internal_stage_not_mounted (p : string) :
  ~ In InternalTokenStage (middleware_for p).
Proof.
  unfold middleware_for. destruct (matches_api p); cbn; intros H.
  - destruct H as [H | []]. discriminate H.
  - exact H.
Qed.

Lemma serve_preflight (jws : Jws) (new_URL : string -> Completion string)
  (now : Z) (env : Env) (r : Incoming) :
  http_method r = "OPTIONS" ->
  serve jws new_URL now env r = ([], Preflight 204 (allow_origin (Origin r))).
Proof. unfold serve. intros ->. reflexivity. Qed.

Lemma serve_api (jws : Jws) (new_URL : string -> Completion string)
  (now : Z) (env : Env) (r : Incoming) :
  http_method r <> "OPTIONS" ->
  matches_api (path (auth_part r)) = true ->
  serve jws new_URL now env r
  = ([ExternalTokenStage], Through (clerkAuth jws new_URL env (auth_part r))).
Proof.
  intros Hm Hp. unfold serve.
  apply String.eqb_neq in Hm. rewrite Hm.
  rewrite (authenticate_api jws new_URL now env _ Hp). reflexivity.
Qed.

(** C9, as the code has it.  [cors] is the first middleware on every path
    and answers a preflight, a request whose method is [OPTIONS], with 204
    itself: for such a request no authentication stage runs.  For every
    other request to a route under [/api/] exactly one authentication stage
    runs, and it is always the external-token stage, whatever headers the
    request carries: its outcome is the outcome of the request, and a
    request without an Authorization header is answered 401 by that stage,
    with or without an internal token.  The internal-token stage is
    registered for no path at all. *)
Theorem api_runs_external_stage (jws : Jws)
  (new_URL : string -> Completion string) (now : Z) (env : Env) (r : Incoming) :
  matches_api (path (auth_part r)) = true ->
  (http_method r <> "OPTIONS" ->
   serve jws new_URL now env r
   = ([ExternalTokenStage], Through (clerkAuth jws new_URL env (auth_part r))) /\
   (Authorization (auth_part r) = None ->
    serve jws new_URL now env r
    = ([ExternalTokenStage],
       Through (Responds (mkErrorResponse
                  "Unauthorized: Missing or invalid Authorization header"
                  None 401))))) /\
  (http_method r = "OPTIONS" ->
   serve jws new_URL now env r = ([], Preflight 204 (allow_origin (Origin r)))) /\
  (forall p, ~ In InternalTokenStage (middleware_for p)).
Proof.
  intros Hp. split; [| split].
  - intros Hm. split.
    + apply serve_api; assumption.
    + intros Hh. rewrite (serve_api jws new_URL now env r Hm Hp).
      rewrite (clerkAuth_no_header jws new_URL env _ Hh). reflexivity.
  - apply serve_preflight.
  - apply internal_stage_not_mounted.
Qed.

(** Witness: a usage request that carries a valid internal token only, sent
    with GET, and the preflight for it. *)
Lemma api_runs_external_stage_witness :
  let req := mkRequest "/api/billing/usage" None (Some "internal.jwt") in
  let get := mkIncoming "GET" (Some "http://localhost:5173") req in
  let preflight := mkIncoming "OPTIONS" (Some "http://localhost:5173") req in
  matches_api (path req) = true /\
  (http_method get <> "OPTIONS" /\
   serve jws_toy url_ok 1700001800000 env_dev get
   = ([ExternalTokenStage],
      Through (unauthorized "Unauthorized: Missing or invalid Authorization header"))) /\
  serve jws_toy url_ok 1700001800000 env_dev preflight
  = ([], Preflight 204 (Some "http://localhost:5173")).
Proof.
  cbv zeta.
  assert (Hget : "GET" <> "OPTIONS") by discriminate.
  split; [reflexivity |]. split.
  - split; [exact Hget |].
    exact (proj2 (proj1 (api_runs_external_stage jws_toy url_ok 1700001800000 env_dev
                           (mkIncoming "GET" (Some "http://localhost:5173")
                              (mkRequest "/api/billing/usage" None
                                         (Some "internal.jwt")))
                           eq_refl) Hget) eq_refl).
  - exact (proj1 (proj2 (api_runs_external_stage jws_toy url_ok 1700001800000 env_dev
                           (mkIncoming "OPTIONS" (Some "http://localhost:5173")
                              (mkRequest "/api/billing/usage" None
                                         (Some "internal.jwt")))
                           eq_refl)) eq_refl).
Defined.

(** C9 as stated fails.  A GET request with a valid internal token and no
    Authorization header, which [internalAuth] would let through, is
    answered 401 by the external stage; a GET request with neither header
    is answered by that stage too, not before it; and for a preflight no
    authentication stage runs at all. *)
Lemma api_runs_external_stage_counterexample :
  let internal :=
    mkIncoming "GET" None
               (mkRequest "/api/billing/usage" None (Some "internal.jwt")) in
  let neither :=
    mkIncoming "GET" None (mkRequest "/api/billing/usage" None None) in
  let preflight :=
    mkIncoming "OPTIONS" None
               (mkRequest "/api/billing/usage" None (Some "internal.jwt")) in
  internalAuth jws_toy 1700001800000 env_dev (auth_part internal)
  = Next (mkVariables (Some "user_1") (Some "org_1") None) /\
  serve jws_toy url_ok 1700001800000 env_dev internal
  = ([ExternalTokenStage],
     Through (unauthorized "Unauthorized: Missing or invalid Authorization header")) /\
  fst (serve jws_toy url_ok 1700001800000 env_dev neither)
  = [ExternalTokenStage] /\
  serve jws_toy url_ok 1700001800000 env_dev preflight
  = ([], Preflight 204 None) /\
  ~ (exists vars,
        serve jws_toy url_ok 1700001800000 env_dev internal
        = ([InternalTokenStage], Through (Next vars))) /\
  fst (serve jws_toy url_ok 1700001800000 env_dev neither) <> [].
Proof.
  cbv zeta. do 4 (split; [reflexivity |]). split.
  - intros (vars & H). vm_compute in H. discriminate H.
  - vm_compute. discriminate.
Qed.

(* ================================================================== *)
(** * Billing: customer provisioning *)
(* ================================================================== *)

Lemma actor_of_with_actor (stub : string) (a : Actor) (w : World) :
  actor_of (with_actor stub a w) stub = a.
Proof.
  unfold actor_of, with_actor. cbn [namespace].
  rewrite lookup_insert_eq. reflexivity.
Qed.

Lemma with_actor_twice (stub : string) (a b : Actor) (w : World) :
  with_actor stub b (with_actor stub a w) = with_actor stub b w.
Proof.
  unfold with_actor. cbn [namespace stripe_calls].
  rewrite insert_insert_eq. reflexivity.
Qed.

Lemma existing_customer_select (rows : list Settings) :
  existing_customer
    (select_singleton "stripe_customer_id" stripe_customer_id rows)
  = match List.find is_singleton rows with
    | Some r => if truthy (stripe_customer_id r) then stripe_customer_id r else None
    | None => None
    end.
Proof.
  unfold existing_customer, select_singleton.
  induction rows as [| r rows IH]; cbn [List.filter List.map List.find];
    [reflexivity |].
  destruct (is_singleton r); [| exact IH].
  cbn [List.map property]. rewrite String.eqb_refl, as_string_text_cell.
  reflexivity.
Qed.

Section Provisioning.

Variable foreign : string -> list Value -> Db -> Completion (list SqlRow * Db).
Variable stripe : Stripe.
Variable clerk : Clerk.

Lemma rpc_select_customer (now : Z) (stub : string) (w : World) :
  rpc stub (query now foreign SELECT_STRIPE_CUSTOMER_SQL []) w
  = (match organization_settings (sql (initialised now (actor_of w stub))) with
     | Some rows =>
         Return (select_singleton "stripe_customer_id" stripe_customer_id rows)
     | None => Throw no_such_table
     end,
     with_actor stub (initialised now (actor_of w stub)) w).
Proof.
  unfold rpc. rewrite query_run. change (flatParams []) with (@nil Value).
  unfold sql_exec, sqlite_exec. rewrite classify_select_customer.
  destruct (organization_settings (sql (initialised now (actor_of w stub))));
    [rewrite actor_eta |]; reflexivity.
Qed.

Lemma rpc_update_customer (now : Z) (stub customer : string) (w : World)
  (rows : list Settings) :
  initialized (actor_of w stub) = true ->
  organization_settings (sql (actor_of w stub)) = Some rows ->
  rpc stub (query now foreign UPDATE_STRIPE_CUSTOMER_SQL [VArr [VStr customer]]) w
  = (Return [],
     with_actor stub (mkActor (mkDb (Some (with_customer customer rows))) true) w).
Proof.
  intros Hflag Hrows. unfold rpc. rewrite query_run, flatParams_lone.
  rewrite (initialised_set now _ Hflag).
  unfold sql_exec, sqlite_exec.
  rewrite classify_update_customer, Hrows, Hflag. reflexivity.
Qed.

(** The fast path: a truthy customer id on the record. *)
Lemma getOrCreateStripeCustomer_existing (now : Z) (stub orgId userId : string)
  (key : option string) (w : World) (r : Settings) (customer : string) :
  tenant_record (initialised now (actor_of w stub)) = Some r ->
  stripe_customer_id r = Some customer ->
  customer <> "" ->
  getOrCreateStripeCustomer now foreign stripe clerk stub orgId userId key w
  = (Return customer, with_actor stub (initialised now (actor_of w stub)) w).
Proof.
  intros Hr Hc Hne.
  unfold getOrCreateStripeCustomer, bind at 1. rewrite rpc_select_customer.
  destruct (tenant_record_rows _ r Hr) as (rows & Hrows & Hfind).
  rewrite Hrows, existing_customer_select, Hfind, Hc.
  rewrite (truthy_nonempty customer Hne). reflexivity.
Qed.

(** The slow path: a record without a customer id. *)
Lemma getOrCreateStripeCustomer_absent (now : Z) (stub orgId userId : string)
  (key : option string) (w : World) (r : Settings) (rows : list Settings) :
  organization_settings (sql (initialised now (actor_of w stub))) = Some rows ->
  List.find is_singleton rows = Some r ->
  truthy (stripe_customer_id r) = false ->
  getOrCreateStripeCustomer now foreign stripe clerk stub orgId userId key w
  = match customers_create_response stripe (stripe_calls w)
            (new_customer clerk orgId userId key) with
    | Return customer =>
        (Return customer,
         mkWorld (<[stub := mkActor (mkDb (Some (with_customer customer rows))) true]>
                    (namespace w))
                 (stripe_calls w ++ [CustomersCreate (new_customer clerk orgId userId key)]))
    | Throw e =>
        (Throw e,
         mkWorld (<[stub := initialised now (actor_of w stub)]> (namespace w))
                 (stripe_calls w ++ [CustomersCreate (new_customer clerk orgId userId key)]))
    end.
Proof.
  intros Hrows Hfind Ht.
  unfold getOrCreateStripeCustomer, bind at 1. rewrite rpc_select_customer.
  rewrite Hrows, existing_customer_select, Hfind, Ht.
  unfold new_customer.
  destruct (customer_identity clerk orgId userId key) as [customerName customerEmail].
  cbn [fst snd]. unfold bind at 1, on_stripe, customers_create, with_actor.
  cbn [stripe_calls namespace].
  destruct (customers_create_response stripe (stripe_calls w) _) as [customer | e];
    [| reflexivity].
  unfold bind at 1.
  rewrite (rpc_update_customer now stub customer _ rows).
  - unfold with_actor. cbn [namespace stripe_calls].
    rewrite insert_insert_eq. reflexivity.
  - unfold actor_of. cbn [namespace]. rewrite lookup_insert_eq. cbn [default].
    apply initialised_flag.
  - unfold actor_of. cbn [namespace]. rewrite lookup_insert_eq. cbn [default].
    exact Hrows.
Qed.

End Provisioning.

Lemma is_singleton_default (t : Z) : is_singleton (default_settings t) = true.
Proof. reflexivity. Qed.

Lemma actor_ready_initialised (now : Z) (a : Actor) :
  actor_ready a -> exists r, tenant_record (initialised now a) = Some r.
Proof.
  unfold actor_ready, initialised. intros Hready.
  destruct (initialized a) eqn:Hflag; [apply Hready; reflexivity |].
  unfold tenant_record, records, seeded. cbn [sql].
  destruct (organization_settings (sql a)) as [rows |] eqn:Hrows.
  - destruct (List.existsb is_singleton rows) eqn:Hex.
    + rewrite Hrows. rewrite find_existsb_singleton in Hex.
      destruct (List.find is_singleton rows) as [r |]; [eauto | discriminate].
    + cbn [organization_settings].
      assert (Hex' : List.existsb is_singleton (rows ++ [default_settings (now / 1000)])
                     = true).
      { rewrite List.existsb_app. cbn. rewrite orb_true_r. reflexivity. }
      rewrite find_existsb_singleton in Hex'.
      destruct (List.find is_singleton _) as [r |]; [eauto | discriminate].
  - cbn. eauto.
Qed.

Lemma creations_app (log : list Call) (p : CustomerCreateParams) :
  creations (log ++ [CustomersCreate p]) = S (creations log).
Proof.
  unfold creations. rewrite List.filter_app, List.length_app. cbn. lia.
Qed.

Section Idempotence.

Variable foreign : string -> list Value -> Db -> Completion (list SqlRow * Db).
Variable stripe : Stripe.
Variable clerk : Clerk.

Lemma getOrCreateStripeCustomer_fast (now : Z) (stub orgId userId : string)
  (key : option string) (w : World) (r : Settings) (customer : string) :
  tenant_record (actor_of w stub) = Some r ->
  stripe_customer_id r = Some customer ->
  customer <> "" ->
  getOrCreateStripeCustomer now foreign stripe clerk stub orgId userId key w
  = (Return customer, with_actor stub (mkActor (sql (actor_of w stub)) true) w).
Proof.
  intros Hr Hc Hne.
  pose proof (initialised_with_record now _ r Hr) as Hinit.
  rewrite (getOrCreateStripeCustomer_existing foreign stripe clerk now stub
             orgId userId key w r customer); rewrite ?Hinit; auto.
Qed.

Lemma getOrCreateStripeCustomer_again (now1 now2 : Z)
  (stub orgId1 userId1 orgId2 userId2 : string) (key1 key2 : option string)
  (w : World) (customer : string) :
  actor_ready (actor_of w stub) ->
  fst (getOrCreateStripeCustomer now1 foreign stripe clerk stub orgId1 userId1 key1 w)
  = Return customer ->
  customer <> "" ->
  let w1 := snd (getOrCreateStripeCustomer now1 foreign stripe clerk stub
                   orgId1 userId1 key1 w) in
  getOrCreateStripeCustomer now2 foreign stripe clerk stub orgId2 userId2 key2 w1
  = (Return customer, w1) /\
  (creations (stripe_calls w1) <= S (creations (stripe_calls w)))%nat.
Proof.
  intros Hready Hfirst Hne. cbv zeta.
  destruct (actor_ready_initialised now1 _ Hready) as (r & Hr).
  destruct (tenant_record_rows _ r Hr) as (rows & Hrows & Hfind).
  pose proof (initialised_flag now1 (actor_of w stub)) as Hflag.
  destruct (truthy (stripe_customer_id r)) eqn:Ht.
  - destruct (truthy_inv _ Ht) as (c & Hc & Hcne & _).
    rewrite (getOrCreateStripeCustomer_existing foreign stripe clerk now1 stub
               orgId1 userId1 key1 w r c Hr Hc Hcne) in Hfirst |- *.
    cbn [fst snd] in Hfirst |- *. injection Hfirst as ->.
    split; [| unfold with_actor; cbn [stripe_calls]; lia].
    rewrite (getOrCreateStripeCustomer_existing foreign stripe clerk now2 stub
               orgId2 userId2 key2 _ r customer);
      rewrite ?actor_of_with_actor, ?(initialised_set now2 _ Hflag); auto.
    rewrite with_actor_twice. reflexivity.
  - rewrite (getOrCreateStripeCustomer_absent foreign stripe clerk now1 stub
               orgId1 userId1 key1 w r rows Hrows Hfind Ht) in Hfirst |- *.
    destruct (customers_create_response stripe (stripe_calls w) _) as [c | e];
      [| discriminate Hfirst].
    cbn [fst snd] in Hfirst |- *. injection Hfirst as ->.
    split; [| cbn [stripe_calls]; rewrite creations_app; lia].
    set (a1 := mkActor (mkDb (Some (with_customer customer rows))) true).
    set (w0 := mkWorld (namespace w)
                 (stripe_calls w ++ [CustomersCreate (new_customer clerk orgId1 userId1 key1)])).
    assert (Hw : mkWorld (<[stub := a1]> (namespace w))
                   (stripe_calls w
                    ++ [CustomersCreate (new_customer clerk orgId1 userId1 key1)])
                 = with_actor stub a1 w0) by reflexivity.
    rewrite Hw. clear Hw.
    rewrite (getOrCreateStripeCustomer_existing foreign stripe clerk now2 stub
               orgId2 userId2 key2 _ (set_stripe_customer (Some customer) r) customer);
      rewrite ?actor_of_with_actor; auto.
    + change (initialised now2 a1) with a1.
      rewrite with_actor_twice. reflexivity.
    + unfold tenant_record, records, initialised, a1, with_customer.
      cbn [initialized sql organization_settings].
      rewrite find_update_singleton by reflexivity. rewrite Hfind. reflexivity.
Qed.

End Idempotence.

(** C2.  When the tenant record carries a customer id,
    [getOrCreateStripeCustomer] returns that id and sends nothing to the
    billing provider.  And whatever the first call did, once it has
    returned an id for a tenant, a second call for that tenant returns the
    same id and changes nothing: no further call reaches the provider, so
    at most one customer has been created over the two calls.  (Customer
    ids are the provider's, hence non-empty; the actor is one whose seed
    row is in place whenever its flag says so.) *)
Theorem customer_provisioning_idempotent
  (foreign : string -> list Value -> Db -> Completion (list SqlRow * Db))
  (stripe : Stripe) (clerk : Clerk) (now1 now2 : Z)
  (stub orgId1 userId1 orgId2 userId2 : string) (key1 key2 : option string)
  (w : World) (customer : string) :
  customer <> "" ->
  (forall r,
      tenant_record (actor_of w stub) = Some r ->
      stripe_customer_id r = Some customer ->
      fst (getOrCreateStripeCustomer now1 foreign stripe clerk stub
             orgId1 userId1 key1 w) = Return customer /\
      stripe_calls (snd (getOrCreateStripeCustomer now1 foreign stripe clerk stub
                           orgId1 userId1 key1 w)) = stripe_calls w /\
      sql (actor_of (snd (getOrCreateStripeCustomer now1 foreign stripe clerk stub
                            orgId1 userId1 key1 w)) stub) = sql (actor_of w stub)) /\
  (actor_ready (actor_of w stub) ->
   fst (getOrCreateStripeCustomer now1 foreign stripe clerk stub
          orgId1 userId1 key1 w) = Return customer ->
   getOrCreateStripeCustomer now2 foreign stripe clerk stub orgId2 userId2 key2
     (snd (getOrCreateStripeCustomer now1 foreign stripe clerk stub
             orgId1 userId1 key1 w))
   = (Return customer,
      snd (getOrCreateStripeCustomer now1 foreign stripe clerk stub
             orgId1 userId1 key1 w)) /\
   (creations
      (stripe_calls (snd (getOrCreateStripeCustomer now1 foreign stripe clerk stub
                            orgId1 userId1 key1 w)))
    <= S (creations (stripe_calls w)))%nat).
Proof.
  intros Hne. split.
  - intros r Hr Hc.
    rewrite (getOrCreateStripeCustomer_fast foreign stripe clerk now1 stub
               orgId1 userId1 key1 w r customer Hr Hc Hne).
    cbn [fst snd]. rewrite actor_of_with_actor. repeat split.
  - intros Hready Hfirst.
    apply (getOrCreateStripeCustomer_again foreign stripe clerk now1 now2 stub
             orgId1 userId1 orgId2 userId2 key1 key2 w customer Hready Hfirst Hne).
Qed.

(** Witness: the tenant [org_1] has never been addressed; the provider
    issues [cus_abc]; the second call returns [cus_abc] and the provider
    has created one customer. *)
Lemma customer_provisioning_idempotent_witness :
  let first := getOrCreateStripeCustomer 1700000000000 (rejecting "not reached")
                 stripe_cus_abc clerk_down "org_1" "org_1" "user_1"
                 (Some "sk_clerk") untouched in
  "cus_abc" <> "" /\
  actor_ready (actor_of untouched "org_1") /\
  fst first = Return "cus_abc" /\
  creations (stripe_calls (snd first)) = 1%nat /\
  getOrCreateStripeCustomer 1700000060000 (rejecting "not reached")
    stripe_cus_abc clerk_down "org_1" "org_1" "user_2" None (snd first)
  = (Return "cus_abc", snd first).
Proof.
  cbv zeta.
  assert (Hne : "cus_abc" <> "") by discriminate.
  assert (Hready : actor_ready (actor_of untouched "org_1")).
  { intros Hflag. vm_compute in Hflag. discriminate Hflag. }
  split; [exact Hne |]. split; [exact Hready |].
  split; [reflexivity |]. split; [reflexivity |].
  exact (proj1 (proj2 (customer_provisioning_idempotent (rejecting "not reached")
                         stripe_cus_abc clerk_down 1700000000000 1700000060000
                         "org_1" "org_1" "user_1" "org_1" "user_2"
                         (Some "sk_clerk") None untouched "cus_abc" Hne)
                  Hready eq_refl)).
Defined.

(* ================================================================== *)
(** * Billing: the usage summary *)
(* ================================================================== *)

Section UsageSummary.

Variable now : Z.
Variable foreign : string -> list Value -> Db -> Completion (list SqlRow * Db).
Variable stripe : Stripe.

(** Every summary the handler sends is built from the resolved plan and
    the constant usage. *)
Lemma usage_handler_body (env : Env) (vars : Variables) (w w' : World)
  (body : UsageSummary) :
  usage_handler now foreign stripe env vars w = (Return (Json body), w') ->
  exists p,
    body = mkUsageSummary p (PLAN_LIMITS p) (mkUsage 0 0)
                          (lt_limit 0 (maxItems (PLAN_LIMITS p))).
Proof.
  unfold usage_handler.
  destruct (negb (truthy (or_else (orgId vars) (userId vars)))); [discriminate |].
  destruct (negb (truthy (STRIPE_SECRET_KEY env))); [discriminate |].
  unfold try_catch, bind at 1. rewrite rpc_select_customer.
  destruct (organization_settings _) as [rows |]; [| discriminate].
  destruct (existing_customer _) as [customerId |].
  - unfold bind, on_stripe. cbn [stripe_calls].
    destruct (getSubscriptionPlanType stripe customerId _) as [[p | e] log'];
      [| discriminate].
    unfold ret. intros H. injection H as <- _. exists p. reflexivity.
  - unfold bind, ret. intros H. injection H as <- _. exists FREE. reflexivity.
Qed.

(** The handler always answers. *)
Lemma usage_handler_total (env : Env) (vars : Variables) (w : World) :
  exists response, fst (usage_handler now foreign stripe env vars w) = Return response.
Proof.
  unfold usage_handler.
  destruct (negb (truthy (or_else (orgId vars) (userId vars)))); [cbn; eauto |].
  destruct (negb (truthy (STRIPE_SECRET_KEY env))); [cbn; eauto |].
  unfold try_catch.
  destruct (bind _ _ w) as [[response | e] w1]; cbn; eauto.
Qed.

End UsageSummary.

Lemma lt_limit_zero (p : PlanType) : lt_limit 0 (maxItems (PLAN_LIMITS p)) = true.
Proof. destruct p; reflexivity. Qed.

(** C8, as the code has it.  Every summary [GET /usage] sends carries the
    limits of the resolved plan and [canAddMore] equal to
    [usage.items < limits.maxItems]; the usage in it is the constant
    [{ items: 0, storage: 0 }], whatever the tenant's store holds, so
    [canAddMore] is [true] in every summary.  The comparison itself, under
    the FREE limit of 10 items, is [true] at 5 items and [false] at 10. *)
Theorem usage_summary (now : Z)
  (foreign : string -> list Value -> Db -> Completion (list SqlRow * Db))
  (stripe : Stripe) (env : Env) (vars : Variables) (w w' : World)
  (body : UsageSummary) :
  usage_handler now foreign stripe env vars w = (Return (Json body), w') ->
  canAddMore body = lt_limit (items (usage body)) (maxItems (limits body)) /\
  limits body = PLAN_LIMITS (planType body) /\
  usage body = mkUsage 0 0 /\
  canAddMore body = true /\
  maxItems (PLAN_LIMITS FREE) = Finite 10 /\
  lt_limit 5 (maxItems (PLAN_LIMITS FREE)) = true /\
  lt_limit 10 (maxItems (PLAN_LIMITS FREE)) = false.
Proof.
  intros H.
  destruct (usage_handler_body now foreign stripe env vars w w' body H) as [p ->].
  cbn [canAddMore usage items limits planType].
  rewrite lt_limit_zero. repeat split.
Qed.

(** Witness: the personal account [user_1], never addressed before. *)
Lemma usage_summary_witness :
  exists w',
    usage_handler 1700000000000 (rejecting "not reached") stripe_cus_abc env_dev
                  (mkVariables (Some "user_1") None None) untouched
    = (Return (Json (mkUsageSummary FREE (PLAN_LIMITS FREE) (mkUsage 0 0) true)), w') /\
    canAddMore (mkUsageSummary FREE (PLAN_LIMITS FREE) (mkUsage 0 0) true) = true.
Proof.
  eexists. split; [reflexivity |].
  refine (proj1 (proj2 (proj2 (proj2 (usage_summary 1700000000000
            (rejecting "not reached") stripe_cus_abc env_dev
            (mkVariables (Some "user_1") None None) untouched _
            (mkUsageSummary FREE (PLAN_LIMITS FREE) (mkUsage 0 0) true) _))))).
  reflexivity.
Defined.

(** C8 as stated fails: no request, store or provider makes the handler
    report 5 or 10 items in use, or [canAddMore = false]. *)
Lemma usage_summary_counterexample :
  ~ (exists now foreign stripe env vars w w' body,
        usage_handler now foreign stripe env vars w = (Return (Json body), w') /\
        (items (usage body) = 5 \/ items (usage body) = 10 \/
         canAddMore body = false)).
Proof.
  intros (now & foreign & stripe & env & vars & w & w' & body & H & Hclaim).
  destruct (usage_handler_body now foreign stripe env vars w w' body H) as [p ->].
  cbn [canAddMore usage items] in Hclaim. rewrite lt_limit_zero in Hclaim.
  destruct Hclaim as [Hc | [Hc | Hc]]; discriminate Hc.
Qed.

(* ================================================================== *)
(** * The actor invariant is kept by the repository's statements *)
(* ================================================================== *)

Lemma actor_ready_fresh : actor_ready fresh.
Proof. intros H. discriminate H. Qed.

Section Invariant.

Variable now : Z.
Variable foreign : string -> list Value -> Db -> Completion (list SqlRow * Db).
Variable databaseSize : Db -> Z.

(** An own statement keeps the flag and keeps the tenant record in place. *)
Lemma sql_exec_own_record (text : string) (bindings : list Value) (a : Actor)
  (r : Settings) :
  is_foreign (classify text bindings) = false ->
  tenant_record a = Some r ->
  initialized (snd (sql_exec now foreign text bindings a)) = initialized a /\
  exists r', tenant_record (snd (sql_exec now foreign text bindings a)) = Some r'.
Proof.
  intros Hown Hr.
  destruct (tenant_record_rows a r Hr) as (rows & Hrows & Hfind).
  unfold sql_exec, sqlite_exec.
  destruct (classify text bindings) as [| | | c | | u e t |];
    try discriminate Hown; rewrite Hrows; cbn [snd initialized].
  - split; [reflexivity | eauto].
  - rewrite find_existsb_singleton, Hfind. cbn [snd initialized].
    split; [reflexivity | eauto].
  - split; [reflexivity | eauto].
  - split; [reflexivity |].
    unfold tenant_record, records. cbn [sql organization_settings].
    rewrite find_update_singleton by reflexivity. rewrite Hfind. cbn. eauto.
  - split; [reflexivity | eauto].
  - split; [reflexivity |].
    unfold tenant_record, records. cbn [sql organization_settings].
    rewrite find_update_singleton by reflexivity. rewrite Hfind. cbn. eauto.
Qed.

Lemma actor_ready_intro (a : Actor) (r : Settings) :
  tenant_record a = Some r -> actor_ready a.
Proof. intros H _. eauto. Qed.

(** Every operation that carries an own statement keeps the invariant. *)
Lemma invoke_keeps_ready (op : Operation) (a : Actor) :
  own_statement op = true ->
  actor_ready a ->
  actor_ready (snd (invoke now foreign databaseSize op a)).
Proof.
  intros Hown Hready.
  destruct (actor_ready_initialised now a Hready) as (r & Hr).
  destruct op as [text params | text params | text params | | u e];
    cbn [own_statement invoke] in *.
  - apply negb_true_iff in Hown.
    destruct (sql_exec_own_record text (flatParams params) _ r Hown Hr) as (_ & r' & Hr').
    unfold void. rewrite query_run.
    destruct (sql_exec now foreign text (flatParams params) (initialised now a))
      as [[rows | err] a']; exact (actor_ready_intro _ r' Hr').
  - apply negb_true_iff in Hown.
    destruct (sql_exec_own_record text (flatParams params) _ r Hown Hr) as (_ & r' & Hr').
    unfold void. rewrite queryOne_run.
    destruct (sql_exec now foreign text (flatParams params) (initialised now a))
      as [[rows | err] a']; exact (actor_ready_intro _ r' Hr').
  - apply negb_true_iff in Hown.
    destruct (sql_exec_own_record text (flatParams params) _ r Hown Hr) as (_ & r' & Hr').
    rewrite exec_run. unfold void.
    destruct (sql_exec now foreign text (flatParams params) (initialised now a))
      as [[rows | err] a']; exact (actor_ready_intro _ r' Hr').
  - unfold void, getStorageStats, bind at 1. rewrite ensureInitialized_run.
    cbn. exact (actor_ready_intro _ r Hr).
  - rewrite setCreatorIfNotSet_run.
    destruct (tenant_record_rows _ r Hr) as (rows & Hrows & Hfind).
    rewrite Hrows.
    destruct (truthy (recorded_creator rows)); cbn [snd].
    + exact (actor_ready_intro _ r Hr).
    + apply (actor_ready_intro _ (set_creator (Some u) (or_else e None) (now / 1000) r)).
      unfold tenant_record, records, with_creator. cbn [sql organization_settings].
      rewrite find_update_singleton by reflexivity. rewrite Hfind. reflexivity.
Qed.

End Invariant.

(* ================================================================== *)
(** * Tenants are isolated; provisioning keeps the invariant *)
(* ================================================================== *)

(** A call on the stub of one tenant leaves the actor of every other
    tenant, and the calls sent to the provider, as they were. *)
Lemma rpc_isolated {A} (stub other : string) (m : Eff Actor A) (w : World) :
  stub <> other ->
  actor_of (snd (rpc stub m w)) other = actor_of w other /\
  stripe_calls (snd (rpc stub m w)) = stripe_calls w.
Proof.
  intros Hne. unfold rpc, actor_of.
  destruct (m (default fresh (namespace w !! stub))) as [r a'].
  cbn [snd namespace stripe_calls].
  rewrite lookup_insert_ne by exact Hne. split; reflexivity.
Qed.

(** A tenant that has never been addressed starts from the fresh actor. *)
Lemma actor_of_unknown (stub : string) (w : World) :
  namespace w !! stub = None -> actor_of w stub = fresh.
Proof. unfold actor_of. intros ->. reflexivity. Qed.

Section ProvisioningInvariant.

Variable now : Z.
Variable foreign : string -> list Value -> Db -> Completion (list SqlRow * Db).
Variable stripe : Stripe.
Variable clerk : Clerk.

Lemma getOrCreateStripeCustomer_keeps_ready (stub orgId userId : string)
  (key : option string) (w : World) :
  actor_ready (actor_of w stub) ->
  actor_ready
    (actor_of (snd (getOrCreateStripeCustomer now foreign stripe clerk stub
                      orgId userId key w)) stub).
Proof.
  intros Hready.
  destruct (actor_ready_initialised now _ Hready) as (r & Hr).
  destruct (tenant_record_rows _ r Hr) as (rows & Hrows & Hfind).
  destruct (truthy (stripe_customer_id r)) eqn:Ht.
  - destruct (truthy_inv _ Ht) as (c & Hc & Hcne & _).
    rewrite (getOrCreateStripeCustomer_existing foreign stripe clerk now stub
               orgId userId key w r c Hr Hc Hcne).
    cbn [snd]. rewrite actor_of_with_actor. exact (actor_ready_intro _ r Hr).
  - rewrite (getOrCreateStripeCustomer_absent foreign stripe clerk now stub
               orgId userId key w r rows Hrows Hfind Ht).
    destruct (customers_create_response stripe (stripe_calls w) _) as [c | e];
      cbn [snd]; unfold actor_of; cbn [namespace]; rewrite lookup_insert_eq;
      cbn [from_option Datatypes.id].
    + apply (actor_ready_intro _ (set_stripe_customer (Some c) r)).
      unfold tenant_record, records, with_customer. cbn [sql organization_settings].
      rewrite find_update_singleton by reflexivity. rewrite Hfind. reflexivity.
    + exact (actor_ready_intro _ r Hr).
Qed.

End ProvisioningInvariant.

(* ================================================================== *)
(** * The HTTP handler of the storage actor *)
(* ================================================================== *)

Lemma host_eta (h : Host) :
  mkHost (host_actor h) (stored_orgId h) (id_name h) (id_toString h) = h.
Proof. destruct h; reflexivity. Qed.

Section DoFetch.

Variable now : Z.
Variable foreign : string -> list Value -> Db -> Completion (list SqlRow * Db).
Variable databaseSize : Db -> Z.

Lemma on_actor_ensureInitialized (h : Host) :
  on_actor (ensureInitialized now foreign) h
  = (Return tt,
     mkHost (initialised now (host_actor h)) (stored_orgId h) (id_name h)
            (id_toString h)).
Proof. unfold on_actor. rewrite ensureInitialized_run. reflexivity. Qed.

Lemma getStorageStats_run (a : Actor) :
  exists stats,
    getStorageStats now foreign databaseSize a = (Return stats, initialised now a) /\
    storageBytesRaw stats = databaseSize (sql (initialised now a)).
Proof.
  unfold getStorageStats, bind at 1. rewrite ensureInitialized_run.
  eexists. split; reflexivity.
Qed.

(** The three outcomes of the ['/store-org-id'] branch. *)
Lemma store_org_id_run (req : DoRequest) (h : Host) :
  store_org_id req h
  = match body_orgId req with
    | Return v =>
        if truthy_value v
        then (Return (Some (mkDoResponse 200 StatusOk)),
              mkHost (host_actor h) (Some v) (id_name h) (id_toString h))
        else (Return None, h)
    | Throw _ => (Return None, h)
    end.
Proof.
  unfold store_org_id, try_catch.
  destruct (body_orgId req) as [v | e]; [| reflexivity].
  destruct (truthy_value v); reflexivity.
Qed.

Lemma fetch_answers (req : DoRequest) (h : Host) :
  exists response h',
    fetch now foreign databaseSize req h = (Return response, h') /\
    (do_status response = 200 \/ do_status response = 400 \/
     do_status response = 404) /\
    (do_status response <> 200 -> h' = h) /\
    id_name h' = id_name h /\ id_toString h' = id_toString h.
Proof.
  unfold fetch.
  destruct (String.eqb (pathname req) "/health").
  { unfold bind. rewrite on_actor_ensureInitialized.
    eexists. eexists. split; [reflexivity |].
    cbn. split; [left; reflexivity |]. split; [congruence | split; reflexivity]. }
  destruct (String.eqb (pathname req) "/storage-stats").
  { unfold bind, on_actor.
    destruct (getStorageStats_run (host_actor h)) as (stats & -> & _).
    eexists. eexists. split; [reflexivity |].
    cbn. split; [left; reflexivity |]. split; [congruence | split; reflexivity]. }
  destruct (String.eqb (pathname req) "/store-org-id" && String.eqb (method req) "POST")%bool.
  - unfold bind. rewrite store_org_id_run.
    destruct (body_orgId req) as [v | e].
    + destruct (truthy_value v).
      * eexists. eexists. split; [reflexivity |].
        cbn. split; [left; reflexivity |]. split; [congruence | split; reflexivity].
      * eexists. eexists. split; [reflexivity |].
        cbn. split; [right; left; reflexivity |]. repeat split.
    + eexists. eexists. split; [reflexivity |].
      cbn. split; [right; left; reflexivity |]. repeat split.
  - eexists. eexists. split; [reflexivity |].
    cbn. split; [right; right; reflexivity |]. repeat split.
Qed.

End DoFetch.

(** X1.  [fetch] of the storage actor answers every request: it never
    throws, its status is 200, 400 or 404, and a request it does not answer
    with 200 leaves the actor, its database and the stored organization id
    exactly as they were. *)
Theorem do_fetch_always_answers (now : Z)
  (foreign : string -> list Value -> Db -> Completion (list SqlRow * Db))
  (databaseSize : Db -> Z) (req : DoRequest) (h : Host) :
  exists response h',
    fetch now foreign databaseSize req h = (Return response, h') /\
    (do_status response = 200 \/ do_status response = 400 \/
     do_status response = 404) /\
    (do_status response <> 200 -> h' = h) /\
    id_name h' = id_name h /\ id_toString h' = id_toString h.
Proof. apply fetch_answers. Qed.

(** X2.  A POST to ['/store-org-id'] whose body carries a truthy [orgId]
    is answered 200, leaves the database alone, and [getOrgId] then returns
    exactly that id, replacing any id stored before. *)
Theorem store_org_id_round_trip (now : Z)
  (foreign : string -> list Value -> Db -> Completion (list SqlRow * Db))
  (databaseSize : Db -> Z) (req : DoRequest) (h : Host) (v : Value) :
  pathname req = "/store-org-id" ->
  method req = "POST" ->
  body_orgId req = Return v ->
  truthy_value v = true ->
  exists h',
    fetch now foreign databaseSize req h
    = (Return (mkDoResponse 200 StatusOk), h') /\
    host_actor h' = host_actor h /\
    getOrgId h' = (Return v, h').
Proof.
  intros Hp Hm Hb Ht. unfold fetch. rewrite Hp, Hm.
  change (String.eqb "/store-org-id" "/health") with false.
  change (String.eqb "/store-org-id" "/storage-stats") with false.
  change (String.eqb "/store-org-id" "/store-org-id" && String.eqb "POST" "POST")%bool
    with true.
  cbv iota. unfold bind. rewrite store_org_id_run, Hb, Ht.
  eexists. split; [reflexivity |]. split; [reflexivity |].
  unfold getOrgId, bind, gets. cbn [stored_orgId]. rewrite Ht. reflexivity.
Qed.

Lemma store_org_id_round_trip_witness :
  exists h',
    fetch 1700000000000 (rejecting "not reached") (fun _ => 4096)
          (mkDoRequest "/store-org-id" "POST" (Return (VStr "org_1")))
          (mkHost fresh (Some (VStr "org_0")) None "0f3a")
    = (Return (mkDoResponse 200 StatusOk), h') /\
    host_actor h' = fresh /\
    getOrgId h' = (Return (VStr "org_1"), h').
Proof.
  exact (store_org_id_round_trip 1700000000000 (rejecting "not reached")
           (fun _ => 4096)
           (mkDoRequest "/store-org-id" "POST" (Return (VStr "org_1")))
           (mkHost fresh (Some (VStr "org_0")) None "0f3a")
           (VStr "org_1") eq_refl eq_refl eq_refl eq_refl).
Defined.

(** X3.  ['/store-org-id'] refuses, with 400 and without storing anything,
    a POST whose body does not parse or whose [orgId] is missing, empty or
    otherwise falsy; with any other method the path is answered 404.  As
    long as nothing usable is stored, [getOrgId] falls back to the name of
    the actor's id and, without a name, to the id written out. *)
Theorem store_org_id_refusals (now : Z)
  (foreign : string -> list Value -> Db -> Completion (list SqlRow * Db))
  (databaseSize : Db -> Z) (req : DoRequest) (h : Host) :
  pathname req = "/store-org-id" ->
  (method req = "POST" ->
   (forall e, body_orgId req = Throw e ->
      fetch now foreign databaseSize req h
      = (Return (mkDoResponse 400 InvalidRequest), h)) /\
   (forall v, body_orgId req = Return v -> truthy_value v = false ->
      fetch now foreign databaseSize req h
      = (Return (mkDoResponse 400 InvalidRequest), h))) /\
  (method req <> "POST" ->
   fetch now foreign databaseSize req h
   = (Return (mkDoResponse 404 NotFound), h)) /\
  (stored_orgId h = None ->
   getOrgId h = (Return (VStr (or_default (id_name h) (id_toString h))), h)).
Proof.
  intros Hp. unfold fetch. rewrite Hp.
  change (String.eqb "/store-org-id" "/health") with false.
  change (String.eqb "/store-org-id" "/storage-stats") with false.
  change (String.eqb "/store-org-id" "/store-org-id") with true.
  cbv iota. cbn [andb]. split; [| split].
  - intros Hm. rewrite Hm. change (String.eqb "POST" "POST") with true. cbv iota.
    unfold bind. rewrite store_org_id_run. split.
    + intros e ->. reflexivity.
    + intros v -> ->. reflexivity.
  - intros Hm. apply String.eqb_neq in Hm. rewrite Hm. reflexivity.
  - intros Hs. unfold getOrgId, bind, gets. rewrite Hs. reflexivity.
Qed.

Lemma store_org_id_refusals_witness :
  let empty := mkDoRequest "/store-org-id" "POST" (Return (VStr "")) in
  let get := mkDoRequest "/store-org-id" "GET" (Return (VStr "org_1")) in
  fetch 1700000000000 (rejecting "not reached") (fun _ => 4096) empty host_org_1
  = (Return (mkDoResponse 400 InvalidRequest), host_org_1) /\
  fetch 1700000000000 (rejecting "not reached") (fun _ => 4096) get host_org_1
  = (Return (mkDoResponse 404 NotFound), host_org_1) /\
  getOrgId host_org_1 = (Return (VStr "org_1"), host_org_1).
Proof.
  cbv zeta. split; [| split].
  - exact (proj2 (proj1 (store_org_id_refusals 1700000000000 (rejecting "not reached")
                           (fun _ => 4096)
                           (mkDoRequest "/store-org-id" "POST" (Return (VStr "")))
                           host_org_1 eq_refl) eq_refl)
             (VStr "") eq_refl eq_refl).
  - refine (proj1 (proj2 (store_org_id_refusals 1700000000000 (rejecting "not reached")
                            (fun _ => 4096)
                            (mkDoRequest "/store-org-id" "GET" (Return (VStr "org_1")))
                            host_org_1 eq_refl)) _).
    discriminate.
  - exact (proj2 (proj2 (store_org_id_refusals 1700000000000 (rejecting "not reached")
                           (fun _ => 4096)
                           (mkDoRequest "/store-org-id" "GET" (Return (VStr "org_1")))
                           host_org_1 eq_refl)) eq_refl).
Defined.

(** X4.  ['/health'] and ['/storage-stats'] initialise the store on the
    way: either request, sent to an actor that has never been initialised,
    is answered 200 and leaves exactly one settings row; the statistics
    report the size of the database as it is after that initialisation;
    and a second ['/health'] changes nothing. *)
Theorem health_initialises (now later : Z)
  (foreign : string -> list Value -> Db -> Completion (list SqlRow * Db))
  (databaseSize : Db -> Z) (req : DoRequest) (h : Host) :
  host_actor h = fresh ->
  (pathname req = "/health" ->
   exists h',
     fetch now foreign databaseSize req h = (Return (mkDoResponse 200 StatusOk), h') /\
     one_record (host_actor h') /\
     fetch later foreign databaseSize req h' = (Return (mkDoResponse 200 StatusOk), h')) /\
  (pathname req = "/storage-stats" ->
   exists stats h',
     fetch now foreign databaseSize req h
     = (Return (mkDoResponse 200 (Stats stats)), h') /\
     one_record (host_actor h') /\
     storageBytesRaw stats = databaseSize (sql (host_actor h'))).
Proof.
  intros Hfresh. split.
  - intros Hp. unfold fetch. rewrite Hp.
    change (String.eqb "/health" "/health") with true. cbv iota.
    unfold bind. rewrite !on_actor_ensureInitialized, Hfresh.
    eexists. split; [reflexivity |]. cbn [host_actor].
    split; [apply one_record_initialised_fresh |].
    rewrite on_actor_ensureInitialized. cbn [host_actor stored_orgId id_name id_toString].
    rewrite (initialised_set later _ (initialised_flag now fresh)). reflexivity.
  - intros Hp. unfold fetch. rewrite Hp.
    change (String.eqb "/storage-stats" "/health") with false.
    change (String.eqb "/storage-stats" "/storage-stats") with true. cbv iota.
    unfold bind, on_actor. rewrite Hfresh.
    destruct (getStorageStats_run now foreign databaseSize fresh) as (stats & -> & Hs).
    eexists. eexists. split; [reflexivity |]. cbn [host_actor].
    split; [apply one_record_initialised_fresh | exact Hs].
Qed.

Lemma health_initialises_witness :
  exists h',
    fetch 1700000000000 (rejecting "not reached") (fun _ => 4096)
          (mkDoRequest "/health" "GET" (Throw (TypeError "no body"))) host_org_1
    = (Return (mkDoResponse 200 StatusOk), h') /\
    one_record (host_actor h') /\
    fetch 1700000060000 (rejecting "not reached") (fun _ => 4096)
          (mkDoRequest "/health" "GET" (Throw (TypeError "no body"))) h'
    = (Return (mkDoResponse 200 StatusOk), h').
Proof.
  exact (proj1 (health_initialises 1700000000000 1700000060000
                  (rejecting "not reached") (fun _ => 4096)
                  (mkDoRequest "/health" "GET" (Throw (TypeError "no body")))
                  host_org_1 eq_refl) eq_refl).
Defined.

(* ================================================================== *)
(** * More on the authentication middleware *)
(* ================================================================== *)

Lemma or_else_null_normalised (o : option string) : or_else o None <> Some "".
Proof.
  unfold or_else. destruct o as [s |]; cbn; [| discriminate].
  unfold truthy_string. destruct (String.eqb s "") eqn:E; cbn; [discriminate |].
  apply String.eqb_neq in E. congruence.
Qed.

(** X5.  With a bearer header but no issuer URL configured (absent or
    empty), [clerkAuth] answers 500 "Server configuration error" whatever
    the token is: the verification primitives are not consulted, and the
    request never reaches [next()]. *)
Theorem external_stage_misconfigured (jws1 jws2 : Jws)
  (url1 url2 : string -> Completion string) (env : Env) (req : Request)
  (h : string) :
  Authorization req = Some h ->
  String.prefix "Bearer " h = true ->
  truthy (CLERK_ISSUER_URL env) = false ->
  clerkAuth jws1 url1 env req
  = Responds (mkErrorResponse "Server configuration error" None 500) /\
  clerkAuth jws2 url2 env req = clerkAuth jws1 url1 env req.
Proof.
  intros Hh Hp Ht.
  rewrite !(clerkAuth_bearer _ _ _ _ h Hh Hp). unfold clerkVerify.
  rewrite Ht. split; reflexivity.
Qed.

Lemma external_stage_misconfigured_witness :
  let env := mkEnv (Some "sk_clerk") (Some "sk_stripe") None None (Some "") in
  clerkAuth jws_toy url_ok env
    (mkRequest "/api/billing/usage" (Some "Bearer clerk.jwt") None)
  = Responds (mkErrorResponse "Server configuration error" None 500).
Proof.
  exact (proj1 (external_stage_misconfigured jws_toy jws_toy url_ok url_ok
                  (mkEnv (Some "sk_clerk") (Some "sk_stripe") None None (Some ""))
                  (mkRequest "/api/billing/usage" (Some "Bearer clerk.jwt") None)
                  "Bearer clerk.jwt" eq_refl eq_refl eq_refl)).
Defined.

(** X6.  Whatever either middleware answers by itself is a 401, or, for
    [clerkAuth] only, a 500; the answer never carries a [details] field. *)
Theorem middleware_answers (jws : Jws) (new_URL : string -> Completion string)
  (now : Z) (env : Env) (req : Request) (r : ErrorResponse) :
  (clerkAuth jws new_URL env req = Responds r ->
   (status r = 401 \/ status r = 500) /\ details r = None) /\
  (internalAuth jws now env req = Responds r ->
   status r = 401 /\ details r = None).
Proof.
  split.
  - unfold clerkAuth.
    destruct (Authorization req) as [h |];
      [| intros H; injection H as <-; split; [left |]; reflexivity].
    destruct (String.prefix "Bearer " h);
      [| intros H; injection H as <-; split; [left |]; reflexivity].
    unfold clerkVerify.
    destruct (negb (truthy (CLERK_ISSUER_URL env)));
      [intros H; injection H as <-; split; [right |]; reflexivity |].
    destruct (new_URL _) as [JWKS | e];
      [| intros H; injection H as <-; split; [left |]; reflexivity].
    destruct (remoteVerify jws _ JWKS _) as [p | e];
      [discriminate | intros H; injection H as <-; split; [left |]; reflexivity].
  - unfold internalAuth.
    destruct (negb (truthy (X_Internal_Token req)));
      [intros H; injection H as <-; split; reflexivity |].
    destruct (jwtVerify now jws _ _) as [p | e];
      [discriminate | intros H; injection H as <-; split; reflexivity].
Qed.

Lemma middleware_answers_witness :
  status (mkErrorResponse "Unauthorized: Invalid token" None 401) = 401 \/
  status (mkErrorResponse "Unauthorized: Invalid token" None 401) = 500.
Proof.
  exact (proj1 (proj1 (middleware_answers jws_toy url_ok 1700001800000 env_dev
                         (mkRequest "/api/billing/usage" (Some "Bearer forged.jwt") None)
                         (mkErrorResponse "Unauthorized: Invalid token" None 401))
                  eq_refl)).
Defined.

(** X7.  The variables [clerkAuth] hands on are the claims the remote
    verification returned for the bearer token of the request, normalised:
    the user id is the subject of those claims, and the organization id and
    role are those of the claims when they are non-empty and [null]
    otherwise, so neither is ever the empty string. *)
Theorem external_stage_normalises (jws : Jws)
  (new_URL : string -> Completion string) (env : Env) (req : Request)
  (vars : Variables) :
  clerkAuth jws new_URL env req = Next vars ->
  orgId vars <> Some "" /\ orgRole vars <> Some "" /\
  exists h issuer JWKS payload,
    Authorization req = Some h /\
    CLERK_ISSUER_URL env = Some issuer /\
    new_URL (String.append issuer "/.well-known/jwks.json") = Return JWKS /\
    remoteVerify jws (slice7 h) JWKS issuer = Return payload /\
    userId vars = sub payload /\
    (truthy (org_id payload) = true -> orgId vars = org_id payload) /\
    (truthy (org_id payload) = false -> orgId vars = None) /\
    (truthy (org_role payload) = true -> orgRole vars = org_role payload) /\
    (truthy (org_role payload) = false -> orgRole vars = None).
Proof.
  intros H.
  destruct (clerkAuth_next jws new_URL env req vars H)
    as (h & issuer & JWKS & payload & Hh & _ & Hi & Hu & Hv & ->).
  unfold identity_of. cbn [orgId orgRole userId].
  split; [apply or_else_null_normalised |].
  split; [apply or_else_null_normalised |].
  exists h, issuer, JWKS, payload.
  split; [exact Hh |]. split; [exact Hi |]. split; [exact Hu |].
  split; [exact Hv |]. split; [reflexivity |]. unfold or_else.
  split; [intros ->; reflexivity |]. split; [intros ->; reflexivity |].
  split; intros ->; reflexivity.
Qed.

(** Witness: a bearer token the toy verification accepts; the variables are
    those of the claims it returns. *)
Lemma external_stage_normalises_witness :
  let req := mkRequest "/api/billing/usage" (Some "Bearer clerk.jwt") None in
  let vars := mkVariables (Some "user_1") (Some "org_1") (Some "org:admin") in
  clerkAuth jws_toy url_ok env_dev req = Next vars /\
  orgId vars <> Some "" /\ orgRole vars <> Some "" /\
  exists h issuer JWKS payload,
    Authorization req = Some h /\
    CLERK_ISSUER_URL env_dev = Some issuer /\
    url_ok (String.append issuer "/.well-known/jwks.json") = Return JWKS /\
    remoteVerify jws_toy (slice7 h) JWKS issuer = Return payload /\
    userId vars = sub payload /\
    (truthy (org_id payload) = true -> orgId vars = org_id payload) /\
    (truthy (org_id payload) = false -> orgId vars = None) /\
    (truthy (org_role payload) = true -> orgRole vars = org_role payload) /\
    (truthy (org_role payload) = false -> orgRole vars = None).
Proof.
  cbv zeta. split; [reflexivity |].
  exact (external_stage_normalises jws_toy url_ok env_dev
           (mkRequest "/api/billing/usage" (Some "Bearer clerk.jwt") None)
           (mkVariables (Some "user_1") (Some "org_1") (Some "org:admin"))
           eq_refl).
Defined.

Lemma validateClaims_inv (now : Z) (p q : JWTPayload) :
  validateClaims now p = Return q ->
  q = p /\
  (forall e, exp p = Some e -> now / 1000 < e) /\
  (forall n, nbf p = Some n -> n <= now / 1000).
Proof.
  unfold validateClaims, epoch.
  destruct (nbf p) as [n |].
  - destruct (now / 1000 <? n) eqn:Hn; [discriminate |].
    apply Z.ltb_ge in Hn.
    destruct (exp p) as [e |].
    + destruct (e <=? now / 1000) eqn:He; [discriminate |].
      apply Z.leb_gt in He. intros H. injection H as <-.
      split; [reflexivity |]. split; intros x Hx; injection Hx as <-; assumption.
    + intros H. injection H as <-.
      split; [reflexivity |]. split; intros x Hx; [discriminate | injection Hx as <-; assumption].
  - destruct (exp p) as [e |].
    + destruct (e <=? now / 1000) eqn:He; [discriminate |].
      apply Z.leb_gt in He. intros H. injection H as <-.
      split; [reflexivity |]. split; intros x Hx; [injection Hx as <-; assumption | discriminate].
    + intros H. injection H as <-.
      split; [reflexivity |]. split; intros x Hx; discriminate.
Qed.

(** X8.  [internalAuth] lets a request through only if it carries a
    non-empty internal token whose signature verifies under the shared
    secret and whose claims are valid now (not expired, not used before
    [nbf]); the variables are then the token's user and organization, and
    the role is always absent. *)
Theorem internal_stage_admits (jws : Jws) (now : Z) (env : Env) (req : Request)
  (vars : Variables) :
  internalAuth jws now env req = Next vars ->
  exists token p,
    X_Internal_Token req = Some token /\ token <> "" /\
    compactVerify jws token (shared_secret env) = Return p /\
    (forall e, exp p = Some e -> now / 1000 < e) /\
    (forall n, nbf p = Some n -> n <= now / 1000) /\
    vars = mkVariables (payload_userId p) (payload_orgId p) None.
Proof.
  unfold internalAuth.
  destruct (truthy (X_Internal_Token req)) eqn:Ht; cbn [negb]; [| discriminate].
  destruct (truthy_inv _ Ht) as (token & Hh & Hne & Hd). rewrite Hd.
  change (or_default (INTERNAL_SECRET env) "development-secret-key")
    with (shared_secret env).
  unfold jwtVerify.
  destruct (compactVerify jws token (shared_secret env)) as [p | e] eqn:Hv;
    [| discriminate].
  destruct (validateClaims now p) as [q | e] eqn:Hc; [| discriminate].
  destruct (validateClaims_inv now p q Hc) as (-> & Hexp & Hnbf).
  intros H. injection H as <-.
  exists token, p. repeat split; assumption.
Qed.

Lemma internal_stage_admits_witness :
  exists token p,
    X_Internal_Token (mkRequest "/internal" None (Some "internal.jwt")) = Some token /\
    token <> "" /\
    compactVerify jws_toy token (shared_secret env_dev) = Return p /\
    (forall e, exp p = Some e -> 1700001800000 / 1000 < e) /\
    (forall n, nbf p = Some n -> n <= 1700001800000 / 1000) /\
    mkVariables (Some "user_1") (Some "org_1") None
    = mkVariables (payload_userId p) (payload_orgId p) None.
Proof.
  exact (internal_stage_admits jws_toy 1700001800000 env_dev
           (mkRequest "/internal" None (Some "internal.jwt"))
           (mkVariables (Some "user_1") (Some "org_1") None) eq_refl).
Defined.

(** X9.  A token minted by [generateInternalToken] for an organization and
    a user is accepted by [internalAuth], on any actor that shares the
    secret, at every moment before the hour is over, and the request then
    carries that user, that organization and no role.  (The hypothesis on
    [compactVerify] is that the signature of the minted claims verifies.) *)
Theorem internal_token_round_trip (jws : Jws) (minting verifying : Env)
  (now later : Z) (organization user token : string) (req : Request) :
  generateInternalToken now jws minting organization user = Return token ->
  shared_secret verifying = shared_secret minting ->
  compactVerify jws token (shared_secret minting)
  = Return (minted_claims now organization user) ->
  X_Internal_Token req = Some token ->
  token <> "" ->
  later / 1000 < now / 1000 + 3600 ->
  internalAuth jws later verifying req
  = Next (mkVariables (Some user) (Some organization) None).
Proof.
  intros _ Hsecret Hv Hh Hne Hlt. unfold internalAuth.
  destruct (or_default_truthy _ token "" Hh Hne) as [Hd Ht].
  rewrite Ht, Hd. cbn [negb].
  change (or_default (INTERNAL_SECRET verifying) "development-secret-key")
    with (shared_secret verifying).
  unfold jwtVerify. rewrite Hsecret, Hv.
  unfold validateClaims, minted_claims, epoch. cbn [nbf exp].
  assert (Hb : (now / 1000 + 3600 <=? later / 1000) = false)
    by (apply Z.leb_gt; exact Hlt).
  rewrite Hb. reflexivity.
Qed.

Lemma internal_token_round_trip_witness :
  internalAuth jws_toy 1700003599999 env_dev
    (mkRequest "/internal" None (Some "internal.jwt"))
  = Next (mkVariables (Some "user_1") (Some "org_1") None).
Proof.
  assert (Hne : "internal.jwt" <> "") by discriminate.
  refine (internal_token_round_trip jws_toy env_dev env_dev
            1700000000000 1700003599999 "org_1" "user_1" "internal.jwt"
            (mkRequest "/internal" None (Some "internal.jwt"))
            eq_refl eq_refl eq_refl eq_refl Hne _).
  vm_compute. reflexivity.
Defined.

(* ================================================================== *)
(** * The CORS origin callback *)
(* ================================================================== *)

(** X10.  The [origin] callback handed to [cors] returns the origin of the
    request unchanged for every origin: the localhost, [.workers.dev] and
    [.pages.dev] tests select nothing, and no origin is refused. *)
Theorem cors_echoes_every_origin (origin : string) :
  cors_origin origin = origin.
Proof.
  unfold cors_origin.
  destruct (includes "localhost" origin); [reflexivity |].
  destruct (endsWith ".workers.dev" origin); [reflexivity |].
  destruct (endsWith ".pages.dev" origin); reflexivity.
Qed.

(* ================================================================== *)
(** * The billing routes: what they answer and what they leave alone *)
(* ================================================================== *)

Lemma undisturbed_refl (w : World) : undisturbed w w.
Proof. split; [reflexivity | auto]. Qed.

Lemma undisturbed_trans (w1 w2 w3 : World) :
  undisturbed w1 w2 -> undisturbed w2 w3 -> undisturbed w1 w3.
Proof.
  intros [Hc1 Hr1] [Hc2 Hr2]. split; [congruence | auto].
Qed.

Lemma read_only_ret {A} (x : A) : read_only (@ret World A x).
Proof. intros w. apply undisturbed_refl. Qed.

Lemma read_only_bind {A B} (m : Eff World A) (k : A -> Eff World B) :
  read_only m -> (forall x, read_only (k x)) -> read_only (bind m k).
Proof.
  intros Hm Hk w. unfold bind. specialize (Hm w).
  destruct (m w) as [[x | e] w1]; cbn [snd] in *; [| exact Hm].
  exact (undisturbed_trans _ _ _ Hm (Hk x w1)).
Qed.

Lemma read_only_try_catch {A} (body : Eff World A) (handler : Error -> Eff World A) :
  read_only body -> (forall e, read_only (handler e)) ->
  read_only (try_catch body handler).
Proof.
  intros Hb Hh w. unfold try_catch. specialize (Hb w).
  destruct (body w) as [[x | e] w1]; cbn [snd] in *; [exact Hb |].
  exact (undisturbed_trans _ _ _ Hb (Hh e w1)).
Qed.

Lemma creations_list (log : list Call) (c s : string) (n : Z) :
  creations (log ++ [SubscriptionsList c s n]) = creations log.
Proof.
  unfold creations. rewrite List.filter_app, List.length_app. cbn. lia.
Qed.

Lemma read_only_on_stripe_list {A} (stripe : Stripe) (customer : string)
  (k : SubscriptionList -> Eff (list Call) A) :
  (forall l log, snd (k l log) = log) ->
  read_only (on_stripe (bind (subscriptions_list stripe customer) k)).
Proof.
  intros Hk w. unfold on_stripe, bind, subscriptions_list.
  destruct (subscriptions_list_response stripe (stripe_calls w) customer) as [l | e].
  - specialize (Hk l (stripe_calls w ++ [SubscriptionsList customer "active" 1])).
    destruct (k l _) as [r log']. cbn [snd] in *. subst log'.
    split; [cbn [stripe_calls]; apply creations_list | auto].
  - split; [cbn [snd stripe_calls]; apply creations_list | auto].
Qed.

Lemma read_only_plan (stripe : Stripe) (customer : string) :
  read_only (on_stripe (getSubscriptionPlanType stripe customer)).
Proof.
  intros w. unfold on_stripe.
  pose proof (getSubscriptionPlanType_log stripe customer (stripe_calls w)) as Hlog.
  destruct (getSubscriptionPlanType stripe customer (stripe_calls w)) as [r log'].
  cbn [snd] in *. subst log'.
  split; [cbn [stripe_calls]; apply creations_list | auto].
Qed.

Lemma tenant_record_with_initialised (now : Z) (stub : string) (w : World) :
  forall other r,
    tenant_record (actor_of w other) = Some r ->
    tenant_record (actor_of (with_actor stub (initialised now (actor_of w stub)) w) other)
    = Some r.
Proof.
  intros other r Hr.
  destruct (decide (stub = other)) as [-> | Hne].
  - rewrite actor_of_with_actor, (initialised_with_record now _ r Hr). exact Hr.
  - unfold actor_of, with_actor. cbn [namespace].
    rewrite lookup_insert_ne by exact Hne. exact Hr.
Qed.

Section ReadRoutes.

Variable now : Z.
Variable foreign : string -> list Value -> Db -> Completion (list SqlRow * Db).
Variable stripe : Stripe.
Variable sessions : StripeSessions.

Lemma read_only_select (stub : string) :
  read_only (rpc stub (query now foreign SELECT_STRIPE_CUSTOMER_SQL [])).
Proof.
  intros w. rewrite rpc_select_customer. cbn [snd].
  split; [reflexivity | apply tenant_record_with_initialised].
Qed.

Lemma read_only_usage (env : Env) (vars : Variables) :
  read_only (usage_handler now foreign stripe env vars).
Proof.
  unfold usage_handler.
  destruct (negb _); [apply read_only_ret |].
  destruct (negb _); [apply read_only_ret |].
  apply read_only_try_catch; [| intros e; apply read_only_ret].
  apply read_only_bind; [apply read_only_select |]. intros rows.
  apply read_only_bind; [| intros p; apply read_only_ret].
  destruct (existing_customer rows); [apply read_only_plan | apply read_only_ret].
Qed.

Lemma read_only_subscription (env : Env) (vars : Variables) :
  read_only (subscription_handler now foreign stripe env vars).
Proof.
  unfold subscription_handler.
  destruct (negb _); [apply read_only_ret |].
  destruct (negb _); [apply read_only_ret |].
  apply read_only_try_catch; [| intros e; apply read_only_ret].
  apply read_only_bind; [apply read_only_select |]. intros rows.
  destruct (existing_customer rows) as [c |]; [| apply read_only_ret].
  apply read_only_bind; [apply read_only_plan |]. intros p.
  apply read_only_bind; [| intros x; apply read_only_ret].
  destruct (planType_is_FREE p); [apply read_only_ret |].
  apply read_only_on_stripe_list. intros l log.
  unfold first_subscription. destruct (data l); reflexivity.
Qed.

Lemma read_only_portal (env : Env) (vars : Variables) :
  read_only (portal_handler now foreign sessions env vars).
Proof.
  unfold portal_handler.
  destruct (negb _); [apply read_only_ret |].
  destruct (_ && _)%bool; [apply read_only_ret |].
  destruct (negb _); [apply read_only_ret |].
  apply read_only_try_catch; [| intros e; apply read_only_ret].
  apply read_only_bind; [apply read_only_select |]. intros rows.
  destruct (existing_customer rows) as [c |]; [| apply read_only_ret].
  apply read_only_bind; [| intros x; apply read_only_ret].
  intros w. cbn [snd]. apply undisturbed_refl.
Qed.

End ReadRoutes.

(** X11.  [GET /usage], [GET /subscription] and [POST /portal] are
    read-only towards the tenants and the provider's customers: whatever
    they answer, they have sent no customer creation to the provider and
    every tenant record that existed is unchanged, column for column. *)
Theorem read_routes_leave_records (now : Z)
  (foreign : string -> list Value -> Db -> Completion (list SqlRow * Db))
  (stripe : Stripe) (sessions : StripeSessions) (env : Env) (vars : Variables)
  (w : World) :
  undisturbed w (snd (usage_handler now foreign stripe env vars w)) /\
  undisturbed w (snd (subscription_handler now foreign stripe env vars w)) /\
  undisturbed w (snd (portal_handler now foreign sessions env vars w)) /\
  stripe_calls (snd (portal_handler now foreign sessions env vars w)) = stripe_calls w.
Proof.
  split; [apply read_only_usage |].
  split; [apply read_only_subscription |].
  split; [apply read_only_portal |].
  unfold portal_handler.
  destruct (negb _); [reflexivity |].
  destruct (_ && _)%bool; [reflexivity |].
  destruct (negb _); [reflexivity |].
  unfold try_catch, bind at 1. rewrite rpc_select_customer.
  destruct (organization_settings _) as [rows |]; [| reflexivity].
  destruct (existing_customer _) as [c |]; [| reflexivity].
  unfold bind. destruct (portal_session_response _ _ _ _); reflexivity.
Qed.

Lemma try_catch_answers {A} (body : Eff World A) (f : Error -> A) (w : World) :
  exists x, fst (try_catch body (fun e => ret (f e)) w) = Return x.
Proof.
  unfold try_catch. destruct (body w) as [[x | e] w1]; cbn; eauto.
Qed.

(** X12.  None of the four billing routes ever throws: a storage fault or
    a provider error inside a route is caught and becomes an answer of the
    route. *)
Theorem billing_routes_always_answer (now : Z)
  (foreign : string -> list Value -> Db -> Completion (list SqlRow * Db))
  (stripe : Stripe) (sessions : StripeSessions) (clerk : Clerk) (env : Env)
  (vars : Variables) (user : string) (w : World) :
  (exists r, fst (usage_handler now foreign stripe env vars w) = Return r) /\
  (exists r, fst (subscription_handler now foreign stripe env vars w) = Return r) /\
  (exists r, fst (portal_handler now foreign sessions env vars w) = Return r) /\
  (exists r, fst (customer_session_handler now foreign stripe sessions clerk env
                    user (orgId vars) w) = Return r).
Proof.
  split; [apply usage_handler_total |]. split; [| split].
  - unfold subscription_handler.
    destruct (negb _); [cbn; eauto |]. destruct (negb _); [cbn; eauto |].
    apply try_catch_answers.
  - unfold portal_handler.
    destruct (negb _); [cbn; eauto |]. destruct (_ && _)%bool; [cbn; eauto |].
    destruct (negb _); [cbn; eauto |].
    apply try_catch_answers.
  - unfold customer_session_handler.
    destruct (negb _); [cbn; eauto |]. destruct (negb _); [cbn; eauto |].
    apply try_catch_answers.
Qed.

(** X13.  A request without tenant identity (neither an organization nor a
    user id) is answered 401 by every billing route, and a request to a
    worker without Stripe key is answered with an error by every route; in
    both cases the route returns before it touches a storage actor or the
    provider, so the world is exactly as it was. *)
Theorem billing_routes_gate (now : Z)
  (foreign : string -> list Value -> Db -> Completion (list SqlRow * Db))
  (stripe : Stripe) (sessions : StripeSessions) (clerk : Clerk) (env : Env)
  (vars : Variables) (user : string) (organization : option string) (w : World) :
  (truthy (or_else (orgId vars) (userId vars)) = false ->
   usage_handler now foreign stripe env vars w
   = (Return (Failure (mkErrorResponse "Authentication required" None 401)), w) /\
   subscription_handler now foreign stripe env vars w
   = (Return (Failure (mkErrorResponse "Authentication required" None 401)), w) /\
   portal_handler now foreign sessions env vars w
   = (Return (Failure (mkErrorResponse "Authentication required" None 401)), w)) /\
  (truthy_string (or_default organization user) = false ->
   customer_session_handler now foreign stripe sessions clerk env user organization w
   = (Return (Failure (mkErrorResponse "Authentication required" None 401)), w)) /\
  (truthy (STRIPE_SECRET_KEY env) = false ->
   refuses [401; 500] (usage_handler now foreign stripe env vars) w /\
   refuses [401; 500] (subscription_handler now foreign stripe env vars) w /\
   refuses [401; 403; 500] (portal_handler now foreign sessions env vars) w /\
   refuses [401; 500]
           (customer_session_handler now foreign stripe sessions clerk env
                                     user organization) w).
Proof.
  split; [| split].
  - intros Ht. unfold usage_handler, subscription_handler, portal_handler.
    rewrite Ht. repeat split.
  - intros Ht. unfold customer_session_handler. rewrite Ht. reflexivity.
  - intros Hk.
    unfold refuses, usage_handler, subscription_handler, portal_handler,
      customer_session_handler.
    rewrite Hk. cbn [negb].
    repeat split;
      repeat match goal with
             | |- context [if ?c then _ else _] => destruct c
             end;
      (eexists; split; [reflexivity | cbn; tauto]).
Qed.

Lemma billing_routes_gate_witness :
  let no_key := mkEnv (Some "sk_clerk") None None None None in
  usage_handler 1700000000000 (rejecting "not reached") stripe_cus_abc env_dev
                unset untouched
  = (Return (Failure (mkErrorResponse "Authentication required" None 401)), untouched) /\
  customer_session_handler 1700000000000 (rejecting "not reached") stripe_cus_abc
    sessions_up clerk_down env_dev "" None untouched
  = (Return (Failure (mkErrorResponse "Authentication required" None 401)), untouched) /\
  refuses [401; 500]
    (subscription_handler 1700000000000 (rejecting "not reached") stripe_cus_abc
       no_key (mkVariables (Some "user_1") None None)) untouched.
Proof.
  cbv zeta. split; [| split].
  - exact (proj1 (proj1 (billing_routes_gate 1700000000000 (rejecting "not reached")
                           stripe_cus_abc sessions_up clerk_down env_dev unset
                           "" None untouched) eq_refl)).
  - exact (proj1 (proj2 (billing_routes_gate 1700000000000 (rejecting "not reached")
                           stripe_cus_abc sessions_up clerk_down env_dev unset
                           "" None untouched)) eq_refl).
  - exact (proj1 (proj2 (proj2 (proj2 (billing_routes_gate 1700000000000
                     (rejecting "not reached") stripe_cus_abc sessions_up clerk_down
                     (mkEnv (Some "sk_clerk") None None None None)
                     (mkVariables (Some "user_1") None None) "" None untouched))
                     eq_refl))).
Defined.

Lemma existing_customer_nonempty (rows : list SqlRow) (c : string) :
  existing_customer rows = Some c -> c <> "".
Proof.
  unfold existing_customer. destruct rows as [| row rest]; [discriminate |].
  destruct (truthy _) eqn:Ht; [| discriminate].
  intros H. rewrite H in Ht. destruct (truthy_inv _ Ht) as (s & Hs & Hne & _).
  congruence.
Qed.

Lemma select_customer_of (a : Actor) (rows : list Settings) :
  organization_settings (sql a) = Some rows ->
  existing_customer (select_singleton "stripe_customer_id" stripe_customer_id rows)
  = customer_of a.
Proof.
  intros H. rewrite existing_customer_select.
  unfold customer_of, tenant_record, records. rewrite H. reflexivity.
Qed.

Lemma actor_ready_table (now : Z) (a : Actor) :
  actor_ready a ->
  exists rows, organization_settings (sql (initialised now a)) = Some rows.
Proof.
  intros H. destruct (actor_ready_initialised now a H) as (r & Hr).
  destruct (tenant_record_rows _ r Hr) as (rows & Hrows & _). eauto.
Qed.

Lemma admitted_inv (env : Env) (vars : Variables) :
  admitted env vars = true ->
  truthy (or_else (orgId vars) (userId vars)) = true /\
  truthy (STRIPE_SECRET_KEY env) = true.
Proof. unfold admitted. intros H. apply andb_true_iff in H. exact H. Qed.

Section Portal.

Variable now : Z.
Variable foreign : string -> list Value -> Db -> Completion (list SqlRow * Db).
Variable sessions : StripeSessions.

Lemma portal_handler_forbidden (env : Env) (vars : Variables) (w : World) :
  truthy (or_else (orgId vars) (userId vars)) = true ->
  differs (or_else (orgId vars) (userId vars)) (userId vars) = true ->
  not_admin (orgRole vars) = true ->
  portal_handler now foreign sessions env vars w
  = (Return (Failure (mkErrorResponse "Forbidden: Admin permission required" None 403)),
     w).
Proof.
  intros Ht Hd Hn. unfold portal_handler. rewrite Ht, Hd, Hn. reflexivity.
Qed.

Lemma portal_handler_allowed (env : Env) (vars : Variables) (w : World) :
  admitted env vars = true ->
  (differs (or_else (orgId vars) (userId vars)) (userId vars)
   && not_admin (orgRole vars))%bool = false ->
  actor_ready (actor_of w (tenant_of vars)) ->
  portal_handler now foreign sessions env vars w
  = (match customer_of (initialised now (actor_of w (tenant_of vars))) with
     | None =>
         Return (Failure (mkErrorResponse
                            "No billing account found. Please subscribe first."
                            None 404))
     | Some customer =>
         match portal_session_response sessions (stripe_calls w) customer
                 (String.append (or_default (APP_URL env) "http://localhost:5173")
                                "/dashboard/settings/billing") with
         | Return u => Return (Json (mkPortalAnswer u))
         | Throw e =>
             Return (Failure (mkErrorResponse "Failed to create portal session"
                                (Some (details_of e)) 500))
         end
     end,
     with_actor (tenant_of vars) (initialised now (actor_of w (tenant_of vars))) w).
Proof.
  intros Ha Hallowed Hready.
  destruct (admitted_inv env vars Ha) as [Ht Hk].
  unfold portal_handler. rewrite Ht, Hallowed, Hk. cbn [negb].
  fold (tenant_of vars).
  unfold try_catch, bind at 1. rewrite rpc_select_customer.
  destruct (actor_ready_table now _ Hready) as (rows & Hrows).
  rewrite Hrows, (select_customer_of _ rows Hrows).
  destruct (customer_of _) as [c |]; [| reflexivity].
  unfold bind, with_actor. cbn [stripe_calls].
  destruct (portal_session_response sessions (stripe_calls w) c _); reflexivity.
Qed.

End Portal.

(** X14.  [POST /portal] is for administrators.  A caller with an
    identity who is a member of an organization (the tenant is not the
    user's own) and whose role is not [org:admin] is answered 403 before
    the provider key is looked at and before any storage actor or the
    provider is touched, so with or without a configured key.  Anyone else
    with an identity is answered 500 when the key is missing; and with the
    key, on a tenant whose seed row is in place, 404 exactly when the
    tenant record carries no customer id, and otherwise the portal URL the
    provider returns for that customer, or a 500 with the provider's
    message when the provider fails. *)
Theorem portal_access (now : Z)
  (foreign : string -> list Value -> Db -> Completion (list SqlRow * Db))
  (sessions : StripeSessions) (env : Env) (vars : Variables) (w : World) :
  (truthy (or_else (orgId vars) (userId vars)) = true ->
   differs (or_else (orgId vars) (userId vars)) (userId vars) = true ->
   not_admin (orgRole vars) = true ->
   portal_handler now foreign sessions env vars w
   = (Return (Failure (mkErrorResponse "Forbidden: Admin permission required"
                         None 403)), w)) /\
  (truthy (or_else (orgId vars) (userId vars)) = true ->
   (differs (or_else (orgId vars) (userId vars)) (userId vars)
    && not_admin (orgRole vars))%bool = false ->
   truthy (STRIPE_SECRET_KEY env) = false ->
   portal_handler now foreign sessions env vars w
   = (Return (Failure (mkErrorResponse "Stripe not configured" None 500)), w)) /\
  (admitted env vars = true ->
   (differs (or_else (orgId vars) (userId vars)) (userId vars)
    && not_admin (orgRole vars))%bool = false ->
   actor_ready (actor_of w (tenant_of vars)) ->
   fst (portal_handler now foreign sessions env vars w)
   = match customer_of (initialised now (actor_of w (tenant_of vars))) with
     | None =>
         Return (Failure (mkErrorResponse
                            "No billing account found. Please subscribe first."
                            None 404))
     | Some customer =>
         match portal_session_response sessions (stripe_calls w) customer
                 (String.append (or_default (APP_URL env) "http://localhost:5173")
                                "/dashboard/settings/billing") with
         | Return u => Return (Json (mkPortalAnswer u))
         | Throw e =>
             Return (Failure (mkErrorResponse "Failed to create portal session"
                                (Some (details_of e)) 500))
         end
     end).
Proof.
  split; [| split].
  - intros Ht Hd Hn. apply portal_handler_forbidden; assumption.
  - intros Ht Hallowed Hk. unfold portal_handler.
    rewrite Ht, Hallowed, Hk. reflexivity.
  - intros Ha Hallowed Hready.
    rewrite (portal_handler_allowed now foreign sessions env vars w Ha Hallowed Hready).
    reflexivity.
Qed.

(** Witness: a member of [org_1] is refused, with the provider key and
    without it; an administrator without the key is answered 500; with the
    key an administrator receives the portal URL when the tenant has a
    customer and 404 when it has none. *)
Lemma portal_access_witness :
  let member := mkVariables (Some "user_2") (Some "org_1") (Some "org:member") in
  let admin := mkVariables (Some "user_1") (Some "org_1") (Some "org:admin") in
  let env_no_key :=
    mkEnv (Some "sk_clerk") None None None (Some "https://clerk.example.com") in
  portal_handler 1700000000000 (rejecting "not reached") sessions_up env_dev
                 member world_with_customer
  = (Return (Failure (mkErrorResponse "Forbidden: Admin permission required"
                        None 403)), world_with_customer) /\
  portal_handler 1700000000000 (rejecting "not reached") sessions_up env_no_key
                 member world_with_customer
  = (Return (Failure (mkErrorResponse "Forbidden: Admin permission required"
                        None 403)), world_with_customer) /\
  portal_handler 1700000000000 (rejecting "not reached") sessions_up env_no_key
                 admin world_with_customer
  = (Return (Failure (mkErrorResponse "Stripe not configured" None 500)),
     world_with_customer) /\
  fst (portal_handler 1700000000000 (rejecting "not reached") sessions_up env_dev
                      admin world_with_customer)
  = Return (Json (mkPortalAnswer (Some "https://billing.stripe.com/p/session/1"))) /\
  fst (portal_handler 1700000000000 (rejecting "not reached") sessions_up env_dev
                      admin world_org_1_ready)
  = Return (Failure (mkErrorResponse
                       "No billing account found. Please subscribe first." None 404)).
Proof.
  cbv zeta. split; [| split; [| split; [| split]]].
  - exact (proj1 (portal_access 1700000000000 (rejecting "not reached") sessions_up
                    env_dev (mkVariables (Some "user_2") (Some "org_1") (Some "org:member"))
                    world_with_customer) eq_refl eq_refl eq_refl).
  - exact (proj1 (portal_access 1700000000000 (rejecting "not reached") sessions_up
                    (mkEnv (Some "sk_clerk") None None None
                           (Some "https://clerk.example.com"))
                    (mkVariables (Some "user_2") (Some "org_1") (Some "org:member"))
                    world_with_customer) eq_refl eq_refl eq_refl).
  - exact (proj1 (proj2 (portal_access 1700000000000 (rejecting "not reached")
                    sessions_up
                    (mkEnv (Some "sk_clerk") None None None
                           (Some "https://clerk.example.com"))
                    (mkVariables (Some "user_1") (Some "org_1") (Some "org:admin"))
                    world_with_customer)) eq_refl eq_refl eq_refl).
  - refine (proj2 (proj2 (portal_access 1700000000000 (rejecting "not reached")
                     sessions_up
                     env_dev (mkVariables (Some "user_1") (Some "org_1") (Some "org:admin"))
                     world_with_customer)) eq_refl eq_refl _).
    intros _. eexists. vm_compute. reflexivity.
  - refine (proj2 (proj2 (portal_access 1700000000000 (rejecting "not reached")
                     sessions_up
                     env_dev (mkVariables (Some "user_1") (Some "org_1") (Some "org:admin"))
                     world_org_1_ready)) eq_refl eq_refl _).
    intros _. eexists. vm_compute. reflexivity.
Defined.

Section Subscription.

Variable now : Z.
Variable foreign : string -> list Value -> Db -> Completion (list SqlRow * Db).
Variable stripe : Stripe.

(** The route once the request is admitted and the seed row is in place:
    everything hinges on the customer id of the tenant record. *)
Lemma subscription_handler_run (env : Env) (vars : Variables) (w : World) :
  admitted env vars = true ->
  actor_ready (actor_of w (tenant_of vars)) ->
  subscription_handler now foreign stripe env vars w
  = let w0 := with_actor (tenant_of vars)
                (initialised now (actor_of w (tenant_of vars))) w in
    match customer_of (initialised now (actor_of w (tenant_of vars))) with
    | None => (Return (Json (mkSubscriptionAnswer FREE false None None)), w0)
    | Some customerId =>
        try_catch
          (let* planType := on_stripe (getSubscriptionPlanType stripe customerId) in
           let* subscription :=
             if planType_is_FREE planType then ret None
             else on_stripe (let* subscriptions := subscriptions_list stripe customerId in
                             first_subscription subscriptions) in
           ret (Json (mkSubscriptionAnswer planType true (Some customerId)
                        (option_map info_of subscription))))
          (fun error =>
             ret (Failure (mkErrorResponse "Failed to fetch subscription"
                             (Some (details_of error)) 500))) w0
    end.
Proof.
  intros Ha Hready.
  destruct (admitted_inv env vars Ha) as [Ht Hk].
  unfold subscription_handler. rewrite Ht, Hk. cbn [negb].
  fold (tenant_of vars).
  unfold try_catch, bind at 1. rewrite rpc_select_customer.
  destruct (actor_ready_table now _ Hready) as (rows & Hrows).
  rewrite Hrows, (select_customer_of _ rows Hrows). cbv zeta.
  destruct (customer_of _) as [c |]; reflexivity.
Qed.

Lemma usage_handler_run (env : Env) (vars : Variables) (w : World) :
  admitted env vars = true ->
  actor_ready (actor_of w (tenant_of vars)) ->
  usage_handler now foreign stripe env vars w
  = let w0 := with_actor (tenant_of vars)
                (initialised now (actor_of w (tenant_of vars))) w in
    match customer_of (initialised now (actor_of w (tenant_of vars))) with
    | None =>
        (Return (Json (mkUsageSummary FREE (PLAN_LIMITS FREE) (mkUsage 0 0) true)), w0)
    | Some customerId =>
        try_catch
          (let* planType := on_stripe (getSubscriptionPlanType stripe customerId) in
           ret (Json (mkUsageSummary planType (PLAN_LIMITS planType) (mkUsage 0 0)
                        (lt_limit 0 (maxItems (PLAN_LIMITS planType))))))
          (fun error =>
             ret (Failure (mkErrorResponse "Failed to fetch usage"
                             (Some (details_of error)) 500))) w0
    end.
Proof.
  intros Ha Hready.
  destruct (admitted_inv env vars Ha) as [Ht Hk].
  unfold usage_handler. rewrite Ht, Hk. cbn [negb].
  fold (tenant_of vars).
  unfold try_catch, bind at 1. rewrite rpc_select_customer.
  destruct (actor_ready_table now _ Hready) as (rows & Hrows).
  rewrite Hrows, (select_customer_of _ rows Hrows). cbv zeta.
  destruct (customer_of _) as [c |]; reflexivity.
Qed.

Lemma plan_on_world (customer : string) (w : World) :
  exists p,
    on_stripe (getSubscriptionPlanType stripe customer) w
    = (Return p,
       mkWorld (namespace w)
               (stripe_calls w ++ [SubscriptionsList customer "active" 1])) /\
    fst (getSubscriptionPlanType stripe customer (stripe_calls w)) = Return p.
Proof.
  unfold on_stripe.
  destruct (getSubscriptionPlanType_total stripe customer (stripe_calls w)) as [p Hp].
  pose proof (getSubscriptionPlanType_log stripe customer (stripe_calls w)) as Hlog.
  destruct (getSubscriptionPlanType stripe customer (stripe_calls w)) as [r log'].
  cbn [fst snd] in *. subst. eauto.
Qed.

End Subscription.

(** X15.  For a tenant whose record carries no customer id, and in
    particular for a tenant that has never been addressed,
    [GET /subscription] answers [planType: FREE], [hasCustomer: false] and
    no subscription, without sending anything to the provider. *)
Theorem subscription_without_customer (now : Z)
  (foreign : string -> list Value -> Db -> Completion (list SqlRow * Db))
  (stripe : Stripe) (env : Env) (vars : Variables) (w : World) :
  admitted env vars = true ->
  actor_ready (actor_of w (tenant_of vars)) ->
  customer_of (initialised now (actor_of w (tenant_of vars))) = None ->
  fst (subscription_handler now foreign stripe env vars w)
  = Return (Json (mkSubscriptionAnswer FREE false None None)) /\
  stripe_calls (snd (subscription_handler now foreign stripe env vars w))
  = stripe_calls w.
Proof.
  intros Ha Hready Hc.
  rewrite (subscription_handler_run now foreign stripe env vars w Ha Hready).
  cbv zeta. rewrite Hc. split; reflexivity.
Qed.

Lemma subscription_without_customer_witness :
  fst (subscription_handler 1700000000000 (rejecting "not reached") stripe_down
         env_dev (mkVariables (Some "user_1") None None) untouched)
  = Return (Json (mkSubscriptionAnswer FREE false None None)) /\
  stripe_calls (snd (subscription_handler 1700000000000 (rejecting "not reached")
                       stripe_down env_dev
                       (mkVariables (Some "user_1") None None) untouched))
  = [].
Proof.
  refine (subscription_without_customer 1700000000000 (rejecting "not reached")
            stripe_down env_dev (mkVariables (Some "user_1") None None) untouched
            eq_refl _ eq_refl).
  intros Hflag. vm_compute in Hflag. discriminate Hflag.
Defined.

(** X16.  When the tenant has a customer but the provider's subscription
    list fails, [GET /subscription] still answers 200: [planType: FREE],
    [hasCustomer: true], the customer id and no subscription, after the one
    list call; the failure is absorbed, not reported. *)
Theorem subscription_during_outage (now : Z)
  (foreign : string -> list Value -> Db -> Completion (list SqlRow * Db))
  (stripe : Stripe) (env : Env) (vars : Variables) (w : World)
  (customer : string) (e : Error) :
  admitted env vars = true ->
  actor_ready (actor_of w (tenant_of vars)) ->
  customer_of (initialised now (actor_of w (tenant_of vars))) = Some customer ->
  subscriptions_list_response stripe (stripe_calls w) customer = Throw e ->
  fst (subscription_handler now foreign stripe env vars w)
  = Return (Json (mkSubscriptionAnswer FREE true (Some customer) None)) /\
  stripe_calls (snd (subscription_handler now foreign stripe env vars w))
  = stripe_calls w ++ [SubscriptionsList customer "active" 1].
Proof.
  intros Ha Hready Hc He.
  set (w0 := with_actor (tenant_of vars)
               (initialised now (actor_of w (tenant_of vars))) w).
  assert (Hall : subscription_handler now foreign stripe env vars w
                 = (Return (Json (mkSubscriptionAnswer FREE true (Some customer) None)),
                    mkWorld (namespace w0)
                            (stripe_calls w ++ [SubscriptionsList customer "active" 1]))).
  { rewrite (subscription_handler_run now foreign stripe env vars w Ha Hready).
    cbv zeta. rewrite Hc. fold w0. unfold try_catch, bind at 1.
    destruct (plan_on_world stripe customer w0) as (p & Hrun & Hp).
    rewrite Hrun.
    change (stripe_calls w0) with (stripe_calls w) in Hp.
    rewrite (getSubscriptionPlanType_on_error stripe customer (stripe_calls w) e He) in Hp.
    injection Hp as <-. reflexivity. }
  rewrite Hall. split; reflexivity.
Qed.

Lemma subscription_during_outage_witness :
  fst (subscription_handler 1700000000000 (rejecting "not reached") stripe_down
         env_dev (mkVariables (Some "user_1") (Some "org_1") (Some "org:admin"))
         world_with_customer)
  = Return (Json (mkSubscriptionAnswer FREE true (Some "cus_abc") None)) /\
  stripe_calls (snd (subscription_handler 1700000000000 (rejecting "not reached")
                       stripe_down env_dev
                       (mkVariables (Some "user_1") (Some "org_1") (Some "org:admin"))
                       world_with_customer))
  = [SubscriptionsList "cus_abc" "active" 1].
Proof.
  refine (subscription_during_outage 1700000000000 (rejecting "not reached")
            stripe_down env_dev
            (mkVariables (Some "user_1") (Some "org_1") (Some "org:admin"))
            world_with_customer "cus_abc" (StripeError "connection refused")
            eq_refl _ eq_refl eq_refl).
  intros _. eexists. vm_compute. reflexivity.
Defined.

Lemma planType_is_FREE_inv (p : PlanType) : planType_is_FREE p = true -> p = FREE.
Proof. destruct p; [reflexivity | discriminate | discriminate]. Qed.

Section SubscriptionAnswers.

Variable now : Z.
Variable foreign : string -> list Value -> Db -> Completion (list SqlRow * Db).
Variable stripe : Stripe.

(** The two shapes a JSON answer of [/subscription] can have. *)
Lemma subscription_handler_json (env : Env) (vars : Variables) (w w' : World)
  (answer : SubscriptionAnswer) :
  subscription_handler now foreign stripe env vars w = (Return (Json answer), w') ->
  answer = mkSubscriptionAnswer FREE false None None \/
  exists rows customer p subscription,
    fst (rpc (tenant_of vars) (query now foreign SELECT_STRIPE_CUSTOMER_SQL []) w)
    = Return rows /\
    existing_customer rows = Some customer /\
    fst (getSubscriptionPlanType stripe customer (stripe_calls w)) = Return p /\
    (p = FREE -> subscription = None) /\
    answer = mkSubscriptionAnswer p true (Some customer) subscription.
Proof.
  unfold subscription_handler.
  destruct (negb _); [discriminate |]. destruct (negb _); [discriminate |].
  fold (tenant_of vars). unfold try_catch, bind at 1.
  destruct (rpc (tenant_of vars) _ w) as [[rows | e] w0] eqn:Hsel; [| discriminate].
  assert (Hcalls : stripe_calls w0 = stripe_calls w).
  { rewrite rpc_select_customer in Hsel. injection Hsel as _ <-. reflexivity. }
  destruct (existing_customer rows) as [c |] eqn:Hc.
  - unfold bind at 1.
    destruct (plan_on_world stripe c w0) as (p & Hrun & Hp). rewrite Hrun.
    rewrite Hcalls in Hp. unfold bind at 1.
    destruct (planType_is_FREE p) eqn:Hfree.
    + cbv beta iota delta [ret bind]. intros H. injection H. intros _ Hbody. subst answer. right.
      exists rows, c, p, None. cbn [fst]. repeat split; auto.
    + match goal with
      | |- context [on_stripe ?m ?w1] =>
          destruct (on_stripe m w1) as [[subscription | e] w2]; [| discriminate]
      end.
      cbv beta iota delta [ret bind]. intros H. injection H. intros _ Hbody. subst answer. right.
      exists rows, c, p, (option_map info_of subscription). cbn [fst].
      repeat split; auto. intros ->. discriminate Hfree.
  - cbv beta iota delta [ret bind]. intros H. injection H. intros _ Hbody. subst answer. left. reflexivity.
Qed.

End SubscriptionAnswers.

(** X17.  Every JSON answer of [GET /subscription] is consistent: without
    customer the plan is FREE and there is neither customer id nor
    subscription; with [hasCustomer: true] the customer id is present and
    non-empty; and a subscription is only ever reported together with a
    plan other than FREE. *)
Theorem subscription_answer_consistent (now : Z)
  (foreign : string -> list Value -> Db -> Completion (list SqlRow * Db))
  (stripe : Stripe) (env : Env) (vars : Variables) (w w' : World)
  (answer : SubscriptionAnswer) :
  subscription_handler now foreign stripe env vars w = (Return (Json answer), w') ->
  (hasCustomer answer = false ->
   answer_planType answer = FREE /\ answer_customerId answer = None /\
   answer_subscription answer = None) /\
  (hasCustomer answer = true ->
   exists customer, answer_customerId answer = Some customer /\ customer <> "") /\
  (answer_planType answer = FREE -> answer_subscription answer = None).
Proof.
  intros H.
  destruct (subscription_handler_json now foreign stripe env vars w w' answer H)
    as [-> | (rows & c & p & s & _ & Hc & _ & Hfree & ->)];
    cbn [hasCustomer answer_planType answer_customerId answer_subscription].
  - repeat split. discriminate.
  - split; [discriminate |]. split; [| exact Hfree].
    intros _. exists c. split; [reflexivity |].
    exact (existing_customer_nonempty rows c Hc).
Qed.

Lemma subscription_answer_consistent_witness :
  exists w',
    subscription_handler 1700000000000 (rejecting "not reached") stripe_subscribed
      env_dev (mkVariables (Some "user_1") (Some "org_1") (Some "org:admin"))
      world_with_customer
    = (Return (Json (mkSubscriptionAnswer STANDARD true (Some "cus_abc")
                       (Some (mkSubscriptionInfo "sub_1" "active" 1702592000 false)))),
       w') /\
    exists customer, Some "cus_abc" = Some customer /\ customer <> "".
Proof.
  eexists. split; [reflexivity |].
  refine (proj1 (proj2 (subscription_answer_consistent 1700000000000
                          (rejecting "not reached") stripe_subscribed env_dev
                          (mkVariables (Some "user_1") (Some "org_1") (Some "org:admin"))
                          world_with_customer _
                          (mkSubscriptionAnswer STANDARD true (Some "cus_abc")
                             (Some (mkSubscriptionInfo "sub_1" "active" 1702592000 false)))
                          _)) eq_refl).
  reflexivity.
Defined.

(** X18.  [GET /usage] and [GET /subscription] agree on the plan: asked
    about the same world, whenever both answer with a JSON body, the
    [planType] in the two bodies is the same. *)
Theorem usage_and_subscription_agree (now : Z)
  (foreign : string -> list Value -> Db -> Completion (list SqlRow * Db))
  (stripe : Stripe) (env : Env) (vars : Variables) (w w1 w2 : World)
  (summary : UsageSummary) (answer : SubscriptionAnswer) :
  usage_handler now foreign stripe env vars w = (Return (Json summary), w1) ->
  subscription_handler now foreign stripe env vars w = (Return (Json answer), w2) ->
  planType summary = answer_planType answer.
Proof.
  intros Hu Hs.
  destruct (subscription_handler_json now foreign stripe env vars w w2 answer Hs)
    as [-> | (rows & c & p & s & Hsel & Hc & Hp & _ & ->)];
    cbn [answer_planType]; revert Hu; unfold usage_handler;
    (destruct (negb _); [discriminate |]); (destruct (negb _); [discriminate |]);
    fold (tenant_of vars); unfold try_catch, bind at 1.
  - revert Hs. unfold subscription_handler.
    destruct (negb _); [discriminate |]. destruct (negb _); [discriminate |].
    fold (tenant_of vars). unfold try_catch, bind at 1.
    destruct (rpc (tenant_of vars) _ w) as [[rows | e] w0] eqn:Hsel; [| discriminate].
    destruct (existing_customer rows) as [c |] eqn:Hc.
    + (* the subscription route saw a customer: its answer has one *)
      unfold bind at 1.
      destruct (plan_on_world stripe c w0) as (p & Hrun & _). rewrite Hrun.
      unfold bind at 1.
      destruct (planType_is_FREE p).
      * cbv beta iota delta [ret bind]. intros H. injection H. intros. congruence.
      * match goal with
        | |- context [on_stripe ?m ?w1] =>
            destruct (on_stripe m w1) as [[s | e] w3]; [| discriminate]
        end.
        cbv beta iota delta [ret bind]. intros H. injection H. intros. congruence.
    + intros _. cbv beta iota delta [ret bind]. intros H. injection H as <- _. reflexivity.
  - destruct (rpc (tenant_of vars) _ w) as [[rows' | e] w0] eqn:Hsel'; [| discriminate Hsel].
    cbn [fst] in Hsel. injection Hsel as ->.
    assert (Hcalls : stripe_calls w0 = stripe_calls w).
    { rewrite rpc_select_customer in Hsel'. injection Hsel' as _ <-. reflexivity. }
    rewrite Hc. unfold bind at 1.
    destruct (plan_on_world stripe c w0) as (p' & Hrun & Hp'). rewrite Hrun.
    rewrite Hcalls, Hp in Hp'. injection Hp' as <-.
    cbv beta iota delta [ret bind]. intros H. injection H as <- _. reflexivity.
Qed.

Lemma usage_and_subscription_agree_witness :
  exists w1 w2,
    usage_handler 1700000000000 (rejecting "not reached") stripe_subscribed env_dev
      (mkVariables (Some "user_1") (Some "org_1") (Some "org:admin"))
      world_with_customer
    = (Return (Json (mkUsageSummary STANDARD (PLAN_LIMITS STANDARD) (mkUsage 0 0) true)),
       w1) /\
    subscription_handler 1700000000000 (rejecting "not reached") stripe_subscribed
      env_dev (mkVariables (Some "user_1") (Some "org_1") (Some "org:admin"))
      world_with_customer
    = (Return (Json (mkSubscriptionAnswer STANDARD true (Some "cus_abc")
                       (Some (mkSubscriptionInfo "sub_1" "active" 1702592000 false)))),
       w2) /\
    planType (mkUsageSummary STANDARD (PLAN_LIMITS STANDARD) (mkUsage 0 0) true)
    = STANDARD.
Proof.
  eexists. eexists. split; [reflexivity |]. split; [reflexivity |].
  refine (usage_and_subscription_agree 1700000000000 (rejecting "not reached")
            stripe_subscribed env_dev
            (mkVariables (Some "user_1") (Some "org_1") (Some "org:admin"))
            world_with_customer _ _
            (mkUsageSummary STANDARD (PLAN_LIMITS STANDARD) (mkUsage 0 0) true)
            (mkSubscriptionAnswer STANDARD true (Some "cus_abc")
               (Some (mkSubscriptionInfo "sub_1" "active" 1702592000 false)))
            _ _); reflexivity.
Defined.

(* ================================================================== *)
(** * Plan resolution, case by case *)
(* ================================================================== *)

(** X19.  [getSubscriptionPlanType] only ever resolves to FREE or STANDARD,
    never to ENTERPRISE; it resolves to STANDARD exactly when the list call
    returns at least one subscription whose items can be read, whatever the
    price of that subscription is. *)
Theorem plan_resolution_cases (stripe : Stripe) (customerId : string)
  (log : list Call) (p : PlanType) :
  fst (getSubscriptionPlanType stripe customerId log) = Return p ->
  p <> ENTERPRISE /\
  (p = STANDARD <->
   exists l s rest prices,
     subscriptions_list_response stripe log customerId = Return l /\
     data l = Some (s :: rest) /\
     items_data s = Some prices).
Proof.
  unfold getSubscriptionPlanType, try_catch, bind, subscriptions_list, data_of,
    first_price_id, ret, throw.
  destruct (subscriptions_list_response stripe log customerId) as [l | e] eqn:Hresp;
    cbn.
  - destruct (data l) as [[| s rest] |] eqn:Hd; cbn.
    + intros H. injection H as <-. split; [discriminate |].
      split; [discriminate |]. intros (l' & s & rest & prices & Hl & Hd' & _).
      injection Hl as <-. congruence.
    + destruct (items_data s) as [prices |] eqn:Hi.
      * destruct prices; cbn; intros H; injection H as <-;
          (split; [discriminate |]); (split; [| reflexivity]);
          intros _; exists l, s, rest; eexists; repeat split; eassumption.
      * cbn. intros H. injection H as <-. split; [discriminate |].
        split; [discriminate |].
        intros (l' & s' & rest' & prices & Hl & Hd' & Hi').
        injection Hl as <-. rewrite Hd in Hd'. injection Hd' as <- <-. congruence.
    + intros H. injection H as <-. split; [discriminate |].
      split; [discriminate |]. intros (l' & s & rest & prices & Hl & Hd' & _).
      injection Hl as <-. congruence.
  - intros H. injection H as <-. split; [discriminate |].
    split; [discriminate |]. intros (l' & s & rest & prices & Hl & _). discriminate Hl.
Qed.

Lemma plan_resolution_cases_witness :
  STANDARD <> ENTERPRISE /\
  (STANDARD = STANDARD <->
   exists l s rest prices,
     subscriptions_list_response stripe_subscribed [] "cus_abc" = Return l /\
     data l = Some (s :: rest) /\
     items_data s = Some prices).
Proof.
  exact (plan_resolution_cases stripe_subscribed "cus_abc" [] STANDARD eq_refl).
Defined.

(* ================================================================== *)
(** * Customer provisioning: what is sent and what is written *)
(* ================================================================== *)

Lemma or_default_nonempty (o : option string) (d : string) :
  d <> "" -> or_default o d <> "".
Proof.
  intros Hd. destruct o as [s |]; cbn; [| exact Hd].
  unfold truthy_string. destruct (String.eqb s "") eqn:E; cbn; [exact Hd |].
  apply String.eqb_neq in E. exact E.
Qed.

Lemma customer_identity_name (clerk : Clerk) (orgId userId : string)
  (key : option string) :
  orgId <> "" -> fst (customer_identity clerk orgId userId key) <> "".
Proof.
  intros Hne. unfold customer_identity.
  destruct (truthy key); [| exact Hne].
  destruct (String.eqb orgId userId).
  - destruct (getClerkUser clerk userId _) as [user |]; cbn [fst]; [| exact Hne].
    apply or_default_nonempty, Hne.
  - destruct (getClerkOrganization clerk orgId _) as [org |]; cbn [fst]; [| exact Hne].
    destruct (truthy (organization_name org)); cbn [fst]; [| exact Hne].
    apply or_default_nonempty, Hne.
Qed.

Lemma rpc_calls {A} (stub : string) (m : Eff Actor A) (w : World) :
  stripe_calls (snd (rpc stub m w)) = stripe_calls w.
Proof. unfold rpc. destruct (m (actor_of w stub)); reflexivity. Qed.

(** X20.  [getOrCreateStripeCustomer] sends at most one call to the
    provider, a customer creation, and only when the tenant record shows no
    customer.  The customer it asks for is tagged with the organization id
    and the user id it was called with; its name is never empty for a
    non-empty organization id, falling back to that id; and without Clerk
    secret the name is the organization id and no e-mail address is
    sent. *)
Theorem provisioning_request (now : Z)
  (foreign : string -> list Value -> Db -> Completion (list SqlRow * Db))
  (stripe : Stripe) (clerk : Clerk) (stub orgId userId : string)
  (key : option string) (w : World) :
  let w' := snd (getOrCreateStripeCustomer now foreign stripe clerk stub
                   orgId userId key w) in
  stripe_calls w' = stripe_calls w \/
  exists params,
    stripe_calls w' = stripe_calls w ++ [CustomersCreate params] /\
    customer_of (initialised now (actor_of w stub)) = None /\
    metadata_organization_id params = orgId /\
    metadata_user_id params = userId /\
    (orgId <> "" -> name params <> "") /\
    (truthy key = false -> name params = orgId /\ email params = None).
Proof.
  cbv zeta.
  destruct (getOrCreateStripeCustomer now foreign stripe clerk stub orgId userId key w)
    as [res w'] eqn:Hrun.
  cbn [snd]. revert Hrun.
  unfold getOrCreateStripeCustomer, bind at 1.
  rewrite rpc_select_customer.
  destruct (organization_settings _) as [rows |] eqn:Hrows;
    [| intros H; injection H as _ <-; left; reflexivity].
  rewrite (select_customer_of _ rows Hrows).
  destruct (customer_of _) as [c |] eqn:Hc;
    [intros H; injection H as _ <-; left; reflexivity |].
  intros Hrun. right. exists (new_customer clerk orgId userId key).
  pose proof (customer_identity_name clerk orgId userId key) as Hname.
  assert (Hkey : truthy key = false ->
                 customer_identity clerk orgId userId key = (orgId, None)).
  { unfold customer_identity. intros ->. reflexivity. }
  unfold new_customer.
  destruct (customer_identity clerk orgId userId key) as [customerName customerEmail].
  cbn [fst snd] in *. cbn [name email metadata_organization_id metadata_user_id].
  split.
  - revert Hrun.
    unfold bind at 1, on_stripe, customers_create, with_actor.
    cbn [stripe_calls namespace].
    match goal with
    | |- context [customers_create_response stripe ?log ?p] =>
        destruct (customers_create_response stripe log p) as [cid | e]
    end; [| intros H; injection H as _ <-; reflexivity].
    unfold bind.
    match goal with
    | |- context [rpc ?s ?m ?w0] =>
        pose proof (rpc_calls s m w0) as Hcalls; destruct (rpc s m w0) as [[x | e] w2]
    end; cbn [snd stripe_calls] in *; intros H; injection H as _ <-; exact Hcalls.
  - split; [reflexivity |]. split; [reflexivity |]. split; [reflexivity |].
    split; [exact Hname |].
    intros Hk. specialize (Hkey Hk). injection Hkey as -> ->. split; reflexivity.
Qed.



Lemma provisioning_request_witness :
  let w' := snd (getOrCreateStripeCustomer 1700000000000 (rejecting "not reached")
                   stripe_cus_abc clerk_down "org_1" "org_1" "user_1" None untouched) in
  stripe_calls w'
  = [CustomersCreate (mkCustomerCreateParams "org_1" None "org_1" "user_1")].
Proof.
  cbv zeta.
  destruct (provisioning_request 1700000000000 (rejecting "not reached")
              stripe_cus_abc clerk_down "org_1" "org_1" "user_1" None untouched)
    as [H | (params & H & _)]; reflexivity.
Defined.

(* ================================================================== *)
(** * The customer-session route *)
(* ================================================================== *)

Section CustomerSession.

Variable foreign : string -> list Value -> Db -> Completion (list SqlRow * Db).
Variable stripe : Stripe.
Variable clerk : Clerk.


Variable sessions : StripeSessions.

(** The route once the request is admitted: provisioning, then the session. *)
Lemma customer_session_handler_run (now : Z) (env : Env) (user : string)
  (organization : option string) (w : World) :
  truthy_string (or_default organization user) = true ->
  truthy (STRIPE_SECRET_KEY env) = true ->
  customer_session_handler now foreign stripe sessions clerk env user organization w
  = let stub := or_default organization user in
    match getOrCreateStripeCustomer now foreign stripe clerk stub stub user
            (CLERK_SECRET_KEY env) w with
    | (Return customer, w1) =>
        (match customer_session_response sessions (stripe_calls w1) customer with
         | Return secret => Return (Json (mkCustomerSessionAnswer secret customer))
         | Throw e =>
             Return (Failure (mkErrorResponse "Failed to create customer session"
                                (Some (details_of e)) 500))
         end, w1)
    | (Throw e, w1) =>
        (Return (Failure (mkErrorResponse "Failed to create customer session"
                            (Some (details_of e)) 500)), w1)
    end.
Proof.
  intros Ht Hk. unfold customer_session_handler. rewrite Ht, Hk. cbn [negb].
  cbv zeta. unfold try_catch, bind at 1.
  destruct (getOrCreateStripeCustomer _ _ _ _ _ _ _ _ w) as [[c | e] w1];
    [| reflexivity].
  unfold bind.
  destruct (customer_session_response sessions (stripe_calls w1) c); reflexivity.
Qed.

End CustomerSession.



(** X23.  A failed session does not cost a second customer.  Once a call of
    [POST /customer-session] has got a customer id out of provisioning, a
    later call for the same tenant, by any member and whatever the first
    call answered in the end, sends nothing more to the provider's customer
    and subscription endpoints, leaves the world as it is, and, if it
    answers with a JSON body, names that same customer. *)
Theorem customer_session_retry (now1 now2 : Z)
  (foreign : string -> list Value -> Db -> Completion (list SqlRow * Db))
  (stripe : Stripe) (sessions1 sessions2 : StripeSessions) (clerk : Clerk)
  (env : Env) (user1 user2 : string) (organization : string) (w : World)
  (customer : string) :
  organization <> "" ->
  truthy (STRIPE_SECRET_KEY env) = true ->
  customer <> "" ->
  actor_ready (actor_of w organization) ->
  fst (getOrCreateStripeCustomer now1 foreign stripe clerk organization organization
         user1 (CLERK_SECRET_KEY env) w) = Return customer ->
  let w1 := snd (customer_session_handler now1 foreign stripe sessions1 clerk env
                   user1 (Some organization) w) in
  snd (customer_session_handler now2 foreign stripe sessions2 clerk env
         user2 (Some organization) w1) = w1 /\
  (creations (stripe_calls w1) <= S (creations (stripe_calls w)))%nat /\
  forall answer,
    fst (customer_session_handler now2 foreign stripe sessions2 clerk env
           user2 (Some organization) w1) = Return (Json answer) ->
    session_customerId answer = customer.
Proof.
  intros Ho Hk Hc Hready Hfirst. cbv zeta.
  assert (Hd : forall u, or_default (Some organization) u = organization).
  { intros u. cbn. rewrite (truthy_nonempty organization Ho : truthy_string _ = true).
    reflexivity. }
  assert (Ht : forall u, truthy_string (or_default (Some organization) u) = true).
  { intros u. rewrite Hd. exact (truthy_nonempty organization Ho). }
  rewrite !(customer_session_handler_run foreign stripe clerk _ _ env _ _ _ (Ht _) Hk).
  cbv zeta. rewrite !Hd.
  destruct (getOrCreateStripeCustomer_again foreign stripe clerk now1 now2
              organization organization user1 organization user2
              (CLERK_SECRET_KEY env) (CLERK_SECRET_KEY env) w customer
              Hready Hfirst Hc) as [Hagain Hcount].
  destruct (getOrCreateStripeCustomer now1 foreign stripe clerk organization
              organization user1 (CLERK_SECRET_KEY env) w) as [[c | e] w1];
    [| discriminate Hfirst].
  cbn [fst snd] in *. injection Hfirst as ->.
  rewrite Hagain.
  split; [reflexivity |]. split; [exact Hcount |].
  intros answer.
  destruct (customer_session_response sessions2 (stripe_calls w1) customer);
    cbn [fst]; intros H; [injection H as <-; reflexivity | discriminate H].
Qed.

Lemma customer_session_retry_witness :
  let w1 := snd (customer_session_handler 1700000000000 (rejecting "not reached")
                   stripe_cus_abc sessions_down clerk_down env_dev
                   "user_1" (Some "org_1") untouched) in
  fst (customer_session_handler 1700000000000 (rejecting "not reached")
         stripe_cus_abc sessions_down clerk_down env_dev
         "user_1" (Some "org_1") untouched)
  = Return (Failure (mkErrorResponse "Failed to create customer session"
                       (Some "connection refused") 500)) /\
  snd (customer_session_handler 1700000060000 (rejecting "not reached")
         stripe_cus_abc sessions_up clerk_down env_dev
         "user_2" (Some "org_1") w1) = w1 /\
  creations (stripe_calls w1) = 1%nat.
Proof.
  cbv zeta.
  assert (Ho : "org_1" <> "") by discriminate.
  assert (Hc : "cus_abc" <> "") by discriminate.
  assert (Hready : actor_ready (actor_of untouched "org_1")).
  { intros Hflag. vm_compute in Hflag. discriminate Hflag. }
  split; [reflexivity |].
  split; [| reflexivity].
  exact (proj1 (customer_session_retry 1700000000000 1700000060000
                  (rejecting "not reached") stripe_cus_abc sessions_down sessions_up
                  clerk_down env_dev "user_1" "user_2" "org_1" untouched "cus_abc"
                  Ho eq_refl Hc Hready eq_refl)).
Defined.

(* ================================================================== *)
(** * What initialisation and attribution leave alone *)
(* ================================================================== *)

Lemma length_update_singleton (f : Settings -> Settings) (rows : list Settings) :
  List.length (update_singleton f rows) = List.length rows.
Proof. unfold update_singleton. apply List.length_map. Qed.

(** X24.  [ensureInitialized] never throws and only ever adds: the rows it
    finds stay as they are, in place, and the only row it can append is the
    seed row stamped with the current epoch second; when the singleton row
    is already there (as after a restart of the actor) the database is left
    exactly as it was. *)
Theorem initialisation_only_appends (now : Z)
  (foreign : string -> list Value -> Db -> Completion (list SqlRow * Db))
  (a : Actor) :
  exists a' extra,
    ensureInitialized now foreign a = (Return tt, a') /\
    initialized a' = true /\
    records a' = records a ++ extra /\
    (extra = [] \/ extra = [default_settings (now / 1000)]) /\
    (forall r, tenant_record a = Some r -> sql a' = sql a).
Proof.
  rewrite ensureInitialized_run.
  exists (initialised now a).
  destruct (initialized a) eqn:Hflag.
  - exists []. rewrite (initialised_set now a Hflag), List.app_nil_r.
    repeat split; auto.
  - unfold initialised, seeded. rewrite Hflag. unfold records. cbn [sql initialized].
    destruct (organization_settings (sql a)) as [rows |] eqn:Hrows.
    + destruct (List.existsb is_singleton rows) eqn:Hex.
      * exists []. rewrite Hrows, List.app_nil_r. repeat split; auto.
      * exists [default_settings (now / 1000)]. cbn [organization_settings].
        repeat split; auto.
        intros r Hr. unfold tenant_record, records in Hr. rewrite Hrows in Hr.
        rewrite find_existsb_singleton, Hr in Hex. discriminate Hex.
    + exists [default_settings (now / 1000)]. cbn [organization_settings].
      repeat split; auto.
      intros r Hr. unfold tenant_record, records in Hr. rewrite Hrows in Hr.
      discriminate Hr.
Qed.

(** X25.  [setCreatorIfNotSet] touches the creator columns and [updated_at]
    of the tenant record and nothing else: the record keeps its id, its
    customer id and its creation time, and the table keeps its number of
    rows.  When it writes, an absent or empty e-mail address is recorded as
    [NULL]. *)
Theorem creator_columns_only (now : Z)
  (foreign : string -> list Value -> Db -> Completion (list SqlRow * Db))
  (u : string) (e : option string) (a : Actor) (r : Settings) :
  tenant_record a = Some r ->
  exists r',
    tenant_record (snd (setCreatorIfNotSet now foreign u e a)) = Some r' /\
    id r' = id r /\
    stripe_customer_id r' = stripe_customer_id r /\
    created_at r' = created_at r /\
    List.length (records (snd (setCreatorIfNotSet now foreign u e a)))
    = List.length (records a) /\
    (truthy (creator_user_id r) = false -> truthy e = false ->
     creator_user_id r' = Some u /\ creator_email r' = None).
Proof.
  intros Hr.
  destruct (truthy (creator_user_id r)) eqn:Ht.
  - rewrite (setCreatorIfNotSet_recorded foreign now u e a r Hr Ht). cbn [snd].
    exists r. unfold tenant_record, records in *. cbn [sql].
    split; [exact Hr |]. do 4 (split; [reflexivity |]).
    intros Hf. discriminate Hf.
  - pose proof (setCreatorIfNotSet_run now foreign u e a) as Hrun.
    rewrite (initialised_with_record now a r Hr) in Hrun.
    destruct (tenant_record_rows a r Hr) as (rows & Hrows & Hfind).
    cbn [sql] in Hrun. rewrite Hrows in Hrun.
    unfold recorded_creator in Hrun. rewrite Hfind, Ht in Hrun.
    rewrite Hrun. cbn [snd].
    exists (set_creator (Some u) (or_else e None) (now / 1000) r).
    unfold tenant_record, records, with_creator. cbn [sql organization_settings].
    rewrite find_update_singleton by reflexivity. rewrite Hfind, Hrows.
    rewrite length_update_singleton.
    do 5 (split; [reflexivity |]).
    intros _ He. cbn [creator_user_id creator_email set_creator].
    unfold or_else. rewrite He. split; reflexivity.
Qed.

Lemma creator_columns_only_witness :
  let kept := mkSettings 1 (Some "cus_abc") None None 1700000000 1700000000 in
  let a := mkActor (mkDb (Some [kept])) true in
  exists r',
    tenant_record (snd (setCreatorIfNotSet 1700000060000 (rejecting "not reached")
                          "user_1" (Some "") a)) = Some r' /\
    stripe_customer_id r' = Some "cus_abc" /\
    creator_user_id r' = Some "user_1" /\ creator_email r' = None.
Proof.
  cbv zeta.
  destruct (creator_columns_only 1700000060000 (rejecting "not reached")
              "user_1" (Some "")
              (mkActor (mkDb (Some [mkSettings 1 (Some "cus_abc") None None
                                               1700000000 1700000000])) true)
              (mkSettings 1 (Some "cus_abc") None None 1700000000 1700000000)
              eq_refl)
    as (r' & Hr' & _ & Hc & _ & _ & Hw).
  exists r'. split; [exact Hr' |]. split; [exact Hc |]. exact (Hw eq_refl eq_refl).
Defined.

(* ================================================================== *)
(** * The billing page and the routes it calls *)
(* ================================================================== *)

Lemma actor_of_on_stripe {A} (m : Eff (list Call) A) (w : World) (stub : string) :
  actor_of (snd (on_stripe m w)) stub = actor_of w stub.
Proof. unfold on_stripe. destruct (m (stripe_calls w)); reflexivity. Qed.

Section PageAndRoutes.

Variable foreign : string -> list Value -> Db -> Completion (list SqlRow * Db).
Variable stripe : Stripe.
Variable sessions : StripeSessions.

(** What a JSON answer of [/subscription] tells about the world it leaves. *)
Lemma subscription_handler_json_world (now : Z) (env : Env) (vars : Variables)
  (w w1 : World) (answer : SubscriptionAnswer) :
  subscription_handler now foreign stripe env vars w = (Return (Json answer), w1) ->
  admitted env vars = true /\
  actor_of w1 (tenant_of vars) = initialised now (actor_of w (tenant_of vars)) /\
  (hasCustomer answer = true ->
   exists customer,
     answer_customerId answer = Some customer /\
     customer_of (initialised now (actor_of w (tenant_of vars))) = Some customer).
Proof.
  unfold subscription_handler, admitted.
  destruct (truthy (or_else (orgId vars) (userId vars))); cbn [negb andb];
    [| discriminate].
  destruct (truthy (STRIPE_SECRET_KEY env)); cbn [negb]; [| discriminate].
  fold (tenant_of vars). unfold try_catch, bind at 1.
  rewrite rpc_select_customer.
  destruct (organization_settings _) as [rows |] eqn:Hrows; [| discriminate].
  rewrite (select_customer_of _ rows Hrows).
  set (w0 := with_actor (tenant_of vars) _ w).
  assert (Hw0 : actor_of w0 (tenant_of vars)
                = initialised now (actor_of w (tenant_of vars)))
    by apply actor_of_with_actor.
  destruct (customer_of _) as [c |] eqn:Hc.
  - unfold bind at 1.
    pose proof (actor_of_on_stripe (getSubscriptionPlanType stripe c) w0 (tenant_of vars))
      as Hp.
    destruct (on_stripe (getSubscriptionPlanType stripe c) w0) as [[p | e] w2];
      [| discriminate].
    cbn [snd] in Hp. unfold bind at 1.
    destruct (planType_is_FREE p).
    + cbv beta iota delta [ret bind]. intros H. injection H. intros <- <-.
      split; [reflexivity |]. split; [congruence |].
      intros _. exists c. split; reflexivity.
    + match goal with
      | |- context [on_stripe ?m ?w3] =>
          pose proof (actor_of_on_stripe m w3 (tenant_of vars)) as Hs;
          destruct (on_stripe m w3) as [[s | e] w4]; [| discriminate]
      end.
      cbn [snd] in Hs.
      cbv beta iota delta [ret bind]. intros H. injection H. intros <- <-.
      split; [reflexivity |]. split; [congruence |].
      intros _. exists c. split; reflexivity.
  - cbv beta iota delta [ret bind]. intros H. injection H. intros <- <-.
    split; [reflexivity |]. split; [exact Hw0 |]. discriminate.
Qed.

Lemma session_allowed (user : string) (s : Session) :
  user <> "" ->
  (forall o, organization s = Some o -> o <> "" /\ o <> user) ->
  truthy (or_else (orgId (vars_of_session user s)) (userId (vars_of_session user s)))
  = true /\
  (differs (or_else (orgId (vars_of_session user s)) (userId (vars_of_session user s)))
           (userId (vars_of_session user s))
   && not_admin (orgRole (vars_of_session user s)))%bool
  = negb (isAdmin s).
Proof.
  intros Hu Ho. unfold vars_of_session, isAdmin. cbn [orgId userId orgRole].
  destruct (organization s) as [o |].
  - destruct (Ho o eq_refl) as [Hne Hou].
    assert (Hor : or_else (Some o) (Some user) = Some o)
      by (unfold or_else; rewrite (truthy_nonempty o Hne); reflexivity).
    rewrite Hor. split; [apply truthy_nonempty, Hne |]. cbn [differs].
    apply String.eqb_neq in Hou. rewrite Hou. cbn [negb andb].
    unfold not_admin. destruct (membership_role s); reflexivity.
  - assert (Hor : or_else None (Some user) = Some user) by reflexivity.
    rewrite Hor. split; [apply truthy_nonempty, Hu |].
    cbn [differs]. rewrite String.eqb_refl. reflexivity.
Qed.

End PageAndRoutes.

(** X26.  The billing page and [POST /portal] draw the same line.  For a
    signed-in user whose request carries the organization and the role the
    page sees, the route answers 403 exactly when the page takes the user
    for a non-administrator; for a user the page takes for an
    administrator (a personal account, or the role [org:admin]) the route
    never answers 403. *)
Theorem billing_page_matches_portal (now : Z)
  (foreign : string -> list Value -> Db -> Completion (list SqlRow * Db))
  (sessions : StripeSessions) (env : Env) (user : string) (s : Session)
  (w : World) :
  user <> "" ->
  (forall o, organization s = Some o -> o <> "" /\ o <> user) ->
  (isAdmin s = false ->
   portal_handler now foreign sessions env (vars_of_session user s) w
   = (Return (Failure (mkErrorResponse "Forbidden: Admin permission required"
                         None 403)), w)) /\
  (isAdmin s = true ->
   forall r w',
     portal_handler now foreign sessions env (vars_of_session user s) w
     = (Return (Failure r), w') ->
     status r <> 403).
Proof.
  intros Hu Ho.
  destruct (session_allowed user s Hu Ho) as [Ht Hallowed].
  split; intros Hadmin; rewrite Hadmin in Hallowed; cbn [negb] in Hallowed.
  - unfold portal_handler. rewrite Ht, Hallowed. reflexivity.
  - intros r w'. unfold portal_handler. rewrite Ht, Hallowed. cbn [negb].
    destruct (negb (truthy (STRIPE_SECRET_KEY env)));
      [intros H; injection H; intros _ <-; discriminate |].
    unfold try_catch, bind at 1. rewrite rpc_select_customer.
    destruct (organization_settings _) as [rows |];
      [| intros H; injection H; intros _ <-; discriminate].
    destruct (existing_customer _) as [c |];
      [| intros H; injection H; intros _ <-; discriminate].
    unfold bind.
    destruct (portal_session_response _ _ _ _);
      [discriminate | intros H; injection H; intros _ <-; discriminate].
Qed.

Lemma billing_page_matches_portal_witness :
  let member := mkSession (Some "org_1") (Some "org:member") in
  isAdmin member = false /\
  portal_handler 1700000000000 (rejecting "not reached") sessions_up env_dev
                 (vars_of_session "user_2" member) world_with_customer
  = (Return (Failure (mkErrorResponse "Forbidden: Admin permission required"
                        None 403)), world_with_customer).
Proof.
  cbv zeta. split; [reflexivity |].
  assert (Hu : "user_2" <> "") by discriminate.
  refine (proj1 (billing_page_matches_portal 1700000000000 (rejecting "not reached")
                   sessions_up env_dev "user_2"
                   (mkSession (Some "org_1") (Some "org:member"))
                   world_with_customer Hu _) eq_refl).
  intros o Ho. injection Ho as <-. split; discriminate.
Defined.

(** X27.  When the page shows the "Manage Subscription" button (the user
    is an administrator and [/subscription] has answered
    [hasCustomer: true]), [POST /portal] for the same user finds that
    customer: it answers neither 403 nor 404 but asks the provider for a
    portal session of the customer [/subscription] named, and answers with
    that session's URL, or with a 500 if the provider fails. *)
Theorem manage_button_opens_portal (now1 now2 : Z)
  (foreign : string -> list Value -> Db -> Completion (list SqlRow * Db))
  (stripe : Stripe) (sessions : StripeSessions) (env : Env) (user : string)
  (s : Session) (w w1 : World) (answer : SubscriptionAnswer) :
  user <> "" ->
  (forall o, organization s = Some o -> o <> "" /\ o <> user) ->
  subscription_handler now1 foreign stripe env (vars_of_session user s) w
  = (Return (Json answer), w1) ->
  shows_manage_button s (Some answer) = true ->
  exists customer,
    answer_customerId answer = Some customer /\
    fst (portal_handler now2 foreign sessions env (vars_of_session user s) w1)
    = match portal_session_response sessions (stripe_calls w1) customer
              (String.append (or_default (APP_URL env) "http://localhost:5173")
                             "/dashboard/settings/billing") with
      | Return u => Return (Json (mkPortalAnswer u))
      | Throw e =>
          Return (Failure (mkErrorResponse "Failed to create portal session"
                             (Some (details_of e)) 500))
      end.
Proof.
  intros Hu Ho Hsub Hbutton.
  unfold shows_manage_button in Hbutton. apply andb_true_iff in Hbutton.
  destruct Hbutton as [Hadmin Hhas].
  destruct (session_allowed user s Hu Ho) as [_ Hallowed].
  rewrite Hadmin in Hallowed. cbn [negb] in Hallowed.
  destruct (subscription_handler_json_world foreign stripe now1 env _ w w1 answer Hsub)
    as (Ha & Hactor & Hcust).
  destruct (Hcust Hhas) as (c & Hc & Hstored).
  exists c. split; [exact Hc |].
  assert (Hrec : exists r, tenant_record (actor_of w1 (tenant_of (vars_of_session user s)))
                           = Some r).
  { rewrite Hactor. unfold customer_of in Hstored.
    destruct (tenant_record _) as [r |]; [eauto | discriminate]. }
  destruct Hrec as (r & Hr).
  rewrite (portal_handler_allowed now2 foreign sessions env _ w1 Ha Hallowed
             (actor_ready_intro _ r Hr)).
  cbn [fst].
  rewrite (initialised_set now2 _ (eq_trans (f_equal initialized Hactor)
                                      (initialised_flag now1 _))).
  rewrite Hactor, Hstored. reflexivity.
Qed.

Lemma manage_button_opens_portal_witness :
  let admin := mkSession (Some "org_1") (Some "org:admin") in
  exists w1,
    subscription_handler 1700000000000 (rejecting "not reached") stripe_subscribed
      env_dev (vars_of_session "user_1" admin) world_with_customer
    = (Return (Json (mkSubscriptionAnswer STANDARD true (Some "cus_abc")
                       (Some (mkSubscriptionInfo "sub_1" "active" 1702592000 false)))),
       w1) /\
    fst (portal_handler 1700000060000 (rejecting "not reached") sessions_up env_dev
           (vars_of_session "user_1" admin) w1)
    = Return (Json (mkPortalAnswer (Some "https://billing.stripe.com/p/session/1"))).
Proof.
  cbv zeta. eexists. split; [reflexivity |].
  assert (Hu : "user_1" <> "") by discriminate.
  assert (Ho : forall o, organization (mkSession (Some "org_1") (Some "org:admin")) = Some o ->
                         o <> "" /\ o <> "user_1").
  { intros o H. injection H as <-. split; discriminate. }
  destruct (manage_button_opens_portal 1700000000000 1700000060000
              (rejecting "not reached") stripe_subscribed sessions_up env_dev "user_1"
              (mkSession (Some "org_1") (Some "org:admin")) world_with_customer _
              (mkSubscriptionAnswer STANDARD true (Some "cus_abc")
                 (Some (mkSubscriptionInfo "sub_1" "active" 1702592000 false)))
              Hu Ho eq_refl eq_refl) as (c & Hc & Hportal).
  rewrite Hportal. reflexivity.
Defined.

Lemma initialisation_only_appends_witness :
  exists a',
    ensureInitialized 1700009000000 (rejecting "not reached")
      (mkActor (mkDb (Some [mkSettings 1 (Some "cus_abc") (Some "user_1") None
                                       1700000000 1700000500])) false)
    = (Return tt, a') /\
    sql a' = mkDb (Some [mkSettings 1 (Some "cus_abc") (Some "user_1") None
                                    1700000000 1700000500]).
Proof.
  destruct (initialisation_only_appends 1700009000000 (rejecting "not reached")
              (mkActor (mkDb (Some [mkSettings 1 (Some "cus_abc") (Some "user_1") None
                                               1700000000 1700000500])) false))
    as (a' & extra & Hrun & _ & _ & _ & Hkeep).
  exists a'. split; [exact Hrun |].
  exact (Hkeep _ eq_refl).
Defined.
